(** * Component Generator backend and preview: a shallow embedding

    The development follows the sources of the repository:

    - [backend/config/redis.js]: the Redis helpers ([setSessionData],
      [getSessionData], [setCache], [getCache]);
    - [backend/models/Session.js]: the session schema and its methods;
    - [backend/routes/sessions.js]: the nine session routes;
    - [backend/routes/ai.js]: the four AI proxy routes;
    - [frontend/app/editor/[sessionId]/page.tsx]: [renderPreview].

    Handlers are functions in a small state and exception monad over a
    [World] (the Session collection, the Redis client, a clock).  Every
    call that leaves the process (a Mongoose query, a Redis command, the
    outbound [fetch]) is recorded in the trace of the run, so that
    statements about which calls a request performs are statements about
    that trace.

    Conventions.  A JavaScript string is a Rocq [string], one character
    per code unit below 256.  JSON documents are kept as values of type
    [json]; numbers are integers.  Time is a natural number of seconds.
    The fields of a request are typed as the handlers read them: a
    string, a list of strings or the JSON the schema takes, or absent,
    and [null] for the two paths of the UI state that store it.  The
    Session collection holds every document as a query loads it, with
    the defaults of the schema applied.
    The document store is taken to be reachable: the failures modelled
    are the ones the sources raise or declare themselves (schema
    validation, an uninitialised Redis client, an invalid search
    pattern, the outcomes of the outbound call). *)

From Stdlib Require Import Ascii String ZArith List Bool Lia.
From stdpp Require Import base option list gmap strings pretty.

Set Warnings "-register-all".

Local Open Scope Z_scope.
Local Open Scope stdpp_scope.
(** ** JSON values and the JavaScript operations the sources apply to them *)

Inductive json : Type :=
| JNull
| JBool (b : bool)
| JNum (n : Z)
| JStr (s : string)
| JArr (xs : list json)
| JObj (kvs : list (string * json)).

(** A JavaScript value that may be [undefined]. *)
Abbreviation jsval := (option json).

Definition str_nonempty (s : string) : bool :=
  match s with EmptyString => false | String _ _ => true end.

(** Truthiness, as [if (v)], [!v] and [a || b] see it. *)
Definition truthy (v : json) : bool :=
  match v with
  | JNull => false
  | JBool b => b
  | JNum n => negb (n =? 0)
  | JStr s => str_nonempty s
  | JArr _ | JObj _ => true
  end.

Definition truthy_val (v : jsval) : bool :=
  match v with Some x => truthy x | None => false end.

(** [a || b] on possibly undefined values. *)
Definition js_or (a b : jsval) : jsval := if truthy_val a then a else b.

Fixpoint assoc_get {A} (k : string) (kvs : list (string * A)) : option A :=
  match kvs with
  | [] => None
  | (k', v) :: rest => if String.eqb k k' then Some v else assoc_get k rest
  end.

(** Writing a key of an object literal or spread: an existing key keeps
    its position, a new key goes last. *)
Fixpoint assoc_set {A} (k : string) (v : A) (kvs : list (string * A))
  : list (string * A) :=
  match kvs with
  | [] => [(k, v)]
  | (k', v') :: rest =>
      if String.eqb k k' then (k, v) :: rest else (k', v') :: assoc_set k v rest
  end.

(** Property access [v.k]; only objects carry the properties read here. *)
Definition get_field (k : string) (v : json) : jsval :=
  match v with JObj kvs => assoc_get k kvs | _ => None end.

(** [v.length] *)
Definition js_length (v : json) : option Z :=
  match v with
  | JArr xs => Some (Z.of_nat (length xs))
  | JStr s => Some (Z.of_nat (String.length s))
  | _ => None
  end.

(** [v[0]] *)
Definition js_first (v : json) : jsval :=
  match v with
  | JArr xs => head xs
  | JStr (String c _) => Some (JStr (String c EmptyString))
  | _ => None
  end.

Definition string_concat (ss : list string) : string :=
  fold_right String.append EmptyString ss.

Fixpoint join_with (sep : string) (ss : list string) : string :=
  match ss with
  | [] => EmptyString
  | [s] => s
  | s :: rest => s +:+ sep +:+ join_with sep rest
  end.

(** [String(v)], the conversion a template literal applies. *)
Fixpoint js_String (v : json) : string :=
  match v with
  | JNull => "null"
  | JBool true => "true"
  | JBool false => "false"
  | JNum n => pretty n
  | JStr s => s
  | JArr xs =>
      join_with ","
        (map (fun x => match x with JNull => EmptyString | _ => js_String x end) xs)
  | JObj _ => "[object Object]"
  end.

Definition js_String_val (v : jsval) : string :=
  match v with Some x => js_String x | None => "undefined" end.

(** An object literal in which a property whose value is [undefined] is
    left out, as [JSON.stringify] and [res.json] leave it out. *)
Definition obj_of (fields : list (string * jsval)) : json :=
  JObj (omap (fun kv => match kv.2 with Some v => Some (kv.1, v) | None => None end)
          fields).


(** ** The session schema ([models/Session.js]) *)

Record ChatMessage := {
  role : string;
  content : string;
  timestamp : nat;
  metadata : json
}.

Record ComponentCode := {
  jsx : string;
  css : string;
  tsx : string;
  version : Z;
  lastModified : nat
}.

(** [selectedElement] and [theme] are strings or [null] ([None]). *)
Record UIState := {
  selectedElement : option string;
  properties : json;
  viewport : Z * Z;
  theme : option string
}.

Record Session := {
  _id : string;
  userId : string;
  title : string;
  description : string;
  chatHistory : list ChatMessage;
  componentCode : ComponentCode;
  uiState : UIState;
  isActive : bool;
  lastAccessed : nat;
  tags : list string;
  sessionMetadata : json;
  createdAt : nat;
  updatedAt : nat
}.

(** ** The world a handler runs in, and the calls it records *)

(** A Redis key holds a value and, when one was set, the instant at which
    it expires.  The stored text is [JSON.stringify(data)] and a read
    applies [JSON.parse] to it; the model keeps the value that text
    denotes. *)
Record RedisEntry := {
  rvalue : json;
  rexpire : option nat
}.

Record World := {
  sessions : list Session;
  redisClient : option (gmap string RedisEntry);
  now : nat;
  oidCounter : nat
}.

(** The filter object of a Mongoose query on the Session collection. *)
Record Query := {
  q_id : option string;
  q_userId : option string;
  q_isActive : option bool;
  q_search : option string
}.

Inductive Event :=
| EvFind (q : Query)
| EvCountDocuments (q : Query)
| EvFindOne (q : Query)
| EvFindOneAndUpdate (q : Query)
| EvSave (id : string)
| EvRedisSetEx (key : string) (ttl : nat) (v : json)
| EvRedisGet (key : string)
| EvFetch (prompt : string).

Definition is_store_call (e : Event) : bool :=
  match e with
  | EvFind _ | EvCountDocuments _ | EvFindOne _ | EvFindOneAndUpdate _
  | EvSave _ => true
  | _ => false
  end.

Definition is_redis_read (e : Event) : bool :=
  match e with EvRedisGet _ => true | _ => false end.

Definition is_redis_write (e : Event) : bool :=
  match e with EvRedisSetEx _ _ _ => true | _ => false end.

Definition is_fetch (e : Event) : bool :=
  match e with EvFetch _ => true | _ => false end.

Definition store_calls (t : list Event) : nat :=
  length (List.filter is_store_call t).

(** ** The monad of handler code: state, a thrown error, a trace *)

Inductive Outcome (A : Type) :=
| Returned (a : A) (w : World) (t : list Event)
| Thrown (message : string) (w : World) (t : list Event).
Arguments Returned {A} a w t.
Arguments Thrown {A} message w t.

Definition M (A : Type) : Type := World -> Outcome A.

Definition ret {A} (a : A) : M A := fun w => Returned a w [].

Definition throw {A} (message : string) : M A := fun w => Thrown message w [].

Definition bind {A B} (m : M A) (k : A -> M B) : M B :=
  fun w =>
    match m w with
    | Returned a w1 t1 =>
        match k a w1 with
        | Returned b w2 t2 => Returned b w2 (t1 ++ t2)
        | Thrown e w2 t2 => Thrown e w2 (t1 ++ t2)
        end
    | Thrown e w1 t1 => Thrown e w1 t1
    end.

Notation "x <- m ;; k" := (bind m (fun x => k))
  (at level 100, m at next level, right associativity).
Notation "m ;;; k" := (bind m (fun _ => k))
  (at level 100, right associativity).

(** [try { body } catch (error) { handler(error.message) }] *)
Definition try_catch {A} (body : M A) (handler : string -> M A) : M A :=
  fun w =>
    match body w with
    | Returned a w1 t1 => Returned a w1 t1
    | Thrown e w1 t1 =>
        match handler e w1 with
        | Returned a w2 t2 => Returned a w2 (t1 ++ t2)
        | Thrown e2 w2 t2 => Thrown e2 w2 (t1 ++ t2)
        end
    end.

Definition get_world : M World := fun w => Returned w w [].
Definition put_world (w' : World) : M unit := fun _ => Returned tt w' [].
Definition emit (e : Event) : M unit := fun w => Returned tt w [e].

(** [new Date()], in seconds. *)
Definition new_Date : M nat := fun w => Returned (now w) w [].

Definition outcome_world {A} (o : Outcome A) : World :=
  match o with Returned _ w _ | Thrown _ w _ => w end.

Definition outcome_trace {A} (o : Outcome A) : list Event :=
  match o with Returned _ _ t | Thrown _ _ t => t end.

(** ** [config/redis.js] *)

Definition getRedisClient : M (gmap string RedisEntry) :=
  fun w =>
    match redisClient w with
    | None => Thrown "Redis client not initialized" w []
    | Some client => Returned client w []
    end.

Definition set_redis (client : gmap string RedisEntry) (w : World) : World :=
  {| sessions := sessions w; redisClient := Some client;
     now := now w; oidCounter := oidCounter w |}.

(** [client.setEx(key, ttl, value)]: the key expires [ttl] seconds from now. *)
Definition client_setEx (key : string) (ttl : nat) (v : json) : M unit :=
  fun w =>
    match redisClient w with
    | None => Thrown "The client is closed" w []
    | Some client =>
        Returned tt
          (set_redis (<[key := {| rvalue := v; rexpire := Some (now w + ttl)%nat |}]> client) w)
          [EvRedisSetEx key ttl v]
    end.

Definition entry_live (t : nat) (e : RedisEntry) : bool :=
  match rexpire e with
  | None => true
  | Some deadline => Nat.ltb t deadline
  end.

(** The value of a key that is set and has not expired at time [t]. *)
Definition live_value (client : gmap string RedisEntry) (t : nat) (key : string)
  : jsval :=
  match client !! key with
  | Some e => if entry_live t e then Some (rvalue e) else None
  | None => None
  end.

(** [client.get(key)] *)
Definition client_get (key : string) : M jsval :=
  fun w =>
    match redisClient w with
    | None => Thrown "The client is closed" w []
    | Some client => Returned (live_value client (now w) key) w [EvRedisGet key]
    end.

Definition session_key (sessionId : string) : string := "session:" +:+ sessionId.

Definition setSessionData (sessionId : string) (data : json) (ttl : option nat)
  : M unit :=
  let ttl := default 3600%nat ttl in
  _ <- getRedisClient ;;
  client_setEx (session_key sessionId) ttl data.

(** [data ? JSON.parse(data) : null] *)
Definition getSessionData (sessionId : string) : M json :=
  _ <- getRedisClient ;;
  data <- client_get (session_key sessionId) ;;
  ret (default JNull data).

Definition setCache (key : string) (data : json) (ttl : option nat) : M unit :=
  let ttl := default 300%nat ttl in
  _ <- getRedisClient ;;
  client_setEx key ttl data.

Definition getCache (key : string) : M json :=
  _ <- getRedisClient ;;
  data <- client_get key ;;
  ret (default JNull data).

(** ** What the process calls but does not define *)

Inductive FetchResult :=
| FetchRejected (message : string)
| FetchResponse (ok : bool) (status : nat) (payload : option json).

(** [JSON_parse] is [JSON.parse] ([None]: it throws); [RegExp_i p] is
    [new RegExp(p, 'i')] ([None]: the pattern is invalid) as a test on a
    subject; [fetch_gemini t p] is what the generative endpoint answers
    at time [t] to the prompt [p]. *)
Record Env := {
  JSON_parse : string -> option json;
  RegExp_i : string -> option (string -> bool);
  fetch_gemini : nat -> string -> FetchResult
}.

(** ** Strings: [trim] *)

Definition is_space (c : ascii) : bool :=
  let n := nat_of_ascii c in
  ((9 <=? n) && (n <=? 13) || (n =? 32) || (n =? 160))%nat.

Fixpoint trimStart (s : string) : string :=
  match s with
  | EmptyString => EmptyString
  | String c rest => if is_space c then trimStart rest else s
  end.

Fixpoint trimEnd (s : string) : string :=
  match s with
  | EmptyString => EmptyString
  | String c rest =>
      match trimEnd rest with
      | EmptyString => if is_space c then EmptyString else String c EmptyString
      | rest' => String c rest'
      end
  end.

Definition trim (s : string) : string := trimEnd (trimStart s).

(** ** Mongoose: the Session model *)

Definition opt_test {A} (f : A -> bool) (o : option A) : bool :=
  match o with Some a => f a | None => true end.

Definition matches (env : Env) (q : Query) (s : Session) : bool :=
  opt_test (String.eqb (_id s)) (q_id q)
  && opt_test (String.eqb (userId s)) (q_userId q)
  && opt_test (Bool.eqb (isActive s)) (q_isActive q)
  && opt_test (fun pat =>
        match RegExp_i env pat with
        | Some re => re (title s) || re (description s) || existsb re (tags s)
        | None => false
        end) (q_search q).

Definition set_sessions (l : list Session) (w : World) : World :=
  {| sessions := l; redisClient := redisClient w;
     now := now w; oidCounter := oidCounter w |}.

Definition Session_findOne (env : Env) (q : Query) : M (option Session) :=
  fun w => Returned (List.find (matches env q) (sessions w)) w [EvFindOne q].

Fixpoint insert_by_lastAccessed (s : Session) (l : list Session) : list Session :=
  match l with
  | [] => [s]
  | x :: rest =>
      if Nat.ltb (lastAccessed x) (lastAccessed s) then s :: l
      else x :: insert_by_lastAccessed s rest
  end.

(** [.sort({ lastAccessed: -1 })] *)
Definition sort_lastAccessed_desc (l : list Session) : list Session :=
  fold_right insert_by_lastAccessed [] l.

(** [Session.find(query).sort(..).skip(skip).limit(limit)] *)
Definition Session_find (env : Env) (q : Query) (skip limit : nat)
  : M (list Session) :=
  fun w =>
    Returned
      (take limit (drop skip
         (sort_lastAccessed_desc (List.filter (matches env q) (sessions w)))))
      w [EvFind q].

Definition Session_countDocuments (env : Env) (q : Query) : M nat :=
  fun w =>
    Returned (length (List.filter (matches env q) (sessions w))) w
      [EvCountDocuments q].

Fixpoint update_first (p : Session -> bool) (f : Session -> Session)
    (l : list Session) : option (Session * list Session) :=
  match l with
  | [] => None
  | x :: rest =>
      if p x then Some (f x, f x :: rest)
      else match update_first p f rest with
           | Some (y, rest') => Some (y, x :: rest')
           | None => None
           end
  end.

Definition touch_updatedAt (t : nat) (s : Session) : Session :=
  {| _id := _id s; userId := userId s; title := title s;
     description := description s; chatHistory := chatHistory s;
     componentCode := componentCode s; uiState := uiState s;
     isActive := isActive s; lastAccessed := lastAccessed s; tags := tags s;
     sessionMetadata := sessionMetadata s; createdAt := createdAt s;
     updatedAt := t |}.

(** [Session.findOneAndUpdate(filter, update, { new: true })]: the first
    match is updated and returned as updated; the schema option
    [timestamps: true] makes the update set [updatedAt]. *)
Definition Session_findOneAndUpdate (env : Env) (q : Query)
    (update : Session -> Session) : M (option Session) :=
  fun w =>
    match update_first (matches env q)
            (fun s => touch_updatedAt (now w) (update s)) (sessions w) with
    | Some (s', l') => Returned (Some s') (set_sessions l' w) [EvFindOneAndUpdate q]
    | None => Returned None w [EvFindOneAndUpdate q]
    end.

(** Schema validators. *)
Definition validate_title (t : string) : option string :=
  if negb (str_nonempty t) then Some "Session validation failed: title: Path `title` is required."
  else if Nat.ltb 100 (String.length t) then Some "Session validation failed: title: Path `title` is longer than the maximum allowed length (100)."
  else None.

Definition validate_description (d : string) : option string :=
  if Nat.ltb 500 (String.length d) then Some "Session validation failed: description: Path `description` is longer than the maximum allowed length (500)."
  else None.

Definition validate_role (r : string) : option string :=
  if String.eqb r "user" || String.eqb r "assistant" then None
  else Some "Session validation failed: chatHistory: `role` is not a valid enum value.".

Definition validate_content (c : string) : option string :=
  if str_nonempty c then None
  else Some "Session validation failed: chatHistory: Path `content` is required.".

(** The [enum] validator of [theme]; it does not run on [null]. *)
Definition validate_theme (t : option string) : option string :=
  match t with
  | None => None
  | Some t =>
      if String.eqb t "light" || String.eqb t "dark" then None
      else Some "Session validation failed: uiState.theme: not a valid enum value."
  end.

Definition first_error (checks : list (option string)) : option string :=
  head (omap id checks).

(** The paths [save] validates: the required ones and the ones the
    methods of this model modify. *)
Definition validate_session (s : Session) : option string :=
  first_error
    ([validate_title (title s); validate_description (description s)]
     ++ map (fun m => validate_role (role m)) (chatHistory s)
     ++ map (fun m => validate_content (content m)) (chatHistory s)
     ++ [validate_theme (theme (uiState s))]).

Definition stamp_save (t : nat) (s : Session) : Session :=
  {| _id := _id s; userId := userId s; title := title s;
     description := description s; chatHistory := chatHistory s;
     componentCode := componentCode s; uiState := uiState s;
     isActive := isActive s; lastAccessed := t; tags := tags s;
     sessionMetadata := sessionMetadata s; createdAt := createdAt s;
     updatedAt := t |}.

Fixpoint replace_doc (s : Session) (l : list Session) : list Session :=
  match l with
  | [] => [s]
  | x :: rest =>
      if String.eqb (_id x) (_id s) then s :: rest else x :: replace_doc s rest
  end.

(** [session.save()]: the [pre('save')] hook sets [lastAccessed], the
    document is validated (a failure rejects before anything is sent to
    the store), and the document is written under its [_id]. *)
Definition save (s : Session) : M Session :=
  fun w =>
    let s' := stamp_save (now w) s in
    match validate_session s' with
    | Some message => Thrown message w []
    | None => Returned s' (set_sessions (replace_doc s' (sessions w)) w) [EvSave (_id s')]
    end.

Definition with_chatHistory (h : list ChatMessage) (s : Session) : Session :=
  {| _id := _id s; userId := userId s; title := title s;
     description := description s; chatHistory := h;
     componentCode := componentCode s; uiState := uiState s;
     isActive := isActive s; lastAccessed := lastAccessed s; tags := tags s;
     sessionMetadata := sessionMetadata s; createdAt := createdAt s;
     updatedAt := updatedAt s |}.

Definition with_componentCode (c : ComponentCode) (s : Session) : Session :=
  {| _id := _id s; userId := userId s; title := title s;
     description := description s; chatHistory := chatHistory s;
     componentCode := c; uiState := uiState s;
     isActive := isActive s; lastAccessed := lastAccessed s; tags := tags s;
     sessionMetadata := sessionMetadata s; createdAt := createdAt s;
     updatedAt := updatedAt s |}.

Definition with_uiState (u : UIState) (s : Session) : Session :=
  {| _id := _id s; userId := userId s; title := title s;
     description := description s; chatHistory := chatHistory s;
     componentCode := componentCode s; uiState := u;
     isActive := isActive s; lastAccessed := lastAccessed s; tags := tags s;
     sessionMetadata := sessionMetadata s; createdAt := createdAt s;
     updatedAt := updatedAt s |}.

Definition with_isActive (b : bool) (s : Session) : Session :=
  {| _id := _id s; userId := userId s; title := title s;
     description := description s; chatHistory := chatHistory s;
     componentCode := componentCode s; uiState := uiState s;
     isActive := b; lastAccessed := lastAccessed s; tags := tags s;
     sessionMetadata := sessionMetadata s; createdAt := createdAt s;
     updatedAt := updatedAt s |}.

(** [sessionSchema.methods.addChatMessage]; [timestamp] takes its schema
    default [Date.now]. *)
Definition addChatMessage (role content : string) (metadata : option json)
    (s : Session) : M Session :=
  let metadata := default (JObj []) metadata in
  t <- new_Date ;;
  save (with_chatHistory
          (chatHistory s ++
           [{| role := role; content := content; timestamp := t;
               metadata := metadata |}]) s).

(** A document in memory after [updateComponentCode].  Assigning
    [undefined] to [componentCode.jsx] or [componentCode.css] unsets the
    path: it stays [undefined] in the document in memory, [save] removes
    it from the stored document, and a document loaded from the store
    reads it as the schema default, the empty string.  [in_store] is the
    document as a later query loads it; [memory_jsx] and [memory_css] are
    the two paths as the document in memory has them. *)
Record InMemory := {
  in_store : Session;
  memory_jsx : option string;
  memory_css : option string
}.

(** [sessionSchema.methods.updateComponentCode]; [tsx] has the parameter
    default [''], [jsx] and [css] are assigned as they come. *)
Definition updateComponentCode (jsx css tsx : option string) (s : Session)
  : M InMemory :=
  let tsx := default EmptyString tsx in
  t <- new_Date ;;
  saved <- save (with_componentCode
                   {| jsx := default EmptyString jsx;
                      css := default EmptyString css;
                      tsx := tsx;
                      version := version (componentCode s) + 1;
                      lastModified := t |} s) ;;
  ret {| in_store := saved; memory_jsx := jsx; memory_css := css |}.

(** The body of [PUT /:sessionId/ui-state]: the properties it carries
    ([None]: the body does not have the property); a [selectedElement]
    or [theme] it carries is a string or [null]. *)
Record UIStatePatch := {
  patch_selectedElement : option (option string);
  patch_properties : option json;
  patch_viewport : option (Z * Z);
  patch_theme : option (option string)
}.

(** [sessionSchema.methods.updateUIState]:
    [this.uiState = { ...this.uiState, ...uiState }], read as an update
    of the four paths of the schema: a path the body carries takes the
    value of the body, the others keep theirs. *)
Definition updateUIState (p : UIStatePatch) (s : Session) : M Session :=
  let u := uiState s in
  save (with_uiState
          {| selectedElement := default (selectedElement u) (patch_selectedElement p);
             properties := default (properties u) (patch_properties p);
             viewport := default (viewport u) (patch_viewport p);
             theme := default (theme u) (patch_theme p) |} s).

(** ** Documents as JSON *)

Definition JDate (t : nat) : json := JNum (Z.of_nat t).

Definition opt_json (o : option string) : json :=
  match o with Some s => JStr s | None => JNull end.

Definition ChatMessage_toJSON (m : ChatMessage) : json :=
  JObj [("role", JStr (role m)); ("content", JStr (content m));
        ("timestamp", JDate (timestamp m)); ("metadata", metadata m)].

Definition ComponentCode_toJSON (c : ComponentCode) : json :=
  JObj [("jsx", JStr (jsx c)); ("css", JStr (css c)); ("tsx", JStr (tsx c));
        ("version", JNum (version c)); ("lastModified", JDate (lastModified c))].

Definition UIState_toJSON (u : UIState) : json :=
  JObj [("selectedElement", opt_json (selectedElement u));
        ("properties", properties u);
        ("viewport", JObj [("width", JNum (viewport u).1);
                           ("height", JNum (viewport u).2)]);
        ("theme", opt_json (theme u))].

Definition chatHistory_toJSON (h : list ChatMessage) : json :=
  JArr (map ChatMessage_toJSON h).

(** [componentCode] of a document in memory: an unset path has no key. *)
Definition componentCode_inMemory (d : InMemory) : json :=
  let c := componentCode (in_store d) in
  obj_of [("jsx", JStr <$> memory_jsx d); ("css", JStr <$> memory_css d);
          ("tsx", Some (JStr (tsx c))); ("version", Some (JNum (version c)));
          ("lastModified", Some (JDate (lastModified c)))].

(** A Mongoose document as a query returns it: the stored session and
    which of the three large paths were selected. *)
Record SessionDoc := {
  stored : Session;
  doc_chatHistory : option (list ChatMessage);
  doc_componentCode : option ComponentCode;
  doc_uiState : option UIState
}.

Definition full_doc (s : Session) : SessionDoc :=
  {| stored := s; doc_chatHistory := Some (chatHistory s);
     doc_componentCode := Some (componentCode s);
     doc_uiState := Some (uiState s) |}.

(** [.select('-chatHistory -componentCode -uiState')] *)
Definition select_summary (s : Session) : SessionDoc :=
  {| stored := s; doc_chatHistory := None; doc_componentCode := None;
     doc_uiState := None |}.

Definition toObject (d : SessionDoc) : list (string * json) :=
  let s := stored d in
  omap (fun kv : string * jsval =>
          match kv.2 with Some v => Some (kv.1, v) | None => None end)
    [("_id", Some (JStr (_id s)));
     ("userId", Some (JStr (userId s)));
     ("title", Some (JStr (title s)));
     ("description", Some (JStr (description s)));
     ("chatHistory", chatHistory_toJSON <$> doc_chatHistory d);
     ("componentCode", ComponentCode_toJSON <$> doc_componentCode d);
     ("uiState", UIState_toJSON <$> doc_uiState d);
     ("isActive", Some (JBool (isActive s)));
     ("lastAccessed", Some (JDate (lastAccessed s)));
     ("tags", Some (JArr (map JStr (tags s))));
     ("metadata", Some (sessionMetadata s));
     ("createdAt", Some (JDate (createdAt s)));
     ("updatedAt", Some (JDate (updatedAt s)))].

Definition Session_toJSON (s : Session) : json := JObj (toObject (full_doc s)).

(** ** [routes/sessions.js] *)

Record Response := {
  status : nat;
  body : json
}.

Definition res_json (v : json) : Response := {| status := 200; body := v |}.
Definition res_status_json (code : nat) (v : json) : Response :=
  {| status := code; body := v |}.

Definition error_body (message : string) : json := JObj [("error", JStr message)].

(** [ensureSessionDefaults]; a missing [componentCode] is dated
    [new Date()]. *)
Definition ensureSessionDefaults (t : nat) (d : SessionDoc) : json :=
  JObj
    (assoc_set "uiState"
       (match doc_uiState d with
        | Some u => UIState_toJSON u
        | None =>
            JObj [("selectedElement", JNull); ("properties", JObj []);
                  ("viewport", JObj [("width", JNum 1200); ("height", JNum 800)]);
                  ("theme", JStr "light")]
        end)
    (assoc_set "componentCode"
       (match doc_componentCode d with
        | Some c => ComponentCode_toJSON c
        | None =>
            JObj [("jsx", JStr ""); ("css", JStr ""); ("tsx", JStr "");
                  ("version", JNum 1); ("lastModified", JDate t)]
        end)
    (assoc_set "tags" (JArr (map JStr (tags (stored d))))
    (assoc_set "chatHistory"
       (chatHistory_toJSON (default [] (doc_chatHistory d)))
    (toObject d))))).

Record User := {
  user_id : string
}.

(** The filter every per-session route builds:
    [{ _id: sessionId, userId: req.user._id, isActive: true }]. *)
Definition owned_active (user : User) (sessionId : string) : Query :=
  {| q_id := Some sessionId; q_userId := Some (user_id user);
     q_isActive := Some true; q_search := None |}.

(** The object the routes mirror into Redis. *)
Definition session_data (s : Session) : json :=
  JObj [("chatHistory", chatHistory_toJSON (chatHistory s));
        ("componentCode", ComponentCode_toJSON (componentCode s));
        ("uiState", UIState_toJSON (uiState s))].

(** The same object, of a document in memory after [updateComponentCode]. *)
Definition session_data_inMemory (d : InMemory) : json :=
  JObj [("chatHistory", chatHistory_toJSON (chatHistory (in_store d)));
        ("componentCode", componentCode_inMemory d);
        ("uiState", UIState_toJSON (uiState (in_store d)))].

Definition console_error (label message : string) : M unit := ret tt.

Definition Z_ceil_div (a b : Z) : Z := (a + b - 1) / b.

(** A query parameter that the handler reads as a number.  [page] and
    [limit] are query strings, and the handler reads each of them in two
    ways: with the numeric coercion of [-], [*] and [/] (in [skip] and in
    [pages]) and with [parseInt] (in the limit of the query and in the
    two numbers it echoes).  [as_number] and [as_parseInt] are the two
    readings of one string: both are 10 for the string [10], and they are
    10 and 1 for the string [1e1].  The request type carries the strings
    for which both readings are positive integers. *)
Record QueryNumber := {
  as_number : positive;
  as_parseInt : positive
}.

(** The parameter default, a number: both readings give it. *)
Definition numeral (n : positive) : QueryNumber :=
  {| as_number := n; as_parseInt := n |}.

(** The [try] block of [sessions_list]. *)
Definition sessions_list_body (env : Env) (user : User)
    (page limit : option QueryNumber) (search : option string)
  : M Response :=
  let page := default (numeral 1) page in
  let limit := default (numeral 10) limit in
  let skip :=
    ((Pos.to_nat (as_number page) - 1) * Pos.to_nat (as_number limit))%nat in
  query <-
    (match search with
     | Some pat =>
         if str_nonempty pat then
           match RegExp_i env pat with
           | Some _ =>
               ret {| q_id := None; q_userId := Some (user_id user);
                      q_isActive := Some true; q_search := Some pat |}
           | None => throw ("Invalid regular expression: /" +:+ pat +:+ "/")
           end
         else ret {| q_id := None; q_userId := Some (user_id user);
                     q_isActive := Some true; q_search := None |}
     | None => ret {| q_id := None; q_userId := Some (user_id user);
                      q_isActive := Some true; q_search := None |}
     end) ;;
  sessions <- Session_find env query skip (Pos.to_nat (as_parseInt limit)) ;;
  total <- Session_countDocuments env query ;;
  t <- new_Date ;;
  let sessionsWithDefaults :=
    map (fun s => ensureSessionDefaults t (select_summary s)) sessions in
  ret (res_json
         (JObj [("sessions", JArr sessionsWithDefaults);
                ("pagination",
                 JObj [("page", JNum (Z.pos (as_parseInt page)));
                       ("limit", JNum (Z.pos (as_parseInt limit)));
                       ("total", JNum (Z.of_nat total));
                       ("pages",
                        JNum (Z_ceil_div (Z.of_nat total)
                                (Z.pos (as_number limit))))])])).

(** [router.get('/')] *)
Definition sessions_list (env : Env) (user : User)
    (page limit : option QueryNumber) (search : option string)
  : M Response :=
  try_catch (sessions_list_body env user page limit search)
    (fun error =>
       console_error "Fetch sessions error:" error ;;;
       ret (res_status_json 500 (error_body "Failed to fetch sessions"))).

(** The [try] block of [sessions_get]. *)
Definition sessions_get_body (env : Env) (user : User) (sessionId : string)
  : M Response :=
  session <- Session_findOne env (owned_active user sessionId) ;;
  match session with
  | None => ret (res_status_json 404 (error_body "Session not found"))
  | Some session =>
      setSessionData sessionId (session_data session) None ;;;
      t <- new_Date ;;
      ret (res_json (JObj [("session", ensureSessionDefaults t (full_doc session))]))
  end.

(** [router.get('/:sessionId')] *)
Definition sessions_get (env : Env) (user : User) (sessionId : string)
  : M Response :=
  try_catch (sessions_get_body env user sessionId)
    (fun error =>
       console_error "Fetch session error:" error ;;;
       ret (res_status_json 500 (error_body "Failed to fetch session"))).

Definition objectId (n : nat) : string := pretty n.

(** [new Session({...})]: a fresh [_id]; [trim] is a setter of [title],
    [description] and the tags. *)
Definition new_Session (userId title description : string) (tags : list string)
  : M Session :=
  fun w =>
    Returned
      {| _id := objectId (oidCounter w); userId := userId;
         title := trim title; description := trim description;
         chatHistory := [];
         componentCode := {| jsx := ""; css := ""; tsx := ""; version := 1;
                             lastModified := now w |};
         uiState := {| selectedElement := None; properties := JObj [];
                       viewport := (1200, 800); theme := Some "light" |};
         isActive := true; lastAccessed := now w; tags := map trim tags;
         sessionMetadata := JObj []; createdAt := now w; updatedAt := now w |}
      {| sessions := sessions w; redisClient := redisClient w; now := now w;
         oidCounter := S (oidCounter w) |}
      [].

(** The [try] block of [sessions_create]. *)
Definition sessions_create_body (env : Env) (user : User)
    (title description : option string) (tags : option (list string))
  : M Response :=
  if negb (str_nonempty (default "" title)) then
    ret (res_status_json 400 (error_body "Title is required"))
  else
    session <- new_Session (user_id user) (default "" title)
                 (default "" description) (default [] tags) ;;
    session <- save session ;;
    t <- new_Date ;;
    ret (res_status_json 201
           (JObj [("message", JStr "Session created successfully");
                  ("session", ensureSessionDefaults t (full_doc session))])).

(** [router.post('/')] *)
Definition sessions_create (env : Env) (user : User)
    (title description : option string) (tags : option (list string))
  : M Response :=
  try_catch (sessions_create_body env user title description tags)
    (fun error =>
       console_error "Create session error:" error ;;;
       ret (res_status_json 500 (error_body "Failed to create session"))).

(** The update [{ title, description, tags, lastAccessed: new Date() }];
    a property that is [undefined] is not part of the update. *)
Definition set_metadata (t : nat) (new_title new_description : option string)
    (new_tags : option (list string)) (s : Session) : Session :=
  {| _id := _id s; userId := userId s;
     title := default (title s) (trim <$> new_title);
     description := default (description s) (trim <$> new_description);
     chatHistory := chatHistory s; componentCode := componentCode s;
     uiState := uiState s; isActive := isActive s; lastAccessed := t;
     tags := default (tags s) (map trim <$> new_tags);
     sessionMetadata := sessionMetadata s; createdAt := createdAt s;
     updatedAt := updatedAt s |}.

(** The [try] block of [sessions_update]. *)
Definition sessions_update_body (env : Env) (user : User) (sessionId : string)
    (title description : option string) (tags : option (list string))
  : M Response :=
  t <- new_Date ;;
  match first_error
          [from_option (fun x => validate_title (trim x)) None title;
           from_option (fun x => validate_description (trim x)) None description] with
  | Some message => throw message
  | None =>
      session <- Session_findOneAndUpdate env (owned_active user sessionId)
                   (set_metadata t title description tags) ;;
      match session with
      | None => ret (res_status_json 404 (error_body "Session not found"))
      | Some session =>
          ret (res_json (JObj [("message", JStr "Session updated successfully");
                               ("session", Session_toJSON session)]))
      end
  end.

(** [router.put('/:sessionId')]; [runValidators] checks the paths of the
    update before the command is sent. *)
Definition sessions_update (env : Env) (user : User) (sessionId : string)
    (title description : option string) (tags : option (list string))
  : M Response :=
  try_catch (sessions_update_body env user sessionId title description tags)
    (fun error =>
       console_error "Update session error:" error ;;;
       ret (res_status_json 500 (error_body "Failed to update session"))).

(** The [try] block of [sessions_delete]. *)
Definition sessions_delete_body (env : Env) (user : User) (sessionId : string)
  : M Response :=
  session <- Session_findOneAndUpdate env (owned_active user sessionId)
               (with_isActive false) ;;
  match session with
  | None => ret (res_status_json 404 (error_body "Session not found"))
  | Some _ =>
      setSessionData sessionId JNull None ;;;
      ret (res_json (JObj [("message", JStr "Session deleted successfully")]))
  end.

(** [router.delete('/:sessionId')] *)
Definition sessions_delete (env : Env) (user : User) (sessionId : string)
  : M Response :=
  try_catch (sessions_delete_body env user sessionId)
    (fun error =>
       console_error "Delete session error:" error ;;;
       ret (res_status_json 500 (error_body "Failed to delete session"))).

(** The [try] block of [sessions_chat]. *)
Definition sessions_chat_body (env : Env) (user : User) (sessionId : string)
    (role content : option string) (metadata : option json)
  : M Response :=
  if negb (str_nonempty (default "" role)) || negb (str_nonempty (default "" content))
  then ret (res_status_json 400 (error_body "Role and content are required"))
  else
    session <- Session_findOne env (owned_active user sessionId) ;;
    match session with
    | None => ret (res_status_json 404 (error_body "Session not found"))
    | Some session =>
        session <- addChatMessage (default "" role) (default "" content)
                     metadata session ;;
        setSessionData sessionId (session_data session) None ;;;
        ret (res_json
               (JObj [("message", JStr "Chat message added successfully");
                      ("messageCount",
                       JNum (Z.of_nat (length (chatHistory session))))]))
    end.

(** [router.post('/:sessionId/chat')] *)
Definition sessions_chat (env : Env) (user : User) (sessionId : string)
    (role content : option string) (metadata : option json)
  : M Response :=
  try_catch (sessions_chat_body env user sessionId role content metadata)
    (fun error =>
       console_error "Add chat message error:" error ;;;
       ret (res_status_json 500 (error_body "Failed to add chat message"))).

(** The [try] block of [sessions_code]. *)
Definition sessions_code_body (env : Env) (user : User) (sessionId : string)
    (jsx css tsx : option string)
  : M Response :=
  session <- Session_findOne env (owned_active user sessionId) ;;
  match session with
  | None => ret (res_status_json 404 (error_body "Session not found"))
  | Some session =>
      session <- updateComponentCode jsx css tsx session ;;
      setSessionData sessionId (session_data_inMemory session) None ;;;
      ret (res_json
             (JObj [("message", JStr "Component code updated successfully");
                    ("componentCode", componentCode_inMemory session)]))
  end.

(** [router.put('/:sessionId/code')] *)
Definition sessions_code (env : Env) (user : User) (sessionId : string)
    (jsx css tsx : option string)
  : M Response :=
  try_catch (sessions_code_body env user sessionId jsx css tsx)
    (fun error =>
       console_error "Update component code error:" error ;;;
       ret (res_status_json 500 (error_body "Failed to update component code"))).

(** The [try] block of [sessions_ui_state]. *)
Definition sessions_ui_state_body (env : Env) (user : User) (sessionId : string)
    (patch : UIStatePatch)
  : M Response :=
  session <- Session_findOne env (owned_active user sessionId) ;;
  match session with
  | None => ret (res_status_json 404 (error_body "Session not found"))
  | Some session =>
      session <- updateUIState patch session ;;
      setSessionData sessionId (session_data session) None ;;;
      ret (res_json
             (JObj [("message", JStr "UI state updated successfully");
                    ("uiState", UIState_toJSON (uiState session))]))
  end.

(** [router.put('/:sessionId/ui-state')] *)
Definition sessions_ui_state (env : Env) (user : User) (sessionId : string)
    (patch : UIStatePatch)
  : M Response :=
  try_catch (sessions_ui_state_body env user sessionId patch)
    (fun error =>
       console_error "Update UI state error:" error ;;;
       ret (res_status_json 500 (error_body "Failed to update UI state"))).

Definition count_role (r : string) (h : list ChatMessage) : nat :=
  length (List.filter (fun msg => String.eqb (role msg) r) h).

(** The [try] block of [sessions_stats]. *)
Definition sessions_stats_body (env : Env) (user : User) (sessionId : string)
  : M Response :=
  session <- Session_findOne env (owned_active user sessionId) ;;
  match session with
  | None => ret (res_status_json 404 (error_body "Session not found"))
  | Some session =>
      let stats :=
        JObj [("messageCount", JNum (Z.of_nat (length (chatHistory session))));
              ("codeVersion", JNum (version (componentCode session)));
              ("lastModified", JDate (lastModified (componentCode session)));
              ("createdAt", JDate (createdAt session));
              ("lastAccessed", JDate (lastAccessed session));
              ("userMessages",
               JNum (Z.of_nat (count_role "user" (chatHistory session))));
              ("assistantMessages",
               JNum (Z.of_nat (count_role "assistant" (chatHistory session))))] in
      ret (res_json (JObj [("stats", stats)]))
  end.

(** [router.get('/:sessionId/stats')] *)
Definition sessions_stats (env : Env) (user : User) (sessionId : string)
  : M Response :=
  try_catch (sessions_stats_body env user sessionId)
    (fun error =>
       console_error "Get session stats error:" error ;;;
       ret (res_status_json 500 (error_body "Failed to get session statistics"))).

(** ** [routes/ai.js] *)

Definition dquote : string := String (ascii_of_nat 34) EmptyString.

(** [chatHistory.slice(-5)] *)
Definition last5 {A} (l : list A) : list A := drop (length l - 5)%nat l.

(** [generateComponentPrompt]; [chatHistory] is the list of the [role]
    and [content] of the messages. *)
Definition generateComponentPrompt (userPrompt : string) (existingCode : jsval)
    (chatHistory : list (string * string)) : string :=
  let prompt :=
    string_concat
    ["You are an expert React developer. Generate a complete React component based on the user's request.

IMPORTANT REQUIREMENTS:
1. Generate a standalone React functional component (no imports needed)
2. Use only React hooks (useState, useEffect) - no external libraries
3. Include all CSS styles in a separate CSS block
4. Make the component self-contained and preview-friendly
5. Use semantic HTML elements and modern design principles
6. Make the component responsive and accessible
7. Use inline styles or CSS classes for styling
8. Do NOT include import statements or export statements
9. The component should work in a browser environment with React 18

User Request: "; userPrompt; "

"] in
  let prompt :=
    if truthy_val existingCode then
      prompt +:+
      string_concat
    ["
Existing Code:
"; js_String_val existingCode; "

Please modify/improve the existing code based on the new request."]
    else prompt in
  let prompt :=
    if (0 <? length chatHistory)%nat then
      fold_left
        (fun prompt msg =>
           prompt +:+
           string_concat
    [msg.1; ": "; msg.2; "
"])
        (last5 chatHistory)
        (prompt +:+
         string_concat
    ["

Previous conversation context:
"])
    else prompt in
  prompt +:+
  string_concat
    ["

Please provide the response in the following JSON format:
{
  "; dquote; "jsx"; dquote; ": "; dquote; "// React JSX code here"; dquote; ",
  "; dquote; "css"; dquote; ": "; dquote; "// CSS styles here"; dquote; ",
  "; dquote; "tsx"; dquote; ": "; dquote; "// TypeScript version if applicable"; dquote; ",
  "; dquote; "explanation"; dquote; ": "; dquote; "Brief explanation of the component and its features"; dquote; "
}"].

Definition refinePrompt (prompt : string) (currentCode : json) : string :=
  string_concat
    ["You are an expert React developer. Please refine/modify the existing React component based on the user's request.

Current Component Code:
"; js_String_val (js_or (get_field "jsx" currentCode) (Some currentCode)); "

CSS:
"; js_String_val (js_or (get_field "css" currentCode) (Some (JStr EmptyString))); "

User's Refinement Request: "; prompt; "

Please provide the updated component in the same JSON format:
{
  "; dquote; "jsx"; dquote; ": "; dquote; "// Updated React JSX code"; dquote; ",
  "; dquote; "css"; dquote; ": "; dquote; "// Updated CSS styles"; dquote; ",
  "; dquote; "tsx"; dquote; ": "; dquote; "// Updated TypeScript version if applicable"; dquote; ",
  "; dquote; "explanation"; dquote; ": "; dquote; "Brief explanation of the changes made"; dquote; "
}

Make sure to preserve the existing functionality while applying the requested changes."].

Definition variationsPrompt (baseCode : json) (count : json) : string :=
  string_concat
    ["You are an expert React developer. Generate "; js_String count; " different variations of the following React component. Each variation should have a different style, layout, or approach while maintaining the same core functionality.

Base Component:
"; js_String_val (js_or (get_field "jsx" baseCode) (Some baseCode)); "

CSS:
"; js_String_val (js_or (get_field "css" baseCode) (Some (JStr EmptyString))); "

Please provide "; js_String count; " variations in the following JSON format:
{
  "; dquote; "variations"; dquote; ": [
    {
      "; dquote; "name"; dquote; ": "; dquote; "Variation 1 Name"; dquote; ",
      "; dquote; "jsx"; dquote; ": "; dquote; "// JSX code for variation 1"; dquote; ",
      "; dquote; "css"; dquote; ": "; dquote; "// CSS for variation 1"; dquote; ",
      "; dquote; "description"; dquote; ": "; dquote; "Brief description of this variation"; dquote; "
    },
    // ... more variations
  ]
}"].

Definition analyzePrompt (code : json) : string :=
  string_concat
    ["You are an expert React developer and code reviewer. Analyze the following React component code and provide feedback on:

1. Code quality and best practices
2. Performance considerations
3. Accessibility improvements
4. Security considerations
5. Suggested optimizations
6. Potential bugs or issues

Component Code:
"; js_String_val (js_or (get_field "jsx" code) (Some code)); "

CSS:
"; js_String_val (js_or (get_field "css" code) (Some (JStr EmptyString))); "

Please provide a comprehensive analysis in JSON format:
{
  "; dquote; "analysis"; dquote; ": {
    "; dquote; "codeQuality"; dquote; ": "; dquote; "Assessment of code quality"; dquote; ",
    "; dquote; "performance"; dquote; ": "; dquote; "Performance considerations"; dquote; ",
    "; dquote; "accessibility"; dquote; ": "; dquote; "Accessibility improvements"; dquote; ",
    "; dquote; "security"; dquote; ": "; dquote; "Security considerations"; dquote; ",
    "; dquote; "optimizations"; dquote; ": ["; dquote; "List of suggested optimizations"; dquote; "],
    "; dquote; "issues"; dquote; ": ["; dquote; "List of potential issues"; dquote; "],
    "; dquote; "overallScore"; dquote; ": 85
  }
}"].

(** [Buffer.from(s)] for a string [s]: its UTF-8 bytes.  The strings of
    the model have their code units below 256, which take one byte below
    128 and two from there on. *)
Definition utf8_bytes (s : string) : list nat :=
  flat_map
    (fun c => let n := nat_of_ascii c in
              if (n <? 128)%nat then [n]
              else [(192 + n / 64)%nat; (128 + n mod 64)%nat])
    (list_ascii_of_string s).

Definition base64_char (n : nat) : ascii :=
  if (n <? 26)%nat then ascii_of_nat (65 + n)
  else if (n <? 52)%nat then ascii_of_nat (97 + (n - 26))
  else if (n <? 62)%nat then ascii_of_nat (48 + (n - 52))
  else if (n =? 62)%nat then "+"%char
  else "/"%char.

(** [.toString('base64')] *)
Fixpoint base64_encode (bytes : list nat) : string :=
  match bytes with
  | [] => EmptyString
  | [a] =>
      String (base64_char (a / 4))
        (String (base64_char (a mod 4 * 16)) "==")
  | [a; b] =>
      String (base64_char (a / 4))
        (String (base64_char (a mod 4 * 16 + b / 16))
           (String (base64_char (b mod 16 * 4)) "="))
  | a :: b :: c :: rest =>
      String (base64_char (a / 4))
        (String (base64_char (a mod 4 * 16 + b / 16))
           (String (base64_char (b mod 16 * 4 + c / 64))
              (String (base64_char (c mod 64)) (base64_encode rest))))
  end%nat.

(** [`ai_generate:${Buffer.from(prompt).toString('base64')}`] *)
Definition cacheKey (prompt : string) : string :=
  "ai_generate:" +:+ base64_encode (utf8_bytes prompt).

(** [text.match(/\{[\s\S]*\}/)]: the match starts at the first opening
    brace and, the star being greedy, ends at the last closing brace
    after it. *)
Fixpoint from_first_open (s : string) : option string :=
  match s with
  | EmptyString => None
  | String c rest =>
      if Ascii.eqb c "{" then Some s else from_first_open rest
  end.

Fixpoint upto_last_close (s : string) : option string :=
  match s with
  | EmptyString => None
  | String c rest =>
      match upto_last_close rest with
      | Some m => Some (String c m)
      | None => if Ascii.eqb c "}" then Some (String c EmptyString) else None
      end
  end.

Definition json_match (text : string) : option string :=
  match from_first_open text with
  | Some s => upto_last_close s
  | None => None
  end.

(** [base.k], which throws on [null] and [undefined]. *)
Definition prop (k : string) (base : jsval) : M jsval :=
  match base with
  | None =>
      throw ("Cannot read properties of undefined (reading '" +:+ k +:+ "')")
  | Some JNull =>
      throw ("Cannot read properties of null (reading '" +:+ k +:+ "')")
  | Some v => ret (get_field k v)
  end.

(** [v && v.length > 0] *)
Definition nonempty_list (v : jsval) : bool :=
  truthy_val v &&
  match v with
  | Some x => match js_length x with Some n => 0 <? n | None => false end
  | None => false
  end.

(** The block every AI route repeats: the outbound [fetch], the check of
    [apiResponse.ok], and the extraction of
    [result.candidates[0].content.parts[0].text]. *)
Definition call_gemini (env : Env) (aiPrompt : string) : M jsval :=
  t <- new_Date ;;
  emit (EvFetch aiPrompt) ;;;
  match fetch_gemini env t aiPrompt with
  | FetchRejected message => throw message
  | FetchResponse ok status payload =>
      match payload with
      | None => throw "Unexpected end of JSON input"
      | Some result =>
          if negb ok then
            error <- prop "error" (Some result) ;;
            let message :=
              match error with
              | None | Some JNull => None
              | Some e => get_field "message" e
              end in
            throw (js_String_val
                     (js_or message
                        (Some (JStr ("HTTP error! status: " +:+ pretty status)))))
          else
            candidates <- prop "candidates" (Some result) ;;
            if nonempty_list candidates then
              content <- prop "content" (candidates ≫= js_first) ;;
              if truthy_val content then
                parts <- prop "parts" content ;;
                if nonempty_list parts then prop "text" (parts ≫= js_first)
                else throw "No content received from the API."
              else throw "No content received from the API."
            else throw "No content received from the API."
      end
  end.

(** The inner [try { match; JSON.parse } catch { fallback }] of the AI
    routes.  A [text] that is not a string has no [match] method: the
    call throws inside the inner [try] and the [catch] branch answers. *)
Definition parse_response (env : Env) (text : jsval)
    (no_match on_error : json) : json :=
  match text with
  | Some (JStr s) =>
      match json_match s with
      | Some jsonMatch =>
          match JSON_parse env jsonMatch with
          | Some parsed => parsed
          | None => on_error
          end
      | None => no_match
      end
  | _ => on_error
  end.

Definition generate_fallback (text : jsval) : json :=
  obj_of [("jsx", text); ("css", Some (JStr ""));
          ("tsx", Some (JStr ""));
          ("explanation", Some (JStr "Generated component based on your request"))].

(** The [try] block of [ai_generate]. *)
Definition ai_generate_body (env : Env) (user : User) (prompt : option string)
    (sessionId : option string) (existingCode : jsval)
    (chatHistory : option (list (string * string)))
  : M Response :=
  match prompt with
  | Some prompt =>
      if str_nonempty prompt then
        let cacheKey := cacheKey prompt in
        cachedResult <- getCache cacheKey ;;
        if truthy cachedResult then
          ret (res_json (JObj [("success", JBool true);
                               ("data", cachedResult);
                               ("cached", JBool true)]))
        else
          let aiPrompt :=
            generateComponentPrompt prompt existingCode (default [] chatHistory) in
          text <- call_gemini env aiPrompt ;;
          let parsedResponse :=
            parse_response env text (generate_fallback text)
              (generate_fallback text) in
          setCache cacheKey parsedResponse (Some 3600%nat) ;;;
          ret (res_json (JObj [("success", JBool true);
                               ("data", parsedResponse);
                               ("cached", JBool false)]))
      else ret (res_status_json 400 (error_body "Prompt is required"))
  | None => ret (res_status_json 400 (error_body "Prompt is required"))
  end.

(** [router.post('/generate')] *)
Definition ai_generate (env : Env) (user : User) (prompt : option string)
    (sessionId : option string) (existingCode : jsval)
    (chatHistory : option (list (string * string)))
  : M Response :=
  try_catch (ai_generate_body env user prompt sessionId existingCode chatHistory)
    (fun error =>
       console_error "AI generation error:" error ;;;
       ret (res_status_json 500
              (JObj [("error", JStr "Failed to generate component");
                     ("details", JStr error)]))).

Definition refine_fallback (currentCode : json) (text : jsval) : json :=
  obj_of [("jsx", text);
          ("css", js_or (get_field "css" currentCode) (Some (JStr "")));
          ("tsx", js_or (get_field "tsx" currentCode) (Some (JStr "")));
          ("explanation", Some (JStr "Refined component based on your request"))].

(** The [try] block of [ai_refine]. *)
Definition ai_refine_body (env : Env) (user : User) (prompt : option string)
    (currentCode : jsval) (sessionId : option string)
  : M Response :=
  match prompt, currentCode with
  | Some prompt, Some currentCode =>
      if str_nonempty prompt && truthy currentCode then
        text <- call_gemini env (refinePrompt prompt currentCode) ;;
        let parsedResponse :=
          parse_response env text (refine_fallback currentCode text)
            (refine_fallback currentCode text) in
        ret (res_json (JObj [("success", JBool true);
                             ("data", parsedResponse)]))
      else ret (res_status_json 400
                  (error_body "Prompt and current code are required"))
  | _, _ => ret (res_status_json 400
                   (error_body "Prompt and current code are required"))
  end.

(** [router.post('/refine')] *)
Definition ai_refine (env : Env) (user : User) (prompt : option string)
    (currentCode : jsval) (sessionId : option string)
  : M Response :=
  try_catch (ai_refine_body env user prompt currentCode sessionId)
    (fun error =>
       console_error "AI refinement error:" error ;;;
       ret (res_status_json 500
              (JObj [("error", JStr "Failed to refine component");
                     ("details", JStr error)]))).

Definition variations_fallback (baseCode : json) (text : jsval) : json :=
  JObj [("variations",
         JArr [obj_of [("name", Some (JStr "Default Variation"));
                       ("jsx", text);
                       ("css", js_or (get_field "css" baseCode) (Some (JStr "")));
                       ("description", Some (JStr "Generated variation"))]])].

(** The [try] block of [ai_variations]. *)
Definition ai_variations_body (env : Env) (user : User) (baseCode count : jsval)
  : M Response :=
  let count := default (JNum 3) count in
  match baseCode with
  | Some baseCode =>
      if truthy baseCode then
        text <- call_gemini env (variationsPrompt baseCode count) ;;
        let parsedResponse :=
          parse_response env text (variations_fallback baseCode text)
            (variations_fallback baseCode text) in
        ret (res_json (JObj [("success", JBool true);
                             ("data", parsedResponse)]))
      else ret (res_status_json 400 (error_body "Base code is required"))
  | None => ret (res_status_json 400 (error_body "Base code is required"))
  end.

(** [router.post('/variations')] *)
Definition ai_variations (env : Env) (user : User) (baseCode count : jsval)
  : M Response :=
  try_catch (ai_variations_body env user baseCode count)
    (fun error =>
       console_error "AI variations error:" error ;;;
       ret (res_status_json 500
              (JObj [("error", JStr "Failed to generate variations");
                     ("details", JStr error)]))).

Definition analysis_fallback (message : string) : json :=
  JObj [("analysis",
         JObj [("codeQuality", JStr message); ("performance", JStr message);
               ("accessibility", JStr message); ("security", JStr message);
               ("optimizations", JArr []); ("issues", JArr []);
               ("overallScore", JNum 0)])].

(** The [try] block of [ai_analyze]. *)
Definition ai_analyze_body (env : Env) (user : User) (code : jsval)
  : M Response :=
  match code with
  | Some code =>
      if truthy code then
        text <- call_gemini env (analyzePrompt code) ;;
        let parsedResponse :=
          parse_response env text
            (analysis_fallback "Analysis not available")
            (analysis_fallback "Failed to analyze code") in
        ret (res_json (JObj [("success", JBool true);
                             ("data", parsedResponse)]))
      else ret (res_status_json 400 (error_body "Code is required"))
  | None => ret (res_status_json 400 (error_body "Code is required"))
  end.

(** [router.post('/analyze')] *)
Definition ai_analyze (env : Env) (user : User) (code : jsval)
  : M Response :=
  try_catch (ai_analyze_body env user code)
    (fun error =>
       console_error "AI analysis error:" error ;;;
       ret (res_status_json 500
              (JObj [("error", JStr "Failed to analyze component");
                     ("details", JStr error)]))).

(** ** The two routers, behind [auth] *)

(** Modelled from the spec: the middleware [auth] of
    [backend/middleware/auth.js], which both routers import and which is
    not among the sources.  Only authenticated users operate on sessions
    and AI generation: with a valid authenticated user the middleware
    sets [req.user] and passes control to the handler; without one it
    answers itself (401, the status the API client of the frontend reacts
    to) and the handler is not called. *)
Definition auth (authenticated : option User) (next : User -> M Response)
  : M Response :=
  match authenticated with
  | Some user => next user
  | None => ret (res_status_json 401 (error_body "Authentication required"))
  end.

Inductive SessionsRequest :=
| GET_sessions (page limit : option QueryNumber) (search : option string)
| GET_session (sessionId : string)
| POST_sessions (title description : option string) (tags : option (list string))
| PUT_session (sessionId : string) (title description : option string)
    (tags : option (list string))
| DELETE_session (sessionId : string)
| POST_chat (sessionId : string) (role content : option string)
    (metadata : option json)
| PUT_code (sessionId : string) (jsx css tsx : option string)
| PUT_ui_state (sessionId : string) (patch : UIStatePatch)
| GET_stats (sessionId : string).

Inductive AiRequest :=
| POST_generate (prompt sessionId : option string) (existingCode : jsval)
    (chatHistory : option (list (string * string)))
| POST_refine (prompt : option string) (currentCode : jsval)
    (sessionId : option string)
| POST_variations (baseCode count : jsval)
| POST_analyze (code : jsval).

(** The handler a route registers, as a function of [req.user]. *)
Definition sessions_handler (env : Env) (r : SessionsRequest) (user : User)
  : M Response :=
  match r with
  | GET_sessions page limit search => sessions_list env user page limit search
  | GET_session sessionId => sessions_get env user sessionId
  | POST_sessions title description tags =>
      sessions_create env user title description tags
  | PUT_session sessionId title description tags =>
      sessions_update env user sessionId title description tags
  | DELETE_session sessionId => sessions_delete env user sessionId
  | POST_chat sessionId role content metadata =>
      sessions_chat env user sessionId role content metadata
  | PUT_code sessionId jsx css tsx => sessions_code env user sessionId jsx css tsx
  | PUT_ui_state sessionId patch => sessions_ui_state env user sessionId patch
  | GET_stats sessionId => sessions_stats env user sessionId
  end.

Definition ai_handler (env : Env) (r : AiRequest) (user : User) : M Response :=
  match r with
  | POST_generate prompt sessionId existingCode chatHistory =>
      ai_generate env user prompt sessionId existingCode chatHistory
  | POST_refine prompt currentCode sessionId =>
      ai_refine env user prompt currentCode sessionId
  | POST_variations baseCode count => ai_variations env user baseCode count
  | POST_analyze code => ai_analyze env user code
  end.

(** [router.METHOD(path, auth, handler)]: every route of
    [routes/sessions.js] lists [auth] before its handler. *)
Definition sessions_router (env : Env) (authenticated : option User)
    (r : SessionsRequest) : M Response :=
  match r with
  | GET_sessions _ _ _ => auth authenticated (sessions_handler env r)
  | GET_session _ => auth authenticated (sessions_handler env r)
  | POST_sessions _ _ _ => auth authenticated (sessions_handler env r)
  | PUT_session _ _ _ _ => auth authenticated (sessions_handler env r)
  | DELETE_session _ => auth authenticated (sessions_handler env r)
  | POST_chat _ _ _ _ => auth authenticated (sessions_handler env r)
  | PUT_code _ _ _ _ => auth authenticated (sessions_handler env r)
  | PUT_ui_state _ _ => auth authenticated (sessions_handler env r)
  | GET_stats _ => auth authenticated (sessions_handler env r)
  end.

(** Likewise every route of [routes/ai.js]. *)
Definition ai_router (env : Env) (authenticated : option User) (r : AiRequest)
  : M Response :=
  match r with
  | POST_generate _ _ _ _ => auth authenticated (ai_handler env r)
  | POST_refine _ _ _ => auth authenticated (ai_handler env r)
  | POST_variations _ _ => auth authenticated (ai_handler env r)
  | POST_analyze _ => auth authenticated (ai_handler env r)
  end.

(** The session a per-session request names. *)
Definition named_session (r : SessionsRequest) : option string :=
  match r with
  | GET_sessions _ _ _ | POST_sessions _ _ _ => None
  | GET_session i | PUT_session i _ _ _ | DELETE_session i
  | POST_chat i _ _ _ | PUT_code i _ _ _ | PUT_ui_state i _ | GET_stats i => Some i
  end.

(** Time passing between two requests. *)
Definition advance (dt : nat) (w : World) : World :=
  {| sessions := sessions w; redisClient := redisClient w;
     now := (now w + dt)%nat; oidCounter := oidCounter w |}.

(** ** [renderPreview] ([frontend/app/editor/[sessionId]/page.tsx]) *)

Module Preview.

Fixpoint drop_str (n : nat) (s : string) : string :=
  match n, s with
  | O, _ => s
  | S n', String _ rest => drop_str n' rest
  | S _, EmptyString => EmptyString
  end.

Fixpoint take_str (n : nat) (s : string) : string :=
  match n, s with
  | S n', String c rest => String c (take_str n' rest)
  | _, _ => EmptyString
  end.

(** The number of leading characters that satisfy [p]. *)
Fixpoint span_len (p : ascii -> bool) (s : string) : nat :=
  match s with
  | String c rest => if p c then S (span_len p rest) else O
  | EmptyString => O
  end.

Definition starts_with (pre s : string) : bool := String.prefix pre s.

Definition is_quote (c : ascii) : bool :=
  Ascii.eqb c "'" || Ascii.eqb c (ascii_of_nat 34).

(** What [.] does not match. *)
Definition is_line_terminator (c : ascii) : bool :=
  Ascii.eqb c (ascii_of_nat 10) || Ascii.eqb c (ascii_of_nat 13).

(** The class [\w]. *)
Definition is_word (c : ascii) : bool :=
  let n := nat_of_ascii c in
  ((48 <=? n) && (n <=? 57) || (65 <=? n) && (n <=? 90)
   || (97 <=? n) && (n <=? 122) || (n =? 95))%nat.

(** The tail of the import pattern, [from\s+] and a quoted run without
    quotes (either quote character opens and closes), at the head of
    [s]: the length of the match. *)
Definition from_clause_len (s : string) : option nat :=
  if starts_with "from" s then
    let s1 := drop_str 4 s in
    let k := span_len is_space s1 in
    if (0 <? k)%nat then
      match drop_str k s1 with
      | String q s2 =>
          if is_quote q then
            let n := span_len (fun c => negb (is_quote c)) s2 in
            match drop_str n s2 with
            | String q' _ =>
                if is_quote q' then Some (4 + k + 1 + n + 1)%nat else None
            | EmptyString => None
            end
          else None
      | EmptyString => None
      end
    else None
  else None.

(** The lazy [.*?] followed by that tail: the star stops at the first
    position where the tail matches, and cannot cross a line terminator. *)
Fixpoint lazy_from_len (s : string) : option nat :=
  match from_clause_len s with
  | Some n => Some n
  | None =>
      match s with
      | String c rest =>
          if is_line_terminator c then None else S <$> lazy_from_len rest
      | EmptyString => None
      end
  end.

(** The import pattern, [import\s+.*?] then that tail then [;?\s*], at
    the head of [s]: the length of the match.  The greedy [\s+] keeps
    all the white space: giving some back to the lazy star opens no
    further match. *)
Definition import_len (s : string) : option nat :=
  if starts_with "import" s then
    let s1 := drop_str 6 s in
    let k := span_len is_space s1 in
    if (0 <? k)%nat then
      match lazy_from_len (drop_str k s1) with
      | Some n =>
          let s2 := drop_str n (drop_str k s1) in
          let semi := match s2 with
                      | String c _ => if Ascii.eqb c ";" then 1%nat else 0%nat
                      | EmptyString => 0%nat
                      end in
          let ws := span_len is_space (drop_str semi s2) in
          Some (6 + k + n + semi + ws)%nat
      | None => None
      end
    else None
  else None.

(** The pattern [/export\s+(default\s+)?/] at the head of [s]: the length
    of the match. *)
Definition export_len (s : string) : option nat :=
  if starts_with "export" s then
    let s1 := drop_str 6 s in
    let k := span_len is_space s1 in
    if (0 <? k)%nat then
      let s2 := drop_str k s1 in
      let k2 := span_len is_space (drop_str 7 s2) in
      if starts_with "default" s2 && (0 <? k2)%nat then Some (6 + k + 7 + k2)%nat
      else Some (6 + k)%nat
    else None
  else None.

(** [s.replace(/re/g, '')] for a pattern whose matches are never empty:
    [skip] counts the characters of the current match still to drop. *)
Fixpoint remove_all (match_len : string -> option nat) (skip : nat) (s : string)
  : string :=
  match s with
  | EmptyString => EmptyString
  | String c rest =>
      match skip with
      | S skip' => remove_all match_len skip' rest
      | O =>
          match match_len s with
          | Some (S n) => remove_all match_len n rest
          | _ => String c (remove_all match_len O rest)
          end
      end
  end.

Definition strip_imports (s : string) : string := remove_all import_len 0 s.
Definition strip_exports (s : string) : string := remove_all export_len 0 s.

(** The pattern [/(?:function|const)\s+(\w+)/] at the head of [s]: the
    capture. *)
Definition component_at (s : string) : option string :=
  let after (kw : nat) :=
    let s1 := drop_str kw s in
    let k := span_len is_space s1 in
    let s2 := drop_str k s1 in
    let n := span_len is_word s2 in
    if (0 <? k)%nat && (0 <? n)%nat then Some (take_str n s2) else None in
  if starts_with "function" s then after 8%nat
  else if starts_with "const" s then after 5%nat
  else None.

(** [jsxCode.match(...)]: the leftmost match. *)
Fixpoint component_match (s : string) : option string :=
  match component_at s with
  | Some name => Some name
  | None =>
      match s with
      | String _ rest => component_match rest
      | EmptyString => None
      end
  end.

(** [s.includes(needle)] *)
Fixpoint includes (needle s : string) : bool :=
  starts_with needle s ||
  match s with
  | String _ rest => includes needle rest
  | EmptyString => false
  end.

Definition placeholder (componentName : string) : string :=
  string_concat
    ["function "; componentName; "() {
  return (
    <div style={{ padding: '20px', fontFamily: 'Arial, sans-serif' }}>
      <h1>Generated Component</h1>
      <p>This is a placeholder component. Please check the generated code.</p>
    </div>
  );
}"].

Definition errorBoundary : string :=
  string_concat
    ["
      class ErrorBoundary extends React.Component {
        constructor(props) {
          super(props);
          this.state = { hasError: false, error: null };
        }
        
        static getDerivedStateFromError(error) {
          return { hasError: true, error };
        }
        
        componentDidCatch(error, errorInfo) {
          console.error('Component Error:', error, errorInfo);
        }
        
        render() {
          if (this.state.hasError) {
            return (
              <div style={{ padding: '20px', color: 'red', border: '1px solid red', borderRadius: '4px' }}>
                <h3>Component Error</h3>
                <p>{this.state.error?.message || 'Something went wrong'}</p>
                <button onClick={() => this.setState({ hasError: false })}>Try Again</button>
              </div>
            );
          }
          return this.props.children;
        }
      }
    "].

Definition htmlContent (css jsxCode componentName : string) : string :=
  string_concat
    ["
      <!DOCTYPE html>
      <html>
        <head>
          <meta charset="; dquote; "utf-8"; dquote; ">
          <meta name="; dquote; "viewport"; dquote; " content="; dquote; "width=device-width, initial-scale=1"; dquote; ">
          <title>Component Preview</title>
          <style>
            * { box-sizing: border-box; }
            body { 
              margin: 0; 
              padding: 20px; 
              font-family: -apple-system, BlinkMacSystemFont, 'Segoe UI', Roboto, sans-serif; 
              background: #f5f5f5;
            }
            #root { 
              background: white; 
              border-radius: 8px; 
              box-shadow: 0 2px 10px rgba(0,0,0,0.1);
              overflow: hidden;
            }
            "; css; "
          </style>
        </head>
        <body>
          <div id="; dquote; "root"; dquote; "></div>
          <script crossorigin src="; dquote; "https://unpkg.com/react@18/umd/react.development.js"; dquote; "></script>
          <script crossorigin src="; dquote; "https://unpkg.com/react-dom@18/umd/react-dom.development.js"; dquote; "></script>
          <script src="; dquote; "https://unpkg.com/@babel/standalone/babel.min.js"; dquote; "></script>
          <script type="; dquote; "text/babel"; dquote; " data-type="; dquote; "module"; dquote; ">
            const { useState, useEffect } = React;
            
            "; errorBoundary; "
            
            "; jsxCode; "
            
            // Render the component with error boundary
            const root = ReactDOM.createRoot(document.getElementById('root'));
            root.render(
              React.createElement(ErrorBoundary, null,
                React.createElement("; componentName; ")
              )
            );
          </script>
        </body>
      </html>
    "].

(** The element [renderPreview] returns: the empty state, or the frame. *)
Record Iframe := {
  srcDoc : string;
  className : string;
  frame_title : string;
  sandbox : option string
}.

Inductive Rendered :=
| NoComponent
| PreviewFrame (frame : Iframe).

(** The user's JSX after [trim] and the two replacements. *)
Definition cleaned (jsx : string) : string :=
  strip_exports (strip_imports (trim jsx)).

Definition componentName (jsxCode : string) : string :=
  default "App" (component_match jsxCode).

Definition renderPreview (componentCode : ComponentCode) : Rendered :=
  if negb (str_nonempty (jsx componentCode)) then NoComponent
  else
    let jsxCode := cleaned (jsx componentCode) in
    let componentName := componentName jsxCode in
    let jsxCode :=
      if negb (includes "return" jsxCode) then placeholder componentName
      else jsxCode in
    PreviewFrame
      {| srcDoc := htmlContent (css componentCode) jsxCode componentName;
         className := "w-full h-full border-0 rounded-lg";
         frame_title := "Component Preview";
         sandbox := Some "allow-scripts allow-same-origin" |}.


End Preview.

(** ** One application, and the parts of a handler *)

Inductive Request :=
| Sessions (r : SessionsRequest)
| Ai (r : AiRequest).

(** The routers as the application mounts them. *)
Definition app (env : Env) (authenticated : option User) (req : Request)
  : M Response :=
  match req with
  | Sessions r => sessions_router env authenticated r
  | Ai r => ai_router env authenticated r
  end.

(** The [try] block of the handler of a request. *)
Definition try_block (env : Env) (req : Request) (user : User) : M Response :=
  match req with
  | Sessions (GET_sessions page limit search) =>
      sessions_list_body env user page limit search
  | Sessions (GET_session sessionId) => sessions_get_body env user sessionId
  | Sessions (POST_sessions title description tags) =>
      sessions_create_body env user title description tags
  | Sessions (PUT_session sessionId title description tags) =>
      sessions_update_body env user sessionId title description tags
  | Sessions (DELETE_session sessionId) => sessions_delete_body env user sessionId
  | Sessions (POST_chat sessionId role content metadata) =>
      sessions_chat_body env user sessionId role content metadata
  | Sessions (PUT_code sessionId jsx css tsx) =>
      sessions_code_body env user sessionId jsx css tsx
  | Sessions (PUT_ui_state sessionId patch) =>
      sessions_ui_state_body env user sessionId patch
  | Sessions (GET_stats sessionId) => sessions_stats_body env user sessionId
  | Ai (POST_generate prompt sessionId existingCode chatHistory) =>
      ai_generate_body env user prompt sessionId existingCode chatHistory
  | Ai (POST_refine prompt currentCode sessionId) =>
      ai_refine_body env user prompt currentCode sessionId
  | Ai (POST_variations baseCode count) => ai_variations_body env user baseCode count
  | Ai (POST_analyze code) => ai_analyze_body env user code
  end.


(** ** Properties of worlds and environments the statements refer to *)

(** [_id] is a key of the collection. *)
Definition unique_ids (w : World) : Prop := NoDup (map _id (sessions w)).

(** Every key of the Redis store carries an expiry. *)
Definition all_expiring (w : World) : Prop :=
  forall client key e,
    redisClient w = Some client -> client !! key = Some e -> is_Some (rexpire e).

(** [JSON.parse] of a text that starts with an opening brace is an
    object, when it is anything. *)
Definition parses_objects (env : Env) : Prop :=
  forall s v, JSON_parse env (String "{" s) = Some v -> exists kvs, v = JObj kvs.

(** The requests that are rejected before any query is sent. *)
Definition chat_rejected (r : SessionsRequest) : Prop :=
  match r with
  | POST_chat _ role content _ =>
      str_nonempty (default "" role) = false \/ str_nonempty (default "" content) = false
  | _ => False
  end.

Definition update_rejected (r : SessionsRequest) : Prop :=
  match r with
  | PUT_session _ title description _ =>
      is_Some (first_error
                 [from_option (fun x => validate_title (trim x)) None title;
                  from_option (fun x => validate_description (trim x)) None description])
  | _ => False
  end.

(** ** A sample environment and world *)

Module Sample.

Definition is_json_ws (c : ascii) : bool :=
  let n := nat_of_ascii c in
  ((n =? 32) || (n =? 9) || (n =? 10) || (n =? 13))%nat.

Fixpoint skip_ws (s : string) : string :=
  match s with
  | String c rest => if is_json_ws c then skip_ws rest else s
  | EmptyString => EmptyString
  end.

Definition is_digit (c : ascii) : bool :=
  let n := nat_of_ascii c in ((48 <=? n) && (n <=? 57))%nat.

Fixpoint digits (s : string) (acc : Z) : Z * string :=
  match s with
  | String c rest =>
      if is_digit c then digits rest (10 * acc + Z.of_nat (nat_of_ascii c - 48))
      else (acc, s)
  | EmptyString => (acc, s)
  end.

(** The characters of a string literal up to its closing quote; escapes
    and control characters are outside the fragment. *)
Fixpoint string_body (s : string) : option (string * string) :=
  match s with
  | EmptyString => None
  | String c rest =>
      if Ascii.eqb c (ascii_of_nat 34) then Some (EmptyString, rest)
      else if Ascii.eqb c (ascii_of_nat 92) || (nat_of_ascii c <? 32)%nat then None
      else match string_body rest with
           | Some (body, rest') => Some (String c body, rest')
           | None => None
           end
  end.

Definition keyword (kw : string) (v : json) (s : string) : option (json * string) :=
  if String.prefix kw s then Some (v, Preview.drop_str (String.length kw) s)
  else None.

Definition number (s : string) : option (json * string) :=
  let unsigned (s : string) :=
    match s with
    | String c rest =>
        if is_digit c then
          match Ascii.eqb c "0", rest with
          | true, String c' _ => if is_digit c' then None else Some (digits s 0)
          | _, _ => Some (digits s 0)
          end
        else None
    | EmptyString => None
    end in
  match s with
  | String c rest =>
      if Ascii.eqb c "-" then
        match unsigned rest with
        | Some (n, rest') => Some (JNum (- n), rest')
        | None => None
        end
      else match unsigned s with
           | Some (n, rest') => Some (JNum n, rest')
           | None => None
           end
  | EmptyString => None
  end.

(** A parser for the fragment of JSON without escapes, fractions and
    exponents; [fuel] bounds the nesting and the number of members. *)
Fixpoint value (fuel : nat) (s : string) {struct fuel} : option (json * string) :=
  match fuel with
  | O => None
  | S fuel =>
      match skip_ws s with
      | EmptyString => None
      | String c rest =>
          if Ascii.eqb c "{" then
            match skip_ws rest with
            | String c' rest' =>
                if Ascii.eqb c' "}" then Some (JObj [], rest')
                else members fuel (String c' rest') []
            | EmptyString => None
            end
          else if Ascii.eqb c "[" then
            match skip_ws rest with
            | String c' rest' =>
                if Ascii.eqb c' "]" then Some (JArr [], rest')
                else elements fuel (String c' rest') []
            | EmptyString => None
            end
          else if Ascii.eqb c (ascii_of_nat 34) then
            match string_body rest with
            | Some (str, rest') => Some (JStr str, rest')
            | None => None
            end
          else if Ascii.eqb c "t" then keyword "true" (JBool true) (String c rest)
          else if Ascii.eqb c "f" then keyword "false" (JBool false) (String c rest)
          else if Ascii.eqb c "n" then keyword "null" JNull (String c rest)
          else number (String c rest)
      end
  end
with members (fuel : nat) (s : string) (acc : list (string * json)) {struct fuel}
  : option (json * string) :=
  match fuel with
  | O => None
  | S fuel =>
      match skip_ws s with
      | String c rest =>
          if Ascii.eqb c (ascii_of_nat 34) then
            match string_body rest with
            | Some (key, rest1) =>
                match skip_ws rest1 with
                | String c1 rest2 =>
                    if Ascii.eqb c1 ":" then
                      match value fuel rest2 with
                      | Some (v, rest3) =>
                          match skip_ws rest3 with
                          | String c3 rest4 =>
                              if Ascii.eqb c3 "," then
                                members fuel rest4 (assoc_set key v acc)
                              else if Ascii.eqb c3 "}" then
                                Some (JObj (assoc_set key v acc), rest4)
                              else None
                          | EmptyString => None
                          end
                      | None => None
                      end
                    else None
                | EmptyString => None
                end
            | None => None
            end
          else None
      | EmptyString => None
      end
  end
with elements (fuel : nat) (s : string) (acc : list json) {struct fuel}
  : option (json * string) :=
  match fuel with
  | O => None
  | S fuel =>
      match value fuel s with
      | Some (v, rest) =>
          match skip_ws rest with
          | String c rest' =>
              if Ascii.eqb c "," then elements fuel rest' (acc ++ [v])
              else if Ascii.eqb c "]" then Some (JArr (acc ++ [v]), rest')
              else None
          | EmptyString => None
          end
      | None => None
      end
  end.

Definition parse (s : string) : option json :=
  match value (S (String.length s)) s with
  | Some (v, rest) =>
      match skip_ws rest with
      | EmptyString => Some v
      | String _ _ => None
      end
  | None => None
  end.

Definition lower (c : ascii) : ascii :=
  let n := nat_of_ascii c in
  if ((65 <=? n) && (n <=? 90))%nat then ascii_of_nat (n + 32) else c.

Fixpoint lowercase (s : string) : string :=
  match s with
  | String c rest => String (lower c) (lowercase rest)
  | EmptyString => EmptyString
  end.

Definition is_meta (c : ascii) : bool :=
  existsb (Ascii.eqb c) (list_ascii_of_string "\^$.|?*+()[]{}").

(** Patterns without metacharacters, which match as substrings whatever
    the case; any other pattern is refused. *)
Definition literal_RegExp (pattern : string) : option (string -> bool) :=
  if existsb is_meta (list_ascii_of_string pattern) then None
  else Some (fun subject => Preview.includes (lowercase pattern) (lowercase subject)).

(** The answer of the endpoint that carries [text]. *)
Definition answer (text : string) : FetchResult :=
  FetchResponse true 200
    (Some (JObj [("candidates",
                  JArr [JObj [("content",
                               JObj [("parts",
                                      JArr [JObj [("text", JStr text)]])])]])])).

Definition env (reply : FetchResult) : Env :=
  {| JSON_parse := parse; RegExp_i := literal_RegExp;
     fetch_gemini := fun _ _ => reply |}.

Definition alice : User := {| user_id := "alice" |}.
Definition bob : User := {| user_id := "bob" |}.

Definition session_of (id owner title : string) (t : nat) : Session :=
  {| _id := id; userId := owner; title := title; description := "";
     chatHistory := [];
     componentCode := {| jsx := ""; css := ""; tsx := ""; version := 1;
                         lastModified := t |};
     uiState := {| selectedElement := None; properties := JObj [];
                   viewport := (1200, 800); theme := Some "light" |};
     isActive := true; lastAccessed := t; tags := [];
     sessionMetadata := JObj []; createdAt := t; updatedAt := t |}.

(** Two sessions, one per user, and a connected, empty Redis. *)
Definition world : World :=
  {| sessions := [session_of "0" "alice" "Card" 10; session_of "1" "bob" "Navbar" 20];
     redisClient := Some ∅; now := 1000; oidCounter := 2 |}.

(** The same store with the session data of session 0 cached and live. *)
Definition cached_world : World :=
  {| sessions := sessions world;
     redisClient :=
       Some {[ "session:0" :=
                 {| rvalue := session_data (session_of "0" "alice" "Card" 10);
                    rexpire := Some 4000%nat |} ]};
     now := 1000; oidCounter := 2 |}.

(** The same store with no Redis client. *)
Definition world_without_redis : World :=
  {| sessions := sessions world; redisClient := None; now := 1000;
     oidCounter := 2 |}.

Definition message (r c : string) (t : nat) : ChatMessage :=
  {| role := r; content := c; timestamp := t; metadata := JObj [] |}.

(** The store after a short conversation in session 0. *)
Definition talked_world : World :=
  {| sessions :=
       [with_chatHistory
          [message "user" "a card" 11; message "assistant" "done" 12;
           message "user" "rounder" 13]
          (session_of "0" "alice" "Card" 10);
        session_of "1" "bob" "Navbar" 20];
     redisClient := Some ∅; now := 1000; oidCounter := 2 |}.

(** A store in which Alice has three active sessions and a deleted one,
    and Bob has one. *)
Definition busy_world : World :=
  {| sessions :=
       [session_of "0" "alice" "Card" 10; session_of "1" "bob" "Navbar" 20;
        session_of "2" "alice" "Footer" 30;
        with_isActive false (session_of "3" "alice" "Old card" 40);
        session_of "4" "alice" "Banner" 25];
     redisClient := Some ∅; now := 1000; oidCounter := 5 |}.

(** A Redis that holds a generation result for the prompt [a card] which
    expires 100 seconds from now. *)
Definition expiring_cache_world : World :=
  {| sessions := sessions world;
     redisClient :=
       Some {[ cacheKey "a card" :=
                 {| rvalue := JObj [("jsx", JStr "old")];
                    rexpire := Some 1100%nat |} ]};
     now := 1000; oidCounter := 2 |}.

End Sample.

(** ** Vocabulary of the statements *)

Definition single_store_call (r : SessionsRequest) : Prop :=
  match r with
  | GET_session _ | POST_sessions _ _ _ | PUT_session _ _ _ _
  | DELETE_session _ | GET_stats _ => True
  | _ => False
  end.

Definition ttl_is (n : nat) (e : Event) : Prop :=
  match e with EvRedisSetEx _ ttl _ => ttl = n | _ => True end.

Definition outcome_value {A} (o : Outcome A) : option A :=
  match o with Returned a _ _ => Some a | Thrown _ _ _ => None end.

Definition answered_status (o : Outcome Response) : option nat :=
  status <$> outcome_value o.

Fixpoint has_char (c : ascii) (s : string) : bool :=
  match s with
  | EmptyString => false
  | String c' rest => Ascii.eqb c' c || has_char c rest
  end.

(** What the application does between two requests: it serves other
    requests, and time passes. *)
Inductive step (env : Env) : World -> World -> Prop :=
| step_request (authenticated : option User) (req : Request) (w : World) :
    step env w (outcome_world (app env authenticated req w))
| step_tick (dt : nat) (w : World) :
    step env w (advance dt w).

(** The store queries of a trace all filter on the [_id] of [user]. *)
Definition query_of (user : User) (e : Event) : Prop :=
  match e with
  | EvFind q | EvCountDocuments q | EvFindOne q | EvFindOneAndUpdate q =>
      q_userId q = Some (user_id user)
  | _ => True
  end.

(** How a per-session route answers when its filter matches nothing. *)
Definition not_found_or_rejected (r : SessionsRequest) (resp : Response) : Prop :=
  (status resp = 404%nat /\ body resp = error_body "Session not found")
  \/ (chat_rejected r /\ status resp = 400%nat)
  \/ (update_rejected r /\ status resp = 500%nat).

(** The routes that mirror the session data into Redis. *)
Definition mirrored (r : SessionsRequest) : option string :=
  match r with
  | GET_session i | POST_chat i _ _ _ | PUT_code i _ _ _ | PUT_ui_state i _ => Some i
  | _ => None
  end.

(** What such a route writes into Redis when the store holds [s] after it:
    the session data of the document it has in memory. *)
Definition mirror_of (r : SessionsRequest) (s : Session) : json :=
  match r with
  | PUT_code _ jsx css _ =>
      session_data_inMemory {| in_store := s; memory_jsx := jsx; memory_css := css |}
  | _ => session_data s
  end.

(** A code update carries both [jsx] and [css]; any other request does. *)
Definition carries_jsx_and_css (r : SessionsRequest) : Prop :=
  match r with
  | PUT_code _ jsx css _ => is_Some jsx /\ is_Some css
  | _ => True
  end.

(** Base64 as RFC 4648 defines it.  The bytes are taken three at a time
    as a group of 24 bits; a group gives four values of 6 bits, the most
    significant first, and each value is written as the character at that
    index of the alphabet.  A last group of one or two bytes is filled
    with zero bits and gives two or three characters, and the text is
    padded with [=] to a multiple of four characters. *)
Definition rfc4648_alphabet : string :=
  "ABCDEFGHIJKLMNOPQRSTUVWXYZabcdefghijklmnopqrstuvwxyz0123456789+/".

Definition rfc4648_char (value : N) : ascii :=
  default "="%char (String.get (N.to_nat value) rfc4648_alphabet).

Definition rfc4648_sextets (group : N) : list N :=
  [(group / 262144) mod 64; (group / 4096) mod 64; (group / 64) mod 64;
   group mod 64]%N.

Definition rfc4648_group (a b c : nat) : N :=
  (N.of_nat a * 65536 + N.of_nat b * 256 + N.of_nat c)%N.

Fixpoint rfc4648 (bytes : list nat) : string :=
  match bytes with
  | [] => EmptyString
  | [a] =>
      string_of_list_ascii
        (map rfc4648_char (take 2 (rfc4648_sextets (rfc4648_group a 0 0))))
      +:+ "=="
  | [a; b] =>
      string_of_list_ascii
        (map rfc4648_char (take 3 (rfc4648_sextets (rfc4648_group a b 0))))
      +:+ "="
  | a :: b :: c :: rest =>
      string_of_list_ascii
        (map rfc4648_char (rfc4648_sextets (rfc4648_group a b c)))
      +:+ rfc4648 rest
  end.

(** The key of the generation cache as the specification has it: the
    prefix and the base64 encoding of the prompt. *)
Definition base64_key (prompt : string) : string :=
  "ai_generate:" +:+ rfc4648 (utf8_bytes prompt).








(** Every [_id] of the collection was issued by the counter of
    [new Session]. *)
Definition ids_issued (w : World) : Prop :=
  forall s, In s (sessions w) ->
            exists n, (n < oidCounter w)%nat /\ _id s = objectId n.

(** Every stored document passes the validators of the schema. *)
Definition docs_valid (w : World) : Prop :=
  forall s, In s (sessions w) -> validate_session s = None.

Definition store_ok (w : World) : Prop :=
  unique_ids w /\ ids_issued w /\ docs_valid w.

(** What one request of [user] can do to the collection: nothing, replace
    one active document of that user by a document with the same [_id],
    owner and creation date, or append one new document of that user. *)
Inductive store_change (user : User) (w w' : World) : Prop :=
| store_unchanged :
    sessions w' = sessions w ->
    (oidCounter w <= oidCounter w')%nat ->
    store_change user w w'
| store_updated (l1 : list Session) (s s' : Session) (l2 : list Session) :
    sessions w = l1 ++ s :: l2 ->
    sessions w' = l1 ++ s' :: l2 ->
    _id s' = _id s ->
    userId s' = userId s ->
    userId s = user_id user ->
    isActive s = true ->
    createdAt s' = createdAt s ->
    (validate_session s = None -> validate_session s' = None) ->
    oidCounter w' = oidCounter w ->
    store_change user w w'
| store_inserted (s' : Session) :
    sessions w' = sessions w ++ [s'] ->
    _id s' = objectId (oidCounter w) ->
    userId s' = user_id user ->
    isActive s' = true ->
    validate_session s' = None ->
    oidCounter w' = S (oidCounter w) ->
    store_change user w w'.

(** The sessions that do not belong to [user]. *)
Definition others (user : User) (l : list Session) : list Session :=
  List.filter (fun s => negb (String.eqb (userId s) (user_id user))) l.

(** Most recently accessed first. *)
Fixpoint descending (l : list Session) : Prop :=
  match l with
  | [] => True
  | x :: rest =>
      (forall y, In y rest -> (lastAccessed y <= lastAccessed x)%nat)
      /\ descending rest
  end.

(** The filter of the list route for a [search] parameter. *)
Definition list_query (user : User) (search : option string) : Query :=
  {| q_id := None; q_userId := Some (user_id user); q_isActive := Some true;
     q_search := match search with
                 | Some pat => if str_nonempty pat then Some pat else None
                 | None => None
                 end |}.

(** * Properties *)

(** ** The monad *)

(** [default d None] and [default d (Some x)], where they are literal. *)
Ltac simpl_default :=
  repeat match goal with
  | |- context [from_option id ?d (@None ?A)] =>
      change (from_option id d (@None A)) with d
  | |- context [from_option id ?d (Some ?x)] =>
      change (from_option id d (Some x)) with x
  end.

Ltac unfold_M :=
  cbv beta iota zeta delta
    [bind ret throw try_catch get_world put_world emit new_Date console_error
     setSessionData getSessionData setCache getCache getRedisClient
     client_setEx client_get Session_findOne Session_find
     Session_countDocuments Session_findOneAndUpdate save addChatMessage
     updateComponentCode updateUIState new_Session prop
     outcome_trace outcome_world res_json res_status_json];
  simpl_default;
  cbn [redisClient sessions now oidCounter set_sessions set_redis advance].

(** Case analysis on the next scrutinee of the goal. *)
Ltac case_next :=
  match goal with
  | |- context [match ?x with _ => _ end] =>
      lazymatch x with
      | context [match _ with _ => _ end] => fail
      | _ => destruct x eqn:?
      end
  end.

Ltac run_M := unfold_M; repeat (case_next; unfold_M).

Lemma store_calls_app (t1 t2 : list Event) :
  store_calls (t1 ++ t2) = (store_calls t1 + store_calls t2)%nat.
Proof. unfold store_calls. by rewrite List.filter_app, length_app. Qed.

Lemma bind_trace {A B} (m : M A) (k : A -> M B) (w : World) :
  outcome_trace (bind m k w) =
  match m w with
  | Returned a w1 t1 => t1 ++ outcome_trace (k a w1)
  | Thrown _ _ t1 => t1
  end.
Proof. unfold bind. destruct (m w); [destruct (k a w0)|]; done. Qed.

Lemma try_catch_trace {A} (body : M A) (handler : string -> M A) (w : World) :
  outcome_trace (try_catch body handler w) =
  match body w with
  | Returned _ _ t1 => t1
  | Thrown e w1 t1 => t1 ++ outcome_trace (handler e w1)
  end.
Proof. unfold try_catch. destruct (body w); [|destruct (handler message w0)]; done. Qed.


Lemma app_unauthenticated (env : Env) (req : Request) (w : World) :
  app env None req w =
  Returned (res_status_json 401 (error_body "Authentication required")) w [].
Proof. destruct req as [r|r]; destruct r; reflexivity. Qed.

(** C7.  Every route of the two routers runs behind [auth]: a request
    without a valid authenticated user is answered by the middleware, the
    world is left as it was and no call is made: neither to the document
    store, nor to Redis, nor to the external endpoint. *)
Theorem C7_unauthenticated_request_runs_no_handler
    (env : Env) (req : Request) (w : World) :
  app env None req w =
    Returned (res_status_json 401 (error_body "Authentication required")) w [].
Proof. apply app_unauthenticated. Qed.

(** C4 (amended).  A request to the sessions router executes at most two
    calls against the Session collection before it answers, and at most
    one on the five routes that fetch or update with one command (read
    one session, create, update the metadata, delete, statistics).  The
    list route runs [find] and then [countDocuments]; the chat, code and
    ui-state routes run [findOne] and then [save]. *)
Theorem C4_store_calls_per_request
    (env : Env) (authenticated : option User) (r : SessionsRequest) (w : World) :
  (store_calls (outcome_trace (sessions_router env authenticated r w)) <= 2)%nat
  /\ (single_store_call r ->
      (store_calls (outcome_trace (sessions_router env authenticated r w)) <= 1)%nat).
Proof.
  destruct authenticated as [user|]; [|destruct r; split; intros; cbn; lia].
  destruct r; cbn [sessions_router auth sessions_handler single_store_call];
    unfold sessions_list, sessions_get, sessions_create, sessions_update,
      sessions_delete, sessions_chat, sessions_code, sessions_ui_state,
      sessions_stats, sessions_list_body, sessions_get_body,
      sessions_create_body, sessions_update_body, sessions_delete_body,
      sessions_chat_body, sessions_code_body, sessions_ui_state_body,
      sessions_stats_body.
  all: split; [|try tauto; intros _].
  all: run_M.
  all: try (cbn; lia).
Qed.

(** C4 at work, on a route that sends one command. *)
Lemma C4_witness_read_one_session :
  (store_calls
     (outcome_trace
        (sessions_router (Sample.env (Sample.answer "")) (Some Sample.alice)
           (GET_session "0") Sample.world)) <= 1)%nat.
Proof.
  exact (proj2 (C4_store_calls_per_request (Sample.env (Sample.answer ""))
                  (Some Sample.alice) (GET_session "0") Sample.world) I).
Defined.

(** C4, as stated, fails on the list route: listing the sessions of a
    user runs two queries, [find] and [countDocuments]. *)
Lemma C4_counterexample_list_runs_two_queries :
  let t := outcome_trace
             (sessions_router (Sample.env (Sample.answer "")) (Some Sample.alice)
                (GET_sessions None None None) Sample.world) in
  t = [EvFind {| q_id := None; q_userId := Some "alice";
                 q_isActive := Some true; q_search := None |};
       EvCountDocuments {| q_id := None; q_userId := Some "alice";
                           q_isActive := Some true; q_search := None |}]
  /\ store_calls t = 2%nat
  /\ ~ (store_calls t <= 1)%nat.
Proof. vm_compute. split; [reflexivity|]. split; [reflexivity|]. intros H. inversion H as [|? H']. inversion H'. Qed.

(** ** Redis: every write expires *)

Lemma all_expiring_same_redis (w w' : World) :
  redisClient w' = redisClient w -> all_expiring w -> all_expiring w'.
Proof. unfold all_expiring. intros -> H. exact H. Qed.

Lemma all_expiring_setEx (w : World) client key v deadline :
  redisClient w = Some client -> all_expiring w ->
  all_expiring
    (set_redis (<[key := {| rvalue := v; rexpire := Some deadline |}]> client) w).
Proof.
  intros Hc H client' key' e Hc' Hl. cbn in Hc'. injection Hc' as <-.
  destruct (decide (key = key')) as [->|Hne].
  - rewrite lookup_insert_eq in Hl. injection Hl as <-. by eexists.
  - rewrite lookup_insert_ne in Hl by done. eauto.
Qed.

(** The outbound call leaves the world alone and is one [fetch]. *)
Lemma call_gemini_effect (env : Env) (p : string) (w : World) :
  outcome_world (call_gemini env p w) = w
  /\ outcome_trace (call_gemini env p w) = [EvFetch p].
Proof.
  unfold call_gemini. run_M; auto.
Qed.

Ltac unfold_handlers :=
  unfold app, sessions_router, ai_router, auth, sessions_handler, ai_handler,
    sessions_list, sessions_get, sessions_create, sessions_update,
    sessions_delete, sessions_chat, sessions_code, sessions_ui_state,
    sessions_stats, ai_generate, ai_refine, ai_variations, ai_analyze,
    try_block,
    sessions_list_body, sessions_get_body, sessions_create_body,
    sessions_update_body, sessions_delete_body, sessions_chat_body,
    sessions_code_body, sessions_ui_state_body, sessions_stats_body,
    ai_generate_body, ai_refine_body, ai_variations_body, ai_analyze_body.

Ltac use_gemini :=
  repeat match goal with
  | H : call_gemini ?env ?p ?w = _ |- _ =>
      let E := fresh in
      pose proof (call_gemini_effect env p w) as E;
      rewrite H in E; cbn [outcome_world outcome_trace] in E;
      destruct E; subst; clear H
  end.

Ltac run_handler := unfold_M; repeat (case_next; use_gemini; unfold_M).

(** C6.  Redis is written only through [setEx]: every write a request
    makes, of mirrored session data or of an AI generation result, carries
    a time to live of 3600 seconds, so a store in which every key expires
    stays one; a generic [setCache] without a time to live takes the
    default of 300 seconds, [setSessionData] the default of 3600. *)
Theorem C6_every_cache_write_expires
    (env : Env) (authenticated : option User) (req : Request) (w : World) :
  all_expiring w ->
  Forall (ttl_is 3600) (outcome_trace (app env authenticated req w))
  /\ all_expiring (outcome_world (app env authenticated req w))
  /\ (forall key data w0,
        Forall (ttl_is 300) (outcome_trace (setCache key data None w0)))
  /\ (forall sessionId data w0,
        Forall (ttl_is 3600) (outcome_trace (setSessionData sessionId data None w0))).
Proof.
  intros Hw. split; [|split; [|split]].
  - destruct authenticated as [user|];
      [|destruct req as [r|r]; destruct r; constructor].
    destruct req as [r|r]; destruct r; unfold_handlers; run_handler;
      cbn; repeat constructor; try congruence.
  - destruct authenticated as [user|];
      [|destruct req as [r|r]; destruct r; exact Hw].
    destruct req as [r|r]; destruct r; unfold_handlers; run_handler;
      try congruence;
      first [ exact Hw
            | eapply all_expiring_same_redis; [|exact Hw]; reflexivity
            | eapply all_expiring_setEx; eauto
            | idtac ].
  - intros. run_M; cbn; repeat constructor.
  - intros. run_M; cbn; repeat constructor.
Qed.

(** ** Failures *)




(** ** Extraction of the JSON of an AI answer *)

Lemma append_cons (x : ascii) (a b : string) :
  String x a +:+ b = String x (a +:+ b).
Proof. reflexivity. Qed.

Lemma append_nil_l (a : string) : "" +:+ a = a.
Proof. reflexivity. Qed.

Lemma append_assoc (a b c : string) : (a +:+ b) +:+ c = a +:+ b +:+ c.
Proof.
  induction a as [|x a IH]; [done|]. rewrite !append_cons. by rewrite IH.
Qed.


Lemma from_first_open_spec (text s : string) :
  from_first_open text = Some s <->
  exists pre rest, text = pre +:+ s /\ s = String "{" rest /\ has_char "{" pre = false.
Proof.
  split.
  - revert s. induction text as [|c text IH]; intros s H; cbn in H; [done|].
    destruct (Ascii.eqb c "{") eqn:Hc.
    + apply Ascii.eqb_eq in Hc. subst c. injection H as <-.
      by exists "", text.
    + destruct (IH _ H) as (pre & rest & -> & -> & Hpre).
      exists (String c pre), rest. rewrite append_cons.
      cbn [has_char]. by rewrite Hc, Hpre.
  - intros (pre & rest & -> & -> & Hpre).
    induction pre as [|c pre IH]; [by cbn|].
    rewrite append_cons. cbn [has_char from_first_open] in *.
    apply orb_false_iff in Hpre as [Hc Hpre]. rewrite Hc. auto.
Qed.

Lemma upto_last_close_none (s : string) :
  upto_last_close s = None <-> has_char "}" s = false.
Proof.
  induction s as [|c s IH]; cbn [upto_last_close has_char]; [done|].
  destruct (upto_last_close s) eqn:E.
  - split; [done|]. intros H. apply orb_false_iff in H as [_ H].
    apply IH in H. done.
  - destruct (Ascii.eqb c "}"); cbn [orb]; [done|]. tauto.
Qed.

Lemma upto_last_close_spec (s m : string) :
  upto_last_close s = Some m <->
  exists body post, s = m +:+ post /\ m = body +:+ "}" /\ has_char "}" post = false.
Proof.
  split.
  - revert m. induction s as [|c s IH]; intros m H;
      cbn [upto_last_close] in H; [done|].
    destruct (upto_last_close s) eqn:E.
    + injection H as <-. destruct (IH _ eq_refl) as (body & post & -> & -> & Hp).
      exists (String c body), post. by rewrite !append_cons.
    + destruct (Ascii.eqb c "}") eqn:Hc; [|done]. injection H as <-.
      apply Ascii.eqb_eq in Hc. subst c.
      exists "", s. split; [done|]. split; [done|].
      by apply upto_last_close_none.
  - intros (body & post & -> & -> & Hpost).
    induction body as [|c body IH].
    + rewrite append_nil_l, append_cons, append_nil_l. cbn [upto_last_close].
      apply upto_last_close_none in Hpost. by rewrite Hpost.
    + rewrite !append_cons. cbn [upto_last_close]. by rewrite IH.
Qed.

(** The match of the pattern is the part of the text from its first
    opening brace to its last closing brace. *)
Lemma json_match_spec (text m : string) :
  json_match text = Some m <->
  exists pre body post,
    text = pre +:+ m +:+ post /\ m = "{" +:+ body +:+ "}"
    /\ has_char "{" pre = false /\ has_char "}" post = false.
Proof.
  unfold json_match. split.
  - destruct (from_first_open text) as [s|] eqn:E; [|done]. intros H.
    apply from_first_open_spec in E as (pre & rest & -> & -> & Hpre).
    apply upto_last_close_spec in H as (body & post & Hs & -> & Hpost).
    destruct body as [|c body].
    + rewrite append_nil_l, append_cons in Hs. injection Hs as Hc _. done.
    + rewrite !append_cons in Hs. injection Hs as Hc Hs. subst c rest.
      exists pre, body, post. by rewrite !append_cons, append_nil_l.
  - intros (pre & body & post & -> & -> & Hpre & Hpost).
    assert (from_first_open (pre +:+ ("{" +:+ body +:+ "}") +:+ post)
            = Some (("{" +:+ body +:+ "}") +:+ post)) as ->.
    { apply from_first_open_spec. exists pre. eexists. split; [done|].
      split; [|done]. by rewrite !append_cons, append_nil_l. }
    apply upto_last_close_spec. exists ("{" +:+ body), post.
    split; [done|]. split; [|done]. by rewrite append_assoc.
Qed.

(** C2.  When the endpoint returns [text] to [POST /ai/generate] (the
    prompt is present, Redis is connected and holds no live truthy
    result for the prompt), the handler answers 200 with
    [{ success: true, data, cached: false }], where [data] is the value
    [JSON.parse] gives for the match of the pattern in [text] when there
    is a match and it parses, and otherwise the fallback object with the
    full text as [jsx].  The match is the part of the text from its
    first opening brace to its last closing brace. *)
Theorem C2_generate_returns_extracted_json
    (env : Env) (user : User) (prompt : string) (sessionId : option string)
    (existingCode : jsval) (chatHistory : option (list (string * string)))
    (w : World) (client : gmap string RedisEntry) (text : string)
    (t0 : list Event) :
  str_nonempty prompt = true ->
  redisClient w = Some client ->
  truthy (default JNull (live_value client (now w) (cacheKey prompt))) = false ->
  call_gemini env
    (generateComponentPrompt prompt existingCode (default [] chatHistory)) w
    = Returned (Some (JStr text)) w t0 ->
  let fallback :=
    JObj [("jsx", JStr text); ("css", JStr ""); ("tsx", JStr "");
          ("explanation", JStr "Generated component based on your request")] in
  exists data w' t,
    app env (Some user)
      (Ai (POST_generate (Some prompt) sessionId existingCode chatHistory)) w
    = Returned (res_json (JObj [("success", JBool true); ("data", data);
                                ("cached", JBool false)])) w' t
    /\ (forall m parsed,
          json_match text = Some m -> JSON_parse env m = Some parsed ->
          data = parsed)
    /\ (json_match text = None -> data = fallback)
    /\ (forall m,
          json_match text = Some m -> JSON_parse env m = None ->
          data = fallback)
    /\ (forall m,
          json_match text = Some m <->
          exists pre body post,
            text = pre +:+ m +:+ post /\ m = "{" +:+ body +:+ "}"
            /\ has_char "{" pre = false /\ has_char "}" post = false).
Proof.
  intros Hp Hc Hmiss Hapi fallback.
  unfold app, ai_router, auth, ai_handler, ai_generate, ai_generate_body.
  rewrite Hp. unfold_M. repeat (rewrite Hc; unfold_M).
  rewrite Hmiss, Hapi. unfold_M.
  repeat (rewrite Hc; unfold_M).
  do 3 eexists. split; [reflexivity|].
  unfold parse_response, generate_fallback, obj_of. cbn [omap fst snd].
  split; [|split; [|split]].
  - intros m parsed -> ->. done.
  - intros ->. done.
  - intros m -> ->. done.
  - intros m. apply json_match_spec.
Qed.

(** C2 at work: the answer wraps an object in prose. *)
Lemma C2_witness_object_in_prose :
  let text := "Here you go: {" +:+ dquote +:+ "jsx" +:+ dquote +:+ ": 1} Enjoy!" in
  let env := Sample.env (Sample.answer text) in
  exists data w' t,
    app env (Some Sample.alice)
      (Ai (POST_generate (Some "a card") None None None)) Sample.world
    = Returned (res_json (JObj [("success", JBool true); ("data", data);
                                ("cached", JBool false)])) w' t
    /\ data = JObj [("jsx", JNum 1)].
Proof.
  cbv zeta.
  destruct (C2_generate_returns_extracted_json
              (Sample.env (Sample.answer
                 ("Here you go: {" +:+ dquote +:+ "jsx" +:+ dquote +:+ ": 1} Enjoy!")))
              Sample.alice "a card" None None None Sample.world ∅
              ("Here you go: {" +:+ dquote +:+ "jsx" +:+ dquote +:+ ": 1} Enjoy!")
              [EvFetch (generateComponentPrompt "a card" None [])]
              eq_refl eq_refl eq_refl eq_refl)
    as (data & w' & t & Happ & Hparsed & _).
  exists data, w', t. split; [exact Happ|].
  apply (Hparsed ("{" +:+ dquote +:+ "jsx" +:+ dquote +:+ ": 1}")); reflexivity.
Defined.

(** ** The cache of generation results *)

Lemma session_key_ne_cacheKey (sessionId prompt : string) :
  session_key sessionId <> cacheKey prompt.
Proof.
  unfold session_key, cacheKey. intros H.
  rewrite !append_cons in H. discriminate H.
Qed.

Lemma json_match_open (text m : string) :
  json_match text = Some m -> exists rest, m = String "{" rest.
Proof.
  intros H. apply json_match_spec in H as (pre & body & post & _ & -> & _).
  rewrite append_cons, append_nil_l. by eexists.
Qed.

Lemma parse_response_truthy (env : Env) (text : jsval) :
  parses_objects env ->
  truthy (parse_response env text (generate_fallback text) (generate_fallback text))
  = true.
Proof.
  intros Henv. unfold parse_response.
  destruct text as [[| | |s| |]|]; try reflexivity.
  destruct (json_match s) as [m|] eqn:Hm; [|reflexivity].
  destruct (JSON_parse env m) as [v|] eqn:Hv; [|reflexivity].
  apply json_match_open in Hm as [rest ->].
  apply Henv in Hv as [kvs ->]. reflexivity.
Qed.

(** A request leaves the clock alone. *)
Lemma app_now (env : Env) (authenticated : option User) (req : Request)
    (w : World) :
  now (outcome_world (app env authenticated req w)) = now w.
Proof.
  destruct authenticated as [user|];
    [|destruct req as [r|r]; destruct r; reflexivity].
  destruct req as [r|r]; destruct r; unfold_handlers; run_handler; reflexivity.
Qed.

(** A live, truthy generation result survives any request. *)
Lemma app_keeps_generation (env : Env) (authenticated : option User)
    (req : Request) (w : World) (client : gmap string RedisEntry)
    (prompt : string) (e : RedisEntry) :
  redisClient w = Some client ->
  client !! cacheKey prompt = Some e ->
  entry_live (now w) e = true ->
  truthy (rvalue e) = true ->
  exists client',
    redisClient (outcome_world (app env authenticated req w)) = Some client'
    /\ client' !! cacheKey prompt = Some e.
Proof.
  intros Hc He Hlive Htruthy.
  destruct authenticated as [user|];
    [|destruct req as [r|r]; destruct r; exists client; done].
  destruct req as [r|r]; destruct r; unfold_handlers; run_handler;
    simplify_eq;
    try (eexists; split; [eassumption|assumption]);
    try (eexists; split; [reflexivity|];
         rewrite lookup_insert_ne by apply session_key_ne_cacheKey;
         congruence).
  all: eexists; split; [reflexivity|].
  all: match goal with
       | |- <[cacheKey ?p := _]> _ !! cacheKey ?q = _ =>
           destruct (decide (cacheKey p = cacheKey q)) as [Heq|Hne];
           [|by rewrite lookup_insert_ne]
       end.
  all: exfalso; rewrite Heq in *; unfold live_value in *.
  all: repeat match goal with
       | H : ?c !! ?k = Some _, H' : context [?c !! ?k] |- _ =>
           rewrite H in H'
       end.
  all: rewrite Hlive in *; cbv beta iota delta [from_option id] in *; congruence.
Qed.

Lemma step_now (env : Env) (w w' : World) :
  step env w w' -> (now w <= now w')%nat.
Proof.
  intros [authenticated req w0|dt w0]; [rewrite app_now; lia|cbn; lia].
Qed.

Lemma steps_now (env : Env) (w w' : World) :
  rtc (step env) w w' -> (now w <= now w')%nat.
Proof.
  induction 1 as [|w0 w1 w2 Hstep _ IH]; [lia|].
  apply step_now in Hstep. lia.
Qed.

Lemma entry_live_earlier (t t' : nat) (e : RedisEntry) :
  (t <= t')%nat -> entry_live t' e = true -> entry_live t e = true.
Proof.
  unfold entry_live. destruct (rexpire e) as [deadline|]; [|done].
  intros Ht H. apply Nat.ltb_lt in H. apply Nat.ltb_lt. lia.
Qed.

(** A truthy generation result stays in the store, under its key, for as
    long as it is live, whatever the application serves meanwhile. *)
Lemma steps_keep_generation (env : Env) (prompt : string) (e : RedisEntry)
    (w w' : World) :
  rtc (step env) w w' ->
  truthy (rvalue e) = true ->
  entry_live (now w') e = true ->
  forall client,
    redisClient w = Some client ->
    client !! cacheKey prompt = Some e ->
    exists client',
      redisClient w' = Some client' /\ client' !! cacheKey prompt = Some e.
Proof.
  intros Hsteps Htruthy.
  induction Hsteps as [w0|w0 w1 w2 Hstep Hsteps IH]; intros Hlive client Hc He.
  - by exists client.
  - assert (entry_live (now w0) e = true) as Hlive0.
    { eapply entry_live_earlier; [|exact Hlive].
      apply step_now in Hstep. apply steps_now in Hsteps. lia. }
    destruct Hstep as [authenticated req w0|dt w0].
    + destruct (app_keeps_generation env authenticated req w0 client prompt e)
        as (client1 & Hc1 & He1); auto.
      eapply IH; eauto.
    + eapply IH; eauto.
Qed.

Lemma nat_of_ascii_bound (c : ascii) : (nat_of_ascii c < 256)%nat.
Proof. destruct c as [[] [] [] [] [] [] [] []]; vm_compute; lia. Qed.

Lemma utf8_bytes_cons (c : ascii) (s : string) :
  utf8_bytes (String c s) =
  (if (nat_of_ascii c <? 128)%nat then [nat_of_ascii c]
   else [(192 + nat_of_ascii c / 64)%nat; (128 + nat_of_ascii c mod 64)%nat])
  ++ utf8_bytes s.
Proof. reflexivity. Qed.

Lemma utf8_bytes_bound (s : string) :
  Forall (fun b => (b < 256)%nat) (utf8_bytes s).
Proof.
  induction s as [|c s IH]; [constructor|]. rewrite utf8_bytes_cons.
  apply Forall_app. split; [|exact IH].
  pose proof (nat_of_ascii_bound c).
  pose proof (Nat.mod_upper_bound (nat_of_ascii c) 64).
  assert (nat_of_ascii c / 64 < 4)%nat by (apply Nat.Div0.div_lt_upper_bound; lia).
  destruct (nat_of_ascii c <? 128)%nat;
    repeat (apply Forall_cons; split; [lia|]); apply Forall_nil; exact I.
Qed.

(** The four values of a group of three bytes, in the arithmetic of
    [base64_encode]. *)
Lemma rfc4648_sextets_bytes (a b c : nat) :
  (a < 256)%nat -> (b < 256)%nat -> (c < 256)%nat ->
  rfc4648_sextets (rfc4648_group a b c)
  = map N.of_nat
      [a / 4; a mod 4 * 16 + b / 16; b mod 16 * 4 + c / 64; c mod 64]%nat.
Proof.
  intros Ha Hb Hc. unfold rfc4648_sextets, rfc4648_group. cbn [map].
  pose proof (Nat.div_mod_eq a 4) as Ea.
  pose proof (Nat.mod_upper_bound a 4 ltac:(lia)) as Ra.
  pose proof (Nat.div_mod_eq b 16) as Eb.
  pose proof (Nat.mod_upper_bound b 16 ltac:(lia)) as Rb.
  pose proof (Nat.div_mod_eq c 64) as Ec.
  pose proof (Nat.mod_upper_bound c 64 ltac:(lia)) as Rc.
  remember (a / 4)%nat as qa eqn:Hqa. remember (a mod 4)%nat as ra eqn:Hra.
  remember (b / 16)%nat as qb eqn:Hqb. remember (b mod 16)%nat as rb eqn:Hrb.
  remember (c / 64)%nat as qc eqn:Hqc. remember (c mod 64)%nat as rc eqn:Hrc.
  clear Hqa Hra Hqb Hrb Hqc Hrc.
  set (g := (N.of_nat a * 65536 + N.of_nat b * 256 + N.of_nat c)%N).
  assert (g / 262144 = N.of_nat qa)%N as E1.
  { symmetry.
    apply (N.div_unique g 262144 _
             (N.of_nat ra * 65536 + N.of_nat b * 256 + N.of_nat c));
      subst g; lia. }
  assert (g / 4096 = N.of_nat (qa * 64 + ra * 16 + qb))%N as E2.
  { symmetry.
    apply (N.div_unique g 4096 _ (N.of_nat rb * 256 + N.of_nat c));
      subst g; lia. }
  assert (g / 64 = N.of_nat (a * 1024 + b * 4 + qc))%N as E3.
  { symmetry. apply (N.div_unique g 64 _ (N.of_nat rc)); subst g; lia. }
  rewrite E1, E2, E3.
  repeat f_equal.
  - symmetry. apply (N.mod_unique _ 64 0); lia.
  - symmetry. apply (N.mod_unique _ 64 (N.of_nat qa)); lia.
  - symmetry. apply (N.mod_unique _ 64 (N.of_nat (a * 16 + qb))); lia.
  - symmetry.
    apply (N.mod_unique g 64 (N.of_nat (a * 1024 + b * 4 + qc))); subst g; lia.
Qed.

Lemma base64_char_rfc4648 (v : nat) :
  (v < 64)%nat -> rfc4648_char (N.of_nat v) = base64_char v.
Proof.
  intros Hv.
  assert (forallb (fun v => Ascii.eqb (rfc4648_char (N.of_nat v)) (base64_char v))
            (seq 0 64) = true) as Hall by (vm_compute; reflexivity).
  rewrite forallb_forall in Hall.
  apply Ascii.eqb_eq, Hall, in_seq. lia.
Qed.

Lemma base64_encode_rfc4648 (bytes : list nat) :
  Forall (fun b => (b < 256)%nat) bytes ->
  base64_encode bytes = rfc4648 bytes.
Proof.
  remember (length bytes) as n eqn:Hn. revert bytes Hn.
  induction n as [n IH] using lt_wf_ind. intros bytes Hn Hbytes.
  assert (forall x, (x < 256)%nat -> (x / 4 < 64)%nat) as Hdiv4
      by (intros; apply Nat.Div0.div_lt_upper_bound; lia).
  assert (forall x y, (y < 256)%nat -> (x mod 4 * 16 + y / 16 < 64)%nat) as Hmid.
  { intros x y Hy. pose proof (Nat.mod_upper_bound x 4 ltac:(lia)).
    assert (y / 16 < 16)%nat by (apply Nat.Div0.div_lt_upper_bound; lia). lia. }
  assert (forall x y, (y < 256)%nat -> (x mod 16 * 4 + y / 64 < 64)%nat) as Hlow.
  { intros x y Hy. pose proof (Nat.mod_upper_bound x 16 ltac:(lia)).
    assert (y / 64 < 4)%nat by (apply Nat.Div0.div_lt_upper_bound; lia). lia. }
  destruct bytes as [|a [|b [|c rest]]]; [reflexivity| | |].
  - apply Forall_cons in Hbytes as [Ha _].
    cbn [base64_encode rfc4648].
    rewrite rfc4648_sextets_bytes by lia. cbn [map take string_of_list_ascii].
    rewrite !base64_char_rfc4648
      by (first [assumption | apply Hdiv4 | apply Hmid | apply Hlow]; lia).
    change (0 / 16)%nat with 0%nat. by rewrite Nat.add_0_r.
  - apply Forall_cons in Hbytes as [Ha Hbytes].
    apply Forall_cons in Hbytes as [Hb _].
    cbn [base64_encode rfc4648].
    rewrite rfc4648_sextets_bytes by lia. cbn [map take string_of_list_ascii].
    rewrite !base64_char_rfc4648
      by (first [assumption | apply Hdiv4 | apply Hmid | apply Hlow]; lia).
    change (0 / 64)%nat with 0%nat. by rewrite Nat.add_0_r.
  - apply Forall_cons in Hbytes as [Ha Hbytes].
    apply Forall_cons in Hbytes as [Hb Hbytes].
    apply Forall_cons in Hbytes as [Hc Hrest].
    cbn [base64_encode rfc4648].
    rewrite rfc4648_sextets_bytes by lia. cbn [map string_of_list_ascii].
    assert (c mod 64 < 64)%nat by (apply Nat.mod_upper_bound; lia).
    rewrite !base64_char_rfc4648
      by (first [assumption | apply Hdiv4 | apply Hmid | apply Hlow]; lia).
    rewrite !append_cons, append_nil_l.
    rewrite (IH (length rest)) with (bytes := rest); [reflexivity| |reflexivity|exact Hrest].
    subst n. cbn [length]. lia.
Qed.

(** The key the route computes is that key. *)
Lemma cacheKey_base64 (prompt : string) : cacheKey prompt = base64_key prompt.
Proof.
  unfold cacheKey, base64_key.
  by rewrite base64_encode_rfc4648 by apply utf8_bytes_bound.
Qed.

(** C10 (amended).  The key of the generation cache is computed from the
    prompt alone: it is [ai_generate:] followed by the base64 encoding of
    the UTF-8 bytes of the prompt.  When a [POST /ai/generate] request has
    generated its parsed response (it read that key, called the endpoint
    and stored the response under that key for 3600 seconds, answering
    [cached: false]), every later request with the same prompt made less
    than 3600 seconds after it, by whichever user, with whatever
    [sessionId], [existingCode] and [chatHistory], and whatever the
    application has served in between, is answered from the cache: the
    same data with [cached: true], after a single Redis read of that key
    and without any call to the endpoint. *)
Theorem C10_equal_prompts_share_the_cached_result
    (env : Env) (user1 user2 : User) (prompt : string)
    (sessionId1 sessionId2 : option string) (existingCode1 existingCode2 : jsval)
    (chatHistory1 chatHistory2 : option (list (string * string)))
    (w w1 w2 : World) (data : json) (t1 : list Event) :
  parses_objects env ->
  app env (Some user1)
    (Ai (POST_generate (Some prompt) sessionId1 existingCode1 chatHistory1)) w
  = Returned (res_json (JObj [("success", JBool true); ("data", data);
                              ("cached", JBool false)])) w1 t1 ->
  rtc (step env) w1 w2 ->
  (now w2 < now w + 3600)%nat ->
  t1 = [EvRedisGet (base64_key prompt);
        EvFetch (generateComponentPrompt prompt existingCode1
                   (default [] chatHistory1));
        EvRedisSetEx (base64_key prompt) 3600 data]
  /\ app env (Some user2)
       (Ai (POST_generate (Some prompt) sessionId2 existingCode2 chatHistory2)) w2
     = Returned (res_json (JObj [("success", JBool true); ("data", data);
                                 ("cached", JBool true)])) w2
         [EvRedisGet (base64_key prompt)].
Proof.
  intros Henv Hfirst Hsteps Hnow. rewrite <- !cacheKey_base64.
  assert (exists client,
            redisClient w1 = Some client
            /\ client !! cacheKey prompt =
               Some {| rvalue := data; rexpire := Some (now w + 3600)%nat |}
            /\ truthy data = true /\ str_nonempty prompt = true
            /\ t1 = [EvRedisGet (cacheKey prompt);
                     EvFetch (generateComponentPrompt prompt existingCode1
                                (default [] chatHistory1));
                     EvRedisSetEx (cacheKey prompt) 3600 data])
    as (client & Hc & He & Htruthy & Hp & Ht1).
  { revert Hfirst. unfold_handlers. run_handler; intros Hfirst; simplify_eq.
    all: eexists; split; [reflexivity|]; cbv [id].
    all: rewrite lookup_insert_eq.
    all: split; [reflexivity|]; split; [|split; reflexivity].
    all: by apply parse_response_truthy. }
  split; [exact Ht1|].
  destruct (steps_keep_generation env prompt
              {| rvalue := data; rexpire := Some (now w + 3600)%nat |}
              w1 w2 Hsteps Htruthy)
    with (client := client) as (client2 & Hc2 & He2); auto.
  { cbn. apply Nat.ltb_lt. lia. }
  unfold_handlers. rewrite Hp. unfold_M. repeat (rewrite Hc2; unfold_M).
  unfold live_value. rewrite He2. cbn [entry_live rexpire rvalue].
  assert ((now w2 <? now w + 3600)%nat = true) as -> by (apply Nat.ltb_lt; lia).
  cbv beta iota. simpl_default. rewrite Htruthy. reflexivity.
Qed.

Lemma Sample_members_object (fuel : nat) :
  forall s acc v rest,
    Sample.members fuel s acc = Some (v, rest) -> exists kvs, v = JObj kvs.
Proof.
  induction fuel as [|fuel IH]; intros s acc v rest H; [done|].
  cbn [Sample.members] in H.
  repeat case_match; simplify_eq; eauto.
Qed.

Lemma Sample_parses_objects (reply : FetchResult) :
  parses_objects (Sample.env reply).
Proof.
  intros s v H. cbn [JSON_parse Sample.env] in H. unfold Sample.parse in H.
  cbn [Sample.value Sample.skip_ws] in H.
  change (Sample.is_json_ws "{") with false in H. cbv iota in H.
  change (Ascii.eqb "{" "{") with true in H. cbv iota in H.
  repeat case_match; simplify_eq; eauto using Sample_members_object.
Qed.

(** C10 at work: Alice generates a card; Bob lists his sessions; half an
    hour passes; Bob asks for the same prompt with other code and another
    history, and is served Alice's result, read under the key
    [ai_generate:YSBjYXJk]. *)
Lemma C10_witness_bob_is_served_alices_result :
  let text := "{" +:+ dquote +:+ "jsx" +:+ dquote +:+ ": 1}" in
  let env := Sample.env (Sample.answer text) in
  let w1 := outcome_world
              (app env (Some Sample.alice)
                 (Ai (POST_generate (Some "a card") None None None)) Sample.world) in
  let w2 := advance 1800
              (outcome_world
                 (app env (Some Sample.bob)
                    (Sessions (GET_sessions None None None)) w1)) in
  base64_key "a card" = "ai_generate:YSBjYXJk"
  /\ app env (Some Sample.bob)
       (Ai (POST_generate (Some "a card") (Some "1") (Some (JStr "old code"))
              (Some [("user", "make it blue")]))) w2
     = Returned (res_json (JObj [("success", JBool true);
                                 ("data", JObj [("jsx", JNum 1)]);
                                 ("cached", JBool true)])) w2
         [EvRedisGet (base64_key "a card")].
Proof.
  cbv zeta. split; [reflexivity|].
  eapply (fun H2 H3 H4 => proj2
            (C10_equal_prompts_share_the_cached_result
               (Sample.env (Sample.answer ("{" +:+ dquote +:+ "jsx" +:+ dquote +:+ ": 1}")))
               Sample.alice Sample.bob "a card" None (Some "1") None
               (Some (JStr "old code")) None (Some [("user", "make it blue")])
               Sample.world _ _ _ _ (Sample_parses_objects _) H2 H3 H4)).
  - reflexivity.
  - eapply rtc_l; [apply (step_request _ (Some Sample.bob)
                            (Sessions (GET_sessions None None None)))|].
    apply rtc_once. apply step_tick.
  - cbn [now advance]. rewrite !app_now. cbn [now Sample.world]. lia.
Defined.

(** C10, as stated, fails when the first of the two requests was itself
    served from the cache: the entry it was served from can expire before
    the second request, which then generates anew.  Here the two requests
    have the same prompt and are 200 seconds apart; the first is answered
    [cached: true] with the stored result, the second [cached: false] with
    a new one. *)
Lemma C10_counterexample_entry_expires_between :
  let text := "{" +:+ dquote +:+ "jsx" +:+ dquote +:+ ": 1}" in
  let env := Sample.env (Sample.answer text) in
  let request := Ai (POST_generate (Some "a card") None None None) in
  let o1 := app env (Some Sample.alice) request Sample.expiring_cache_world in
  let w2 := advance 200 (outcome_world o1) in
  outcome_value o1
    = Some (res_json (JObj [("success", JBool true);
                            ("data", JObj [("jsx", JStr "old")]);
                            ("cached", JBool true)]))
  /\ (now w2 < now Sample.expiring_cache_world + 3600)%nat
  /\ outcome_value (app env (Some Sample.alice) request w2)
     = Some (res_json (JObj [("success", JBool true);
                             ("data", JObj [("jsx", JNum 1)]);
                             ("cached", JBool false)])).
Proof.
  cbv zeta. split; [vm_compute; reflexivity|].
  split; [vm_compute; lia|vm_compute; reflexivity].
Qed.

(** ** Queries on the Session collection *)

Lemma matches_owned_active (env : Env) (user : User) (sessionId : string)
    (s : Session) :
  matches env (owned_active user sessionId) s =
  String.eqb (_id s) sessionId && String.eqb (userId s) (user_id user)
  && Bool.eqb (isActive s) true.
Proof. unfold matches, owned_active, opt_test. cbn. by rewrite andb_true_r. Qed.

Lemma matches_owned_active_true (env : Env) (user : User) (sessionId : string)
    (s : Session) :
  matches env (owned_active user sessionId) s = true <->
  _id s = sessionId /\ userId s = user_id user /\ isActive s = true.
Proof.
  rewrite matches_owned_active, !andb_true_iff, !String.eqb_eq.
  destruct (isActive s); cbn; intuition congruence.
Qed.

Lemma unique_ids_eq (l : list Session) (x y : Session) :
  NoDup (map _id l) -> In x l -> In y l -> _id x = _id y -> x = y.
Proof.
  induction l as [|z l IH]; cbn; [done|].
  intros Hnd [->|Hx] [->|Hy] Hid; auto.
  - apply NoDup_cons in Hnd as [Hz _]. exfalso. apply Hz.
    rewrite Hid. apply list_elem_of_In, in_map, Hy.
  - apply NoDup_cons in Hnd as [Hz _]. exfalso. apply Hz.
    rewrite <- Hid. apply list_elem_of_In, in_map, Hx.
  - apply NoDup_cons in Hnd as [_ Hnd]. auto.
Qed.

Lemma find_none_iff {A} (p : A -> bool) (l : list A) :
  (forall x, In x l -> p x = false) -> List.find p l = None.
Proof.
  induction l as [|x l IH]; cbn; [done|]. intros H.
  rewrite (H x) by auto. auto.
Qed.

Lemma update_first_none (p : Session -> bool) (f : Session -> Session)
    (l : list Session) :
  (forall x, In x l -> p x = false) -> update_first p f l = None.
Proof.
  induction l as [|x l IH]; cbn; [done|]. intros H.
  rewrite (H x) by auto. rewrite IH by auto. done.
Qed.

Lemma update_first_some (p : Session -> bool) (f : Session -> Session)
    (l l' : list Session) (y : Session) :
  update_first p f l = Some (y, l') ->
  exists l1 x l2,
    l = l1 ++ x :: l2 /\ p x = true /\ y = f x /\ l' = l1 ++ f x :: l2.
Proof.
  revert l' y. induction l as [|z l IH]; intros l' y H; cbn in H; [done|].
  destruct (p z) eqn:Hz.
  - injection H as <- <-. by exists [], z, l.
  - destruct (update_first p f l) as [[y0 l0]|] eqn:E; [|done].
    injection H as <- <-.
    destruct (IH _ _ eq_refl) as (l1 & x & l2 & -> & Hx & -> & ->).
    by exists (z :: l1), x, l2.
Qed.

Lemma find_replace_doc (p : Session -> bool) (l : list Session)
    (s s' : Session) :
  NoDup (map _id l) -> List.find p l = Some s -> _id s' = _id s ->
  p s' = true -> List.find p (replace_doc s' l) = Some s'.
Proof.
  intros Hnd Hfind Hid Hp. induction l as [|x l IH]; cbn in *; [done|].
  apply NoDup_cons in Hnd as [Hx Hnd].
  destruct (p x) eqn:Hpx.
  - injection Hfind as ->. rewrite Hid, String.eqb_refl. cbn. by rewrite Hp.
  - assert (String.eqb (_id x) (_id s') = false) as ->.
    { apply String.eqb_neq. intros Heq. apply Hx.
      rewrite Heq, Hid. apply list_elem_of_In, in_map.
      by apply find_some in Hfind as [? _]. }
    cbn. rewrite Hpx. auto.
Qed.

(** A per-session request whose filter matches no document changes
    nothing, and is answered 404 unless it was rejected before the query. *)
Lemma unmatched_request (env : Env) (user : User) (r : SessionsRequest)
    (sessionId : string) (w : World) :
  named_session r = Some sessionId ->
  (forall x, In x (sessions w) ->
             matches env (owned_active user sessionId) x = false) ->
  exists resp t,
    sessions_router env (Some user) r w = Returned resp w t
    /\ not_found_or_rejected r resp.
Proof.
  intros Hr Hnone.
  pose proof (find_none_iff _ _ Hnone) as Hfind.
  destruct r; cbn in Hr; simplify_eq;
    cbn [sessions_router auth sessions_handler].
  - unfold sessions_get, sessions_get_body. unfold_M. rewrite Hfind.
    do 2 eexists. split; [reflexivity|]. by left.
  - unfold sessions_update, sessions_update_body.
    destruct (first_error _) as [message|] eqn:E.
    + unfold_M. do 2 eexists. split; [reflexivity|].
      right; right. split; [|done]. cbn. rewrite E. by eexists.
    + unfold_M. rewrite (update_first_none _ _ _ Hnone).
      do 2 eexists. split; [reflexivity|]. by left.
  - unfold sessions_delete, sessions_delete_body. unfold_M.
    rewrite (update_first_none _ _ _ Hnone).
    do 2 eexists. split; [reflexivity|]. by left.
  - unfold sessions_chat, sessions_chat_body.
    destruct (negb _ || negb _) eqn:E.
    + unfold_M. do 2 eexists. split; [reflexivity|].
      right; left. split; [|done]. cbn.
      apply orb_true_iff in E as [E|E]; apply negb_true_iff in E; auto.
    + unfold_M. rewrite Hfind.
      do 2 eexists. split; [reflexivity|]. by left.
  - unfold sessions_code, sessions_code_body. unfold_M. rewrite Hfind.
    do 2 eexists. split; [reflexivity|]. by left.
  - unfold sessions_ui_state, sessions_ui_state_body. unfold_M. rewrite Hfind.
    do 2 eexists. split; [reflexivity|]. by left.
  - unfold sessions_stats, sessions_stats_body. unfold_M. rewrite Hfind.
    do 2 eexists. split; [reflexivity|]. by left.
Qed.

Lemma sessions_queries_filter_on_user (env : Env) (user : User)
    (r : SessionsRequest) (w : World) :
  Forall (query_of user) (outcome_trace (sessions_router env (Some user) r w)).
Proof.
  destruct r; unfold_handlers; run_handler; cbn; repeat constructor.
Qed.

(** C8 (amended).  Every query the sessions router sends to the document
    store filters on the [_id] of the authenticated user.  Hence, for
    distinct users A and B and a session owned by B, a read, update,
    delete, chat, code, ui-state or stats request by A naming that
    session leaves the whole store, that session included, unchanged,
    and is answered 404 [Session not found]; unless the request is
    rejected before any query is sent: a chat request without role or
    content is answered 400, a metadata update whose title or description
    fails the schema validators is answered 500. *)
Theorem C8_user_isolation
    (env : Env) (A B : User) (w : World) (s : Session) (r : SessionsRequest) :
  user_id A <> user_id B ->
  unique_ids w ->
  In s (sessions w) ->
  userId s = user_id B ->
  named_session r = Some (_id s) ->
  (exists resp t,
     sessions_router env (Some A) r w = Returned resp w t
     /\ not_found_or_rejected r resp)
  /\ (forall r' w',
        Forall (query_of A) (outcome_trace (sessions_router env (Some A) r' w'))).
Proof.
  intros HAB Huniq Hs HB Hr. split; [|intros; apply sessions_queries_filter_on_user].
  apply (unmatched_request env A r (_id s) w Hr).
  intros x Hx. destruct (matches env (owned_active A (_id s)) x) eqn:E; [|done].
  apply matches_owned_active_true in E as (Hid & Huser & _).
  assert (x = s) as -> by (eapply unique_ids_eq; eauto).
  congruence.
Qed.

Lemma Sample_unique_ids : unique_ids Sample.world.
Proof.
  unfold unique_ids. cbn. apply NoDup_cons_2; [|apply NoDup_singleton].
  intros H. apply list_elem_of_singleton in H. discriminate H.
Qed.

(** C8 at work: Alice names Bob's session in a code update. *)
Lemma C8_witness_alice_cannot_write_bobs_session :
  exists resp t,
    sessions_router (Sample.env (Sample.answer "")) (Some Sample.alice)
      (PUT_code "1" (Some "evil") None None) Sample.world
    = Returned resp Sample.world t
    /\ not_found_or_rejected (PUT_code "1" (Some "evil") None None) resp.
Proof.
  refine (proj1 (C8_user_isolation (Sample.env (Sample.answer ""))
                   Sample.alice Sample.bob Sample.world
                   (Sample.session_of "1" "bob" "Navbar" 20)
                   (PUT_code "1" (Some "evil") None None) _ _ _ _ _)).
  - discriminate.
  - apply Sample_unique_ids.
  - cbn. auto.
  - reflexivity.
  - reflexivity.
Defined.

(** C8, as stated, fails for a chat request without content: Alice names
    Bob's session and is answered 400, not 404. *)
Lemma C8_counterexample_chat_without_content_is_400 :
  let o := sessions_router (Sample.env (Sample.answer "")) (Some Sample.alice)
             (POST_chat "1" (Some "user") None None) Sample.world in
  userId (Sample.session_of "1" "bob" "Navbar" 20) <> user_id Sample.alice
  /\ In (Sample.session_of "1" "bob" "Navbar" 20) (sessions Sample.world)
  /\ o = Returned (res_status_json 400 (error_body "Role and content are required"))
           Sample.world []
  /\ answered_status o <> Some 404%nat.
Proof.
  cbv zeta. split; [discriminate|]. split; [cbn; auto|].
  split; [reflexivity|]. discriminate.
Qed.

Lemma unique_ids_middle (l1 l2 : list Session) (s x : Session) :
  NoDup (map _id (l1 ++ s :: l2)) -> In x (l1 ++ l2) -> _id x <> _id s.
Proof.
  rewrite map_app. cbn [map]. intros Hnd Hx Heq.
  apply NoDup_app in Hnd as (_ & Hdisj & Hnd2).
  apply NoDup_cons in Hnd2 as [Hs _].
  apply in_app_or in Hx as [Hx|Hx].
  - apply (Hdisj (_id s)).
    + rewrite <- Heq. apply list_elem_of_In, in_map, Hx.
    + left.
  - apply Hs. rewrite <- Heq. apply list_elem_of_In, in_map, Hx.
Qed.

(** C9 (amended).  A [DELETE /sessions/:sessionId] that answers 200 has
    set [isActive] to false on the session it names, and [updatedAt] to
    the time of the request (the schema keeps timestamps); every other
    field of that document and every other document are as before.
    Afterwards every per-session operation of the router on that
    [sessionId], by whichever user and however much later, finds nothing:
    it is answered 404, unless it is rejected before any query is sent
    (400 for a chat request without role or content, 500 for a metadata
    update that fails the schema validators), and changes nothing. *)
Theorem C9_delete_is_soft_and_final
    (env : Env) (user : User) (sessionId : string) (w w' : World)
    (resp : Response) (t : list Event) :
  unique_ids w ->
  sessions_router env (Some user) (DELETE_session sessionId) w
    = Returned resp w' t ->
  status resp = 200%nat ->
  (exists l1 s l2,
     sessions w = l1 ++ s :: l2
     /\ _id s = sessionId /\ userId s = user_id user /\ isActive s = true
     /\ sessions w' =
        l1 ++ {| _id := _id s; userId := userId s; title := title s;
                 description := description s; chatHistory := chatHistory s;
                 componentCode := componentCode s; uiState := uiState s;
                 isActive := false; lastAccessed := lastAccessed s;
                 tags := tags s; sessionMetadata := sessionMetadata s;
                 createdAt := createdAt s; updatedAt := now w |} :: l2)
  /\ (forall (anyone : User) (r : SessionsRequest) (dt : nat),
        named_session r = Some sessionId ->
        exists resp2 t2,
          sessions_router env (Some anyone) r (advance dt w')
            = Returned resp2 (advance dt w') t2
          /\ not_found_or_rejected r resp2).
Proof.
  intros Huniq Hdel Hstatus.
  assert (exists l1 s l2,
            sessions w = l1 ++ s :: l2
            /\ matches env (owned_active user sessionId) s = true
            /\ sessions w' =
               l1 ++ touch_updatedAt (now w) (with_isActive false s) :: l2)
    as (l1 & s & l2 & Hw & Hs & Hw').
  { revert Hdel. unfold_handlers. run_handler; intros Hdel; simplify_eq;
      try discriminate Hstatus.
    match goal with
    | H : update_first _ _ _ = Some _ |- _ =>
        apply update_first_some in H as (l1 & x & l2 & Hl & Hx & -> & ->)
    end.
    exists l1, x, l2. done. }
  apply matches_owned_active_true in Hs as (Hid & Huser & Hactive).
  split.
  - exists l1, s, l2. done.
  - intros anyone r dt Hr.
    apply (unmatched_request env anyone r sessionId (advance dt w') Hr).
    cbn [sessions advance]. rewrite Hw'. intros x Hx.
    destruct (matches env (owned_active anyone sessionId) x) eqn:E; [|done].
    apply matches_owned_active_true in E as (Hxid & _ & Hxactive).
    apply in_app_or in Hx as [Hx|[<-|Hx]].
    + exfalso. unfold unique_ids in Huniq. rewrite Hw in Huniq.
      apply (unique_ids_middle l1 l2 s x Huniq); [apply in_or_app; auto|congruence].
    + discriminate Hxactive.
    + exfalso. unfold unique_ids in Huniq. rewrite Hw in Huniq.
      apply (unique_ids_middle l1 l2 s x Huniq); [apply in_or_app; auto|congruence].
Qed.

(** C9 at work: Alice deletes her session; an hour later Bob asks for its
    statistics. *)
Lemma C9_witness_deleted_session_is_gone :
  let env := Sample.env (Sample.answer "") in
  let w' := outcome_world
              (sessions_router env (Some Sample.alice) (DELETE_session "0")
                 Sample.world) in
  exists resp2 t2,
    sessions_router env (Some Sample.bob) (GET_stats "0") (advance 3600 w')
      = Returned resp2 (advance 3600 w') t2
    /\ not_found_or_rejected (GET_stats "0") resp2.
Proof.
  cbv zeta.
  refine (proj2 (C9_delete_is_soft_and_final (Sample.env (Sample.answer ""))
                   Sample.alice "0" Sample.world _ _ _ _ eq_refl eq_refl)
            Sample.bob (GET_stats "0") 3600%nat eq_refl).
  apply Sample_unique_ids.
Defined.

(** C9, as stated, fails twice.  The deletion also moves [updatedAt] (here
    from 10 to 1000); and after it a chat request without content on the
    deleted session is answered 400, not 404. *)
Lemma C9_counterexample_after_delete :
  let env := Sample.env (Sample.answer "") in
  let o := sessions_router env (Some Sample.alice) (DELETE_session "0")
             Sample.world in
  answered_status o = Some 200%nat
  /\ updatedAt <$> head (sessions Sample.world) = Some 10%nat
  /\ updatedAt <$> head (sessions (outcome_world o)) = Some 1000%nat
  /\ answered_status
       (sessions_router env (Some Sample.alice)
          (POST_chat "0" (Some "user") None None) (outcome_world o))
     = Some 400%nat.
Proof. cbv zeta. repeat split; reflexivity. Qed.

(** ** The Redis mirror of the session data *)

Lemma sessions_router_never_reads_redis (env : Env) (authenticated : option User)
    (r : SessionsRequest) (w : World) :
  Forall (fun e => is_redis_read e = false)
    (outcome_trace (sessions_router env authenticated r w)).
Proof.
  destruct authenticated as [user|]; [|destruct r; constructor].
  destruct r; unfold_handlers; run_handler; cbn; repeat constructor.
Qed.

Lemma cached_read_after_write (w : World) (client : gmap string RedisEntry)
    (sessionId : string) (data : json) (deadline : nat) :
  (now w < deadline)%nat ->
  getSessionData sessionId
    (set_redis
       (<[session_key sessionId :=
            {| rvalue := data; rexpire := Some deadline |}]> client) w)
  = Returned data
      (set_redis
         (<[session_key sessionId :=
              {| rvalue := data; rexpire := Some deadline |}]> client) w)
      [EvRedisGet (session_key sessionId)].
Proof.
  intros Hlive. unfold_M. unfold live_value. rewrite lookup_insert_eq.
  cbn [entry_live rexpire rvalue].
  assert ((now w <? deadline)%nat = true) as -> by (by apply Nat.ltb_lt).
  reflexivity.
Qed.

Lemma found_matches (env : Env) (q : Query) (l : list Session) (s : Session) :
  List.find (matches env q) l = Some s -> matches env q s = true.
Proof. intros H. by apply find_some in H as [_ ?]. Qed.

Lemma mirror_after_success (env : Env) (user : User) (r : SessionsRequest)
    (sessionId : string) (w : World) (o : Outcome Response) :
  unique_ids w ->
  mirrored r = Some sessionId ->
  sessions_router env (Some user) r w = o ->
  answered_status o = Some 200%nat ->
  exists s,
    List.find (matches env (owned_active user sessionId))
      (sessions (outcome_world o)) = Some s
    /\ getSessionData sessionId (outcome_world o)
       = Returned (mirror_of r s) (outcome_world o)
           [EvRedisGet (session_key sessionId)].
Proof.
  intros Huniq Hr. revert o.
  destruct r; cbn in Hr; simplify_eq; unfold_handlers; run_handler;
    intros o <- Hstatus; try discriminate Hstatus; clear Hstatus; simplify_eq;
    cbn [outcome_world sessions set_redis set_sessions].
  all: eexists; split;
    [|cbn [mirror_of]; apply cached_read_after_write; cbn [now set_sessions]; lia].
  all: try assumption.
  all: match goal with
       | H : List.find _ _ = Some _ |- _ =>
           eapply find_replace_doc; [exact Huniq|exact H|reflexivity|];
           apply found_matches in H; rewrite matches_owned_active in *;
           exact H
       end.
Qed.

Lemma mirror_of_store_read (r : SessionsRequest) (s : Session) :
  (forall sessionId jsx' css' tsx',
      r = PUT_code sessionId jsx' css' tsx' ->
      jsx (componentCode s) = default "" jsx'
      /\ css (componentCode s) = default "" css') ->
  mirror_of r s = session_data s <-> carries_jsx_and_css r.
Proof.
  intros Hcode.
  destruct r as [? ? ?|?|? ? ?|? ? ? ?|?|? ? ? ?|i jsx0 css0 tsx0|? ?|?];
    cbn [mirror_of carries_jsx_and_css]; try tauto.
  destruct (Hcode _ _ _ _ eq_refl) as [Hjsx Hcss].
  unfold session_data_inMemory, session_data, componentCode_inMemory,
    ComponentCode_toJSON, obj_of.
  cbn [in_store memory_jsx memory_css]. rewrite Hjsx, Hcss.
  destruct jsx0 as [j|], css0 as [c|];
    cbn [omap fmap option_fmap option_map fst snd from_option id];
    (split; [intros Heq|intros [[? Hj] [? Hc]]]);
    first [discriminate Hj | discriminate Hc | discriminate Heq
          | reflexivity | (split; eexists; reflexivity) | idtac].
Qed.

Lemma code_after_update (env : Env) (user : User) (sessionId : string)
    (jsx' css' tsx' : option string) (w : World) (o : Outcome Response) (s : Session) :
  unique_ids w ->
  sessions_router env (Some user) (PUT_code sessionId jsx' css' tsx') w = o ->
  answered_status o = Some 200%nat ->
  List.find (matches env (owned_active user sessionId))
    (sessions (outcome_world o)) = Some s ->
  jsx (componentCode s) = default "" jsx' /\ css (componentCode s) = default "" css'.
Proof.
  intros Huniq. revert o. unfold_handlers. run_handler;
    intros o <- Hstatus; try discriminate Hstatus; clear Hstatus; simplify_eq;
    cbn [outcome_world sessions set_redis set_sessions].
  intros Hfound.
  match goal with
  | H : List.find _ (sessions _) = Some ?s0 |- _ =>
      erewrite find_replace_doc in Hfound;
        [|exact Huniq|exact H|reflexivity|
         apply found_matches in H; rewrite matches_owned_active in *; exact H]
  end.
  injection Hfound as <-. split; reflexivity.
Qed.

Lemma get_session_trace (env : Env) (user : User) (sessionId : string)
    (w : World) (o : Outcome Response) :
  sessions_router env (Some user) (GET_session sessionId) w = o ->
  answered_status o = Some 200%nat ->
  exists s,
    List.find (matches env (owned_active user sessionId)) (sessions w) = Some s
    /\ outcome_trace o =
       [EvFindOne (owned_active user sessionId);
        EvRedisSetEx (session_key sessionId) 3600 (session_data s)].
Proof.
  revert o. unfold_handlers. run_handler;
    intros o <- Hstatus; try discriminate Hstatus.
  eexists. split; reflexivity.
Qed.

(** C1 (amended).  The session routes mirror session data into Redis
    and never read it back: no route of the sessions router reads Redis.
    A [GET /sessions/:sessionId] that answers 200 has read the document
    from the store and then written its session data ([chatHistory],
    [componentCode], [uiState]) under [session:<id>] for 3600 seconds; a
    chat, code or ui-state request that answers 200 has saved the
    document and written the session data of the document it holds in
    memory likewise.  So right after any of these requests a cached read
    returns that session data; it is the session data a direct store read
    gives, except after a code update whose body lacks [jsx] or [css]:
    the cached [componentCode] then has no such key, where the store read
    has the empty string. *)
Theorem C1_session_cache_is_a_written_mirror
    (env : Env) (user : User) (r : SessionsRequest) (w : World) :
  unique_ids w ->
  Forall (fun e => is_redis_read e = false)
    (outcome_trace (sessions_router env (Some user) r w))
  /\ (forall sessionId,
        r = GET_session sessionId ->
        answered_status (sessions_router env (Some user) r w) = Some 200%nat ->
        exists s,
          List.find (matches env (owned_active user sessionId)) (sessions w)
            = Some s
          /\ outcome_trace (sessions_router env (Some user) r w) =
             [EvFindOne (owned_active user sessionId);
              EvRedisSetEx (session_key sessionId) 3600 (session_data s)])
  /\ (forall sessionId,
        mirrored r = Some sessionId ->
        answered_status (sessions_router env (Some user) r w) = Some 200%nat ->
        exists s,
          List.find (matches env (owned_active user sessionId))
            (sessions (outcome_world (sessions_router env (Some user) r w)))
            = Some s
          /\ getSessionData sessionId
               (outcome_world (sessions_router env (Some user) r w))
             = Returned (mirror_of r s)
                 (outcome_world (sessions_router env (Some user) r w))
                 [EvRedisGet (session_key sessionId)]
          /\ get_field "chatHistory" (mirror_of r s)
             = Some (chatHistory_toJSON (chatHistory s))
          /\ get_field "uiState" (mirror_of r s)
             = Some (UIState_toJSON (uiState s))
          /\ (mirror_of r s = session_data s <-> carries_jsx_and_css r)
          /\ (forall i jsx' css' tsx',
                r = PUT_code i jsx' css' tsx' ->
                (jsx' = None ->
                 (get_field "componentCode" (mirror_of r s) ≫= get_field "jsx") = None
                 /\ jsx (componentCode s) = "")
                /\ (css' = None ->
                    (get_field "componentCode" (mirror_of r s) ≫= get_field "css") = None
                    /\ css (componentCode s) = ""))).
Proof.
  intros Huniq. split; [apply sessions_router_never_reads_redis|]. split.
  - intros sessionId -> Hstatus. by eapply get_session_trace.
  - intros sessionId Hr Hstatus.
    destruct (mirror_after_success env user r sessionId w _ Huniq Hr eq_refl Hstatus)
      as (s & Hfound & Hread).
    assert (forall i jsx' css' tsx',
               r = PUT_code i jsx' css' tsx' ->
               jsx (componentCode s) = default "" jsx'
               /\ css (componentCode s) = default "" css') as Hcode.
    { intros i jsx' css' tsx' ->. cbn in Hr. injection Hr as ->.
      by eapply code_after_update. }
    exists s. split; [exact Hfound|]. split; [exact Hread|].
    split; [by destruct r|]. split; [by destruct r|].
    split; [by apply mirror_of_store_read|].
    intros i jsx' css' tsx' ->. destruct (Hcode _ _ _ _ eq_refl) as [Hjsx Hcss].
    split; intros ->.
    + split; [|exact Hjsx]. unfold mirror_of, session_data_inMemory,
        componentCode_inMemory, obj_of.
      destruct css' as [c|]; reflexivity.
    + split; [|exact Hcss]. unfold mirror_of, session_data_inMemory,
        componentCode_inMemory, obj_of.
      destruct jsx' as [j|]; reflexivity.
Qed.

(** C1 at work: Alice updates her code with a body that has no [css]; the
    cached read returns the session data without that key, and the store
    read has the empty string. *)
Lemma C1_witness_code_without_css_is_mirrored :
  let r := PUT_code "0" (Some "function A() { return 1 }") None None in
  let o := sessions_router (Sample.env (Sample.answer "")) (Some Sample.alice)
             r Sample.world in
  exists s,
    List.find (matches (Sample.env (Sample.answer ""))
                 (owned_active Sample.alice "0"))
      (sessions (outcome_world o)) = Some s
    /\ getSessionData "0" (outcome_world o)
       = Returned (mirror_of r s) (outcome_world o) [EvRedisGet "session:0"]
    /\ (get_field "componentCode" (mirror_of r s) ≫= get_field "css") = None
    /\ css (componentCode s) = "".
Proof.
  cbv zeta.
  destruct (proj2 (proj2 (C1_session_cache_is_a_written_mirror
                            (Sample.env (Sample.answer "")) Sample.alice
                            (PUT_code "0" (Some "function A() { return 1 }")
                               None None)
                            Sample.world Sample_unique_ids))
              "0" eq_refl eq_refl)
    as (s & Hfound & Hread & _ & _ & _ & Hcode).
  exists s. split; [exact Hfound|]. split; [exact Hread|].
  exact (proj2 (Hcode _ _ _ _ eq_refl) eq_refl).
Defined.

(** C1, as stated, fails on its first clause: the handler of
    [GET /sessions/:sessionId] does not consult Redis.  Here the session
    data of session 0 is cached and live, a cached read would return it,
    and the request still reads the store and overwrites the cache. *)
Lemma C1_counterexample_get_never_consults_redis :
  let o := sessions_router (Sample.env (Sample.answer "")) (Some Sample.alice)
             (GET_session "0") Sample.cached_world in
  outcome_value (getSessionData "0" Sample.cached_world)
    = Some (session_data (Sample.session_of "0" "alice" "Card" 10))
  /\ outcome_trace o =
     [EvFindOne (owned_active Sample.alice "0");
      EvRedisSetEx "session:0" 3600
        (session_data (Sample.session_of "0" "alice" "Card" 10))]
  /\ ~ Exists (fun e => is_redis_read e = true) (outcome_trace o).
Proof.
  cbv zeta. split; [reflexivity|]. split; [reflexivity|].
  intros H. inversion H as [? ? Hread|? ? Htail]; [discriminate Hread|].
  inversion Htail as [? ? Hread|? ? Hnil]; [discriminate Hread|]. inversion Hnil.
Qed.

Lemma Sample_cached_world_expiring : all_expiring Sample.cached_world.
Proof.
  intros client key e [= <-] He.
  apply lookup_singleton_Some in He as [_ <-]. by eexists.
Qed.

(** C6 at work, on a store that holds a key. *)
Lemma C6_witness_writes_on_a_cached_world :
  all_expiring Sample.cached_world
  /\ Forall (ttl_is 3600)
       (outcome_trace
          (app (Sample.env (Sample.answer "")) (Some Sample.alice)
             (Sessions (GET_session "0")) Sample.cached_world))
  /\ all_expiring
       (outcome_world
          (app (Sample.env (Sample.answer "")) (Some Sample.alice)
             (Sessions (GET_session "0")) Sample.cached_world)).
Proof.
  split; [apply Sample_cached_world_expiring|].
  destruct (C6_every_cache_write_expires (Sample.env (Sample.answer ""))
              (Some Sample.alice) (Sessions (GET_session "0"))
              Sample.cached_world Sample_cached_world_expiring)
    as (Htrace & Hworld & _).
  split; assumption.
Defined.

(** ** The preview *)


Lemma includes_unfold (needle s : string) :
  Preview.includes needle s =
  Preview.starts_with needle s ||
  match s with
  | String _ rest => Preview.includes needle rest
  | EmptyString => false
  end.
Proof. by destruct s. Qed.





(** The patterns of [renderPreview]: the matcher of the model finds a
    match of the regular expression where there is one. *)













Lemma span_zero_head (p : ascii -> bool) (c : ascii) (s : string) :
  Preview.span_len p (String c s) = 0%nat -> p c = false.
Proof. cbn [Preview.span_len]. by destruct (p c). Qed.


(** The part [from], white space, a quoted run. *)






(** The import pattern. *)




(** The export pattern. *)



(** Removing every match. *)







(** * Further properties of the code *)

(** ** The Redis helpers: what is written is read back until it expires *)

Lemma getCache_connected (w : World) (client : gmap string RedisEntry)
    (key : string) :
  redisClient w = Some client ->
  getCache key w =
  Returned (default JNull (live_value client (now w) key)) w [EvRedisGet key].
Proof. intros Hc. unfold_M. repeat (rewrite Hc; unfold_M). reflexivity. Qed.

(** X1.  [setCache] followed by [getCache]: on a connected client, a
    value written under a key with a positive time to live (300 seconds
    when none is given) is what a read of that key returns for exactly
    that many seconds, and [null] from then on; reads of other keys are
    not affected by the write. *)
Theorem X1_setCache_getCache_round_trip
    (w : World) (client : gmap string RedisEntry) (key : string) (data : json)
    (ttl : option nat) :
  redisClient w = Some client ->
  (0 < default 300%nat ttl)%nat ->
  exists w1,
    setCache key data ttl w = Returned tt w1 [EvRedisSetEx key (default 300%nat ttl) data]
    /\ sessions w1 = sessions w
    /\ (forall dt,
          (dt < default 300%nat ttl)%nat ->
          outcome_value (getCache key (advance dt w1)) = Some data)
    /\ (forall dt,
          (default 300%nat ttl <= dt)%nat ->
          outcome_value (getCache key (advance dt w1)) = Some JNull)
    /\ (forall other dt,
          other <> key ->
          outcome_value (getCache other (advance dt w1))
          = outcome_value (getCache other (advance dt w))).
Proof.
  intros Hc Hpos. eexists. split.
  { unfold_M. repeat (rewrite Hc; unfold_M). reflexivity. }
  split; [reflexivity|].
  split; [|split].
  - intros dt Hdt. erewrite getCache_connected by reflexivity.
    unfold live_value. rewrite lookup_insert_eq.
    cbn [entry_live rexpire rvalue now advance set_redis].
    assert ((now w + dt <? now w + default 300%nat ttl)%nat = true) as ->
      by (apply Nat.ltb_lt; lia).
    reflexivity.
  - intros dt Hdt. erewrite getCache_connected by reflexivity.
    unfold live_value. rewrite lookup_insert_eq.
    cbn [entry_live rexpire rvalue now advance set_redis].
    assert ((now w + dt <? now w + default 300%nat ttl)%nat = false) as ->
      by (apply Nat.ltb_ge; lia).
    reflexivity.
  - intros other dt Hne.
    erewrite !getCache_connected by (first [reflexivity | exact Hc]).
    unfold live_value. cbn [now advance set_redis].
    rewrite lookup_insert_ne by done. reflexivity.
Qed.

Lemma X1_witness_default_ttl :
  exists w1,
    setCache "k" (JNum 7) None Sample.world
      = Returned tt w1 [EvRedisSetEx "k" 300 (JNum 7)]
    /\ outcome_value (getCache "k" (advance 299 w1)) = Some (JNum 7)
    /\ outcome_value (getCache "k" (advance 300 w1)) = Some JNull.
Proof.
  destruct (X1_setCache_getCache_round_trip Sample.world ∅ "k" (JNum 7) None
              eq_refl) as (w1 & Hset & _ & Hlive & Hdead & _).
  { cbn. lia. }
  exists w1. split; [exact Hset|]. split.
  - apply Hlive. cbn. lia.
  - apply Hdead. cbn. lia.
Defined.

(** ** The collection under the requests *)

Lemma replace_doc_cons (s' x : Session) (l : list Session) :
  replace_doc s' (x :: l) =
  if String.eqb (_id x) (_id s') then s' :: l else x :: replace_doc s' l.
Proof. reflexivity. Qed.

Lemma replace_doc_middle (s s' : Session) (l1 l2 : list Session) :
  (forall x, In x l1 -> _id x <> _id s') -> _id s = _id s' ->
  replace_doc s' (l1 ++ s :: l2) = l1 ++ s' :: l2.
Proof.
  intros Hl1 Hid. induction l1 as [|x l1 IH].
  - rewrite !app_nil_l, replace_doc_cons. by rewrite Hid, String.eqb_refl.
  - rewrite <- !app_comm_cons, replace_doc_cons.
    assert (String.eqb (_id x) (_id s') = false) as ->
      by (apply String.eqb_neq, Hl1; left; reflexivity).
    rewrite IH; [reflexivity|]. intros y Hy. apply Hl1. by right.
Qed.

Lemma replace_doc_found (p : Session -> bool) (l : list Session)
    (s s' : Session) :
  NoDup (map _id l) -> List.find p l = Some s -> _id s' = _id s ->
  exists l1 l2, l = l1 ++ s :: l2 /\ replace_doc s' l = l1 ++ s' :: l2.
Proof.
  intros Hnd Hfind Hid. apply find_some in Hfind as [Hin _].
  apply in_split in Hin as (l1 & l2 & ->). exists l1, l2. split; [done|].
  apply replace_doc_middle; [|done].
  intros x Hx. rewrite Hid.
  apply (unique_ids_middle l1 l2 s x Hnd). apply in_or_app. by left.
Qed.

Lemma replace_doc_fresh (s' : Session) (l : list Session) :
  (forall x, In x l -> _id x <> _id s') -> replace_doc s' l = l ++ [s'].
Proof.
  induction l as [|x l IH]; intros H; [done|].
  rewrite <- app_comm_cons, replace_doc_cons.
  assert (String.eqb (_id x) (_id s') = false) as ->
    by (apply String.eqb_neq, H; left; reflexivity).
  rewrite IH; [reflexivity|]. intros y Hy. apply H. by right.
Qed.

Lemma objectId_inj (n m : nat) : objectId n = objectId m -> n = m.
Proof. unfold objectId. apply (inj pretty). Qed.

Lemma issued_ids_are_not_next (w : World) :
  ids_issued w ->
  forall x, In x (sessions w) -> _id x <> objectId (oidCounter w).
Proof.
  intros H x Hx Heq. destruct (H x Hx) as (n & Hn & Hid).
  rewrite Hid in Heq. apply objectId_inj in Heq. lia.
Qed.

Lemma first_error_cons (x : option string) (l : list (option string)) :
  first_error (x :: l) = match x with Some e => Some e | None => first_error l end.
Proof. by destruct x. Qed.

Lemma validate_session_split (s : Session) :
  validate_session s =
  match validate_title (title s) with
  | Some e => Some e
  | None =>
      match validate_description (description s) with
      | Some e => Some e
      | None =>
          first_error
            (map (fun m => validate_role (role m)) (chatHistory s)
             ++ map (fun m => validate_content (content m)) (chatHistory s)
             ++ [validate_theme (theme (uiState s))])
      end
  end.
Proof.
  unfold validate_session.
  rewrite <- !app_comm_cons, app_nil_l, !first_error_cons. reflexivity.
Qed.

Lemma validate_set_metadata (t : nat) (new_title new_description : option string)
    (new_tags : option (list string)) (s : Session) :
  first_error
    [from_option (fun x => validate_title (trim x)) None new_title;
     from_option (fun x => validate_description (trim x)) None new_description]
  = None ->
  validate_session s = None ->
  validate_session
    (touch_updatedAt t (set_metadata t new_title new_description new_tags s))
  = None.
Proof.
  rewrite !first_error_cons, !validate_session_split.
  cbn [title description chatHistory uiState touch_updatedAt set_metadata].
  destruct new_title as [x|], new_description as [y|];
    cbn [from_option fmap option_fmap option_map default id];
    repeat case_match; congruence.
Qed.

Ltac store_by_save Huniq :=
  match goal with
  | H : List.find (matches ?env ?q) (sessions ?w) = Some ?s,
    Hv : validate_session ?s' = None
    |- store_change _ _ _ =>
      let l1 := fresh "l1" in
      let l2 := fresh "l2" in
      let Hl := fresh "Hl" in
      let Hr := fresh "Hr" in
      let Hm := fresh "Hm" in
      pose proof (found_matches _ _ _ _ H) as Hm;
      apply matches_owned_active_true in Hm as (? & ? & ?);
      destruct (replace_doc_found _ _ s s' Huniq H eq_refl)
        as (l1 & l2 & Hl & Hr);
      apply (store_updated _ _ _ l1 s s' l2);
        [exact Hl|exact Hr|reflexivity|reflexivity|assumption
        |assumption|reflexivity|intros _; exact Hv|reflexivity]
  end.

Ltac store_by_update :=
  match goal with
  | H : update_first _ _ _ = Some _ |- store_change _ _ _ =>
      let l1 := fresh "l1" in
      let l2 := fresh "l2" in
      let x := fresh "x" in
      let Hl := fresh "Hl" in
      let Hx := fresh "Hx" in
      apply update_first_some in H as (l1 & x & l2 & Hl & Hx & -> & ->);
      apply matches_owned_active_true in Hx as (? & ? & ?);
      eapply (store_updated _ _ _ l1 x _ l2);
        [exact Hl|reflexivity|reflexivity|reflexivity|assumption
        |assumption|reflexivity
        |first [ intros Hv; exact Hv
               | eapply validate_set_metadata; eassumption ]
        |reflexivity]
  end.

Ltac store_by_insert Hissued :=
  match goal with
  | Hv : validate_session ?s' = None |- store_change _ ?w _ =>
      apply (store_inserted _ _ _ s');
        [cbn [sessions set_sessions]; apply replace_doc_fresh;
         apply (issued_ids_are_not_next w Hissued)
        |reflexivity|reflexivity|reflexivity|exact Hv|reflexivity]
  end.

Ltac solve_store_change Huniq Hissued :=
  first
    [ solve [apply store_unchanged; [reflexivity|cbn; lia]]
    | store_by_save Huniq
    | store_by_update
    | store_by_insert Hissued ].

(** How a request to the sessions router changes the collection. *)
Lemma sessions_router_store_change (env : Env) (user : User)
    (r : SessionsRequest) (w : World) :
  unique_ids w -> ids_issued w ->
  store_change user w (outcome_world (sessions_router env (Some user) r w)).
Proof.
  intros Huniq Hissued.
  destruct r; unfold_handlers; run_handler; simplify_eq;
    try solve_store_change Huniq Hissued.
  all: store_by_update.
Qed.

Lemma ai_router_store (env : Env) (authenticated : option User) (r : AiRequest)
    (w : World) :
  sessions (outcome_world (ai_router env authenticated r w)) = sessions w
  /\ oidCounter (outcome_world (ai_router env authenticated r w)) = oidCounter w.
Proof.
  destruct authenticated as [user|]; [|destruct r; split; reflexivity].
  destruct r; unfold_handlers; run_handler; split; reflexivity.
Qed.

Lemma store_change_ok (user : User) (w w' : World) :
  store_change user w w' -> store_ok w -> store_ok w'.
Proof.
  intros Hch (Huniq & Hissued & Hvalid).
  destruct Hch as [Hs Hc|l1 s s' l2 Hs Hs' Hid Hu Hown Hact Hcr Hval Hc
                  |s' Hs' Hid Hu Hact Hval Hc].
  - split; [|split].
    + unfold unique_ids. by rewrite Hs.
    + intros x Hx. rewrite Hs in Hx. destruct (Hissued x Hx) as (n & Hn & Hx').
      exists n. split; [lia|done].
    + intros x Hx. rewrite Hs in Hx. auto.
  - assert (forall x, In x (sessions w') ->
              x = s' \/ (In x (sessions w) /\ x <> s' \/ In x (sessions w))) as Hin.
    { intros x Hx. rewrite Hs' in Hx. rewrite Hs.
      apply in_app_or in Hx as [Hx|[<-|Hx]]; [right; right|by left|right; right];
        apply in_or_app; [by left|right; by right]. }
    assert (In s (sessions w)) as Hsin.
    { rewrite Hs. apply in_or_app. right. by left. }
    split; [|split].
    + unfold unique_ids in *. rewrite Hs', map_app in *. cbn [map] in *.
      rewrite Hid. by rewrite Hs, map_app in Huniq.
    + intros x Hx. rewrite Hc.
      destruct (Hin x Hx) as [->|[[Hx' _]|Hx']]; auto.
      rewrite Hid. auto.
    + intros x Hx. destruct (Hin x Hx) as [->|[[Hx' _]|Hx']]; auto.
  - split; [|split].
    + unfold unique_ids in *. rewrite Hs', map_app. cbn [map].
      apply NoDup_app. split; [exact Huniq|]. split; [|apply NoDup_singleton].
      intros i Hi Hi'. apply list_elem_of_singleton in Hi'. subst i.
      apply list_elem_of_In, in_map_iff in Hi as (x & Hx & Hxin).
      apply (issued_ids_are_not_next w Hissued x Hxin). congruence.
    + intros x Hx. rewrite Hs' in Hx. rewrite Hc.
      apply in_app_or in Hx as [Hx|[<-|[]]].
      * destruct (Hissued x Hx) as (n & Hn & Hx'). exists n. split; [lia|done].
      * exists (oidCounter w). split; [lia|done].
    + intros x Hx. rewrite Hs' in Hx.
      apply in_app_or in Hx as [Hx|[<-|[]]]; auto.
Qed.

(** X3.  The collection stays well formed under every request of either
    router, authenticated or not: the [_id]s stay pairwise distinct and
    issued by the counter of [new Session], and every stored document
    keeps passing the validators of the schema (a title of 1 to 100
    characters, a description of at most 500, chat roles [user] or
    [assistant] with a content, a theme [light], [dark] or [null]). *)
Theorem X3_store_stays_well_formed
    (env : Env) (authenticated : option User) (req : Request) (w : World) :
  store_ok w -> store_ok (outcome_world (app env authenticated req w)).
Proof.
  intros Hok. destruct authenticated as [user|];
    [|by rewrite app_unauthenticated].
  destruct req as [r|r]; cbn [app].
  - eapply store_change_ok; [|exact Hok].
    destruct Hok as (Huniq & Hissued & _).
    by apply sessions_router_store_change.
  - destruct (ai_router_store env (Some user) r w) as [Hs Hc].
    apply (store_change_ok user w); [|exact Hok].
    apply store_unchanged; [exact Hs|lia].
Qed.

Lemma Sample_store_ok : store_ok Sample.world.
Proof.
  split; [apply Sample_unique_ids|]. split.
  - intros s [<-|[<-|[]]]; [exists 0%nat|exists 1%nat]; (split; [cbn; lia|reflexivity]).
  - intros s [<-|[<-|[]]]; reflexivity.
Qed.

Lemma X3_witness_after_a_creation :
  store_ok
    (outcome_world
       (app (Sample.env (Sample.answer "")) (Some Sample.alice)
          (Sessions (POST_sessions (Some " Pricing table ") None None))
          Sample.world)).
Proof. apply X3_store_stays_well_formed, Sample_store_ok. Defined.

Lemma others_app (user : User) (l1 l2 : list Session) :
  others user (l1 ++ l2) = others user l1 ++ others user l2.
Proof. unfold others. apply List.filter_app. Qed.

Lemma others_own (user : User) (s : Session) (l : list Session) :
  userId s = user_id user -> others user (s :: l) = others user l.
Proof.
  intros H. unfold others. cbn [List.filter]. by rewrite H, String.eqb_refl.
Qed.

(** X4.  A request to the sessions router touches only sessions of the
    user who makes it: whatever the route and the request, the sessions
    of all other users are after the request exactly what they were
    before it, in the same order. *)
Theorem X4_requests_leave_other_users_sessions_alone
    (env : Env) (user : User) (r : SessionsRequest) (w : World) :
  unique_ids w -> ids_issued w ->
  others user (sessions (outcome_world (sessions_router env (Some user) r w)))
  = others user (sessions w).
Proof.
  intros Huniq Hissued.
  destruct (sessions_router_store_change env user r w Huniq Hissued)
    as [Hs Hc|l1 s s' l2 Hs Hs' Hid Hu Hown Hact Hcr Hval Hc
       |s' Hs' Hid Hu Hact Hval Hc].
  - by rewrite Hs.
  - rewrite Hs, Hs', !others_app, !others_own; congruence.
  - rewrite Hs', others_app, others_own by done.
    unfold others at 2. cbn [List.filter]. by rewrite app_nil_r.
Qed.

Lemma X4_witness_alice_edits_her_code :
  others Sample.alice
    (sessions
       (outcome_world
          (sessions_router (Sample.env (Sample.answer "")) (Some Sample.alice)
             (PUT_code "0" (Some "function A() { return 1 }") None None)
             Sample.world)))
  = [Sample.session_of "1" "bob" "Navbar" 20].
Proof.
  rewrite X4_requests_leave_other_users_sessions_alone;
    [reflexivity|apply Sample_unique_ids|apply Sample_store_ok].
Defined.

(** X5.  No request removes or reorders a stored session, and none
    changes the [_id], the owner or the creation date of one: deletion is
    an update, and the collection only grows. *)
Theorem X5_sessions_are_never_removed
    (env : Env) (authenticated : option User) (req : Request) (w : World)
    (i : nat) (s : Session) :
  unique_ids w -> ids_issued w ->
  sessions w !! i = Some s ->
  exists s',
    sessions (outcome_world (app env authenticated req w)) !! i = Some s'
    /\ _id s' = _id s /\ userId s' = userId s /\ createdAt s' = createdAt s.
Proof.
  intros Huniq Hissued Hi.
  destruct authenticated as [user|];
    [|rewrite app_unauthenticated; by exists s].
  destruct req as [r|r]; cbn [app];
    [|destruct (ai_router_store env (Some user) r w) as [-> _]; by exists s].
  destruct (sessions_router_store_change env user r w Huniq Hissued)
    as [Hs Hc|l1 s0 s' l2 Hs Hs' Hid Hu Hown Hact Hcr Hval Hc
       |s' Hs' Hid Hu Hact Hval Hc].
  - rewrite Hs. by exists s.
  - rewrite Hs'. rewrite Hs in Hi.
    destruct (decide (i = length l1)) as [->|Hne].
    + rewrite list_lookup_middle in Hi by done. injection Hi as <-.
      exists s'. by rewrite list_lookup_middle.
    + exists s. split; [|done]. rewrite <- Hi.
      destruct (decide (i < length l1)%nat).
      * by rewrite !lookup_app_l.
      * rewrite !lookup_app_r by lia.
        destruct (i - length l1)%nat eqn:E; [lia|reflexivity].
  - rewrite Hs'. exists s. split; [|done].
    rewrite lookup_app_l; [done|]. by eapply lookup_lt_Some.
Qed.

Lemma X5_witness_deleted_session_is_still_stored :
  exists s',
    sessions
      (outcome_world
         (app (Sample.env (Sample.answer "")) (Some Sample.alice)
            (Sessions (DELETE_session "0")) Sample.world)) !! 0%nat = Some s'
    /\ _id s' = "0" /\ userId s' = "alice" /\ createdAt s' = 10%nat.
Proof.
  apply (X5_sessions_are_never_removed (Sample.env (Sample.answer ""))
           (Some Sample.alice) (Sessions (DELETE_session "0")) Sample.world
           0%nat (Sample.session_of "0" "alice" "Card" 10)).
  - apply Sample_unique_ids.
  - apply Sample_store_ok.
  - reflexivity.
Defined.

(** ** What the write routes store *)

Lemma find_app_last (p : Session -> bool) (l : list Session) (s : Session) :
  (forall x, In x l -> p x = false) -> p s = true ->
  List.find p (l ++ [s]) = Some s.
Proof.
  intros Hl Hs. induction l as [|x l IH].
  - cbn. by rewrite Hs.
  - rewrite <- app_comm_cons. cbn [List.find].
    rewrite (Hl x) by (by left). apply IH. intros y Hy. apply Hl. by right.
Qed.

Lemma first_error_none (l : list (option string)) :
  first_error l = None -> forall x, In x l -> x = None.
Proof.
  induction l as [|[e|] l IH]; intros H x Hx; [done| |].
  - rewrite first_error_cons in H. discriminate H.
  - rewrite first_error_cons in H. destruct Hx as [<-|Hx]; auto.
Qed.

(** X6.  A created session can be read back.  When [POST /sessions]
    answers 201, one document was appended to the collection with a
    single [save]: it carries a fresh [_id], the requesting user as
    owner, the trimmed title, an empty chat history, code version 1 and
    [isActive] true; and from then on, as long as Redis is connected, a
    [GET /sessions/:sessionId] of that user for that [_id] answers 200
    with that very document. *)
Theorem X6_created_session_is_read_back
    (env : Env) (user : User) (new_title new_description : option string)
    (new_tags : option (list string)) (w w' : World) (resp : Response)
    (t : list Event) (client : gmap string RedisEntry) :
  ids_issued w ->
  redisClient w = Some client ->
  sessions_router env (Some user)
    (POST_sessions new_title new_description new_tags) w = Returned resp w' t ->
  status resp = 201%nat ->
  exists s,
    sessions w' = sessions w ++ [s]
    /\ t = [EvSave (_id s)]
    /\ _id s = objectId (oidCounter w) /\ userId s = user_id user
    /\ title s = trim (default "" new_title)
    /\ chatHistory s = [] /\ version (componentCode s) = 1 /\ isActive s = true
    /\ get_field "session" (body resp)
       = Some (ensureSessionDefaults (now w) (full_doc s))
    /\ (forall dt,
          outcome_value
            (sessions_router env (Some user) (GET_session (_id s)) (advance dt w'))
          = Some (res_json
                    (JObj [("session",
                            ensureSessionDefaults (now w + dt) (full_doc s))]))).
Proof.
  intros Hissued Hc Hpost Hstatus.
  revert Hpost. unfold_handlers. run_handler; intros Hpost; simplify_eq;
    try discriminate Hstatus.
  match goal with
  | Hv : validate_session ?s' = None |- _ => exists s'
  end.
  assert (forall x, In x (sessions w) -> _id x <> objectId (oidCounter w))
    as Hfresh by (by apply issued_ids_are_not_next).
  split; [by apply replace_doc_fresh|].
  repeat (split; [reflexivity|]).
  intros dt. unfold_handlers. unfold_M.
  rewrite replace_doc_fresh by exact Hfresh.
  rewrite find_app_last.
  - unfold_M. rewrite Hc. unfold_M. reflexivity.
  - intros x Hx. rewrite matches_owned_active. cbn [_id stamp_save].
    assert (String.eqb (_id x) (objectId (oidCounter w)) = false) as ->
      by (by apply String.eqb_neq, Hfresh).
    reflexivity.
  - rewrite matches_owned_active. cbn [_id userId isActive stamp_save].
    by rewrite !String.eqb_refl.
Qed.

Lemma X6_witness_alice_creates_and_reads :
  let env := Sample.env (Sample.answer "") in
  exists s,
    sessions
      (outcome_world
         (sessions_router env (Some Sample.alice)
            (POST_sessions (Some " Pricing table ") None None) Sample.world))
    = sessions Sample.world ++ [s]
    /\ _id s = "2" /\ title s = "Pricing table".
Proof.
  cbv zeta.
  destruct (X6_created_session_is_read_back (Sample.env (Sample.answer ""))
              Sample.alice (Some " Pricing table ") None None Sample.world
              _ _ _ ∅ (proj1 (proj2 Sample_store_ok)) eq_refl eq_refl eq_refl)
    as (s & Hs & _ & Hid & _ & Htitle & _).
  exists s. split; [exact Hs|]. split; [exact Hid|exact Htitle].
Defined.

(** X7.  A chat message is appended, and nothing else changes.  When
    [POST /sessions/:sessionId/chat] answers 200, the named session of
    the user has one more message, at the end of its history, with the
    role and content of the request, the time of the request as
    timestamp and the metadata of the request (an empty object without
    one); its code, its UI state, its title, description and tags are
    untouched; the role is [user] or [assistant]; and the response
    counts the messages of the stored history. *)
Theorem X7_chat_message_is_appended
    (env : Env) (user : User) (sessionId : string)
    (new_role new_content : option string) (new_metadata : option json)
    (w w' : World) (resp : Response) (t : list Event) :
  unique_ids w ->
  sessions_router env (Some user)
    (POST_chat sessionId new_role new_content new_metadata) w
    = Returned resp w' t ->
  status resp = 200%nat ->
  exists l1 s s' l2 r c,
    sessions w = l1 ++ s :: l2 /\ sessions w' = l1 ++ s' :: l2
    /\ _id s = sessionId /\ userId s = user_id user /\ isActive s = true
    /\ new_role = Some r /\ new_content = Some c
    /\ (r = "user" \/ r = "assistant") /\ c <> ""
    /\ chatHistory s' =
       chatHistory s ++ [{| role := r; content := c; timestamp := now w;
                            metadata := default (JObj []) new_metadata |}]
    /\ componentCode s' = componentCode s /\ uiState s' = uiState s
    /\ title s' = title s /\ description s' = description s
    /\ tags s' = tags s /\ lastAccessed s' = now w
    /\ get_field "messageCount" (body resp)
       = Some (JNum (Z.of_nat (length (chatHistory s) + 1))).
Proof.
  intros Huniq Hchat Hstatus.
  revert Hchat. unfold_handlers. run_handler; intros Hchat; simplify_eq;
    try discriminate Hstatus.
  match goal with
  | H : List.find _ (sessions w) = Some ?s, Hv : validate_session ?s' = None |- _ =>
      destruct (replace_doc_found _ _ s s' Huniq H eq_refl) as (l1 & l2 & Hl & Hr);
      apply found_matches, matches_owned_active_true in H as (Hid & Hown & Hact);
      rename Hv into Hvalid; exists l1, s, s', l2
  end.
  match goal with
  | H : negb (str_nonempty (default "" ?a)) || negb (str_nonempty (default "" ?b)) = false |- _ =>
      apply orb_false_iff in H as [Hr' Hc'];
      apply negb_false_iff in Hr', Hc'
  end.
  destruct new_role as [r|]; [|discriminate Hr'].
  destruct new_content as [c|]; [|discriminate Hc'].
  exists r, c. cbn [default from_option id] in *.
  split; [exact Hl|]. split; [exact Hr|].
  do 5 (split; [done|]).
  rewrite validate_session_split in Hvalid.
  cbn [chatHistory stamp_save with_chatHistory] in Hvalid.
  repeat case_match; try discriminate Hvalid.
  pose proof (first_error_none _ Hvalid) as Hall.
  assert (validate_role r = None /\ validate_content c = None) as [Hrole Hcontent].
  { split; apply Hall.
    - apply in_or_app. left.
      apply (in_map (fun m => validate_role (role m)) _
                    {| role := r; content := c; timestamp := now w;
                       metadata := default (JObj []) new_metadata |}).
      apply in_or_app. right. by left.
    - apply in_or_app. right. apply in_or_app. left.
      apply (in_map (fun m => validate_content (content m)) _
                    {| role := r; content := c; timestamp := now w;
                       metadata := default (JObj []) new_metadata |}).
      apply in_or_app. right. by left. }
  split.
  { unfold validate_role in Hrole.
    destruct (String.eqb r "user") eqn:E1; [left; by apply String.eqb_eq|].
    destruct (String.eqb r "assistant") eqn:E2; [right; by apply String.eqb_eq|].
    discriminate Hrole. }
  split; [by destruct c|].
  split; [reflexivity|].
  do 6 (split; [reflexivity|]).
  cbn [body get_field assoc_get String.eqb Ascii.eqb Bool.eqb].
  cbn [chatHistory stamp_save with_chatHistory]. by rewrite length_app.
Qed.

Lemma X7_witness_alice_says_hi :
  exists l1 s s' l2,
    sessions Sample.world = l1 ++ s :: l2
    /\ sessions
         (outcome_world
            (sessions_router (Sample.env (Sample.answer "")) (Some Sample.alice)
               (POST_chat "0" (Some "user") (Some "hi") None) Sample.world))
       = l1 ++ s' :: l2
    /\ chatHistory s' =
       chatHistory s ++ [{| role := "user"; content := "hi"; timestamp := 1000;
                            metadata := JObj [] |}].
Proof.
  destruct (X7_chat_message_is_appended (Sample.env (Sample.answer ""))
              Sample.alice "0" (Some "user") (Some "hi") None Sample.world
              _ _ _ Sample_unique_ids eq_refl eq_refl)
    as (l1 & s & s' & l2 & r & c & Hw & Hw' & _ & _ & _ & Hr & Hc & _ & _ & Hh & _).
  injection Hr as <-. injection Hc as <-.
  exists l1, s, s', l2. split; [exact Hw|]. split; [exact Hw'|exact Hh].
Defined.

(** X8.  A code update bumps the version by exactly one.  When
    [PUT /sessions/:sessionId/code] answers 200, the stored component
    code of the named session of the user holds the [jsx], [css] and
    [tsx] of the request (a later read gives the empty string for a
    missing one), its version is the previous version plus one and its
    modification time is the time of the request; the chat history and
    the UI state are untouched.  The response carries the component code
    of the document in memory: the same values, without the key [jsx] or
    [css] when the request did not carry it. *)
Theorem X8_code_update_bumps_the_version
    (env : Env) (user : User) (sessionId : string)
    (new_jsx new_css new_tsx : option string)
    (w w' : World) (resp : Response) (t : list Event) :
  unique_ids w ->
  sessions_router env (Some user) (PUT_code sessionId new_jsx new_css new_tsx) w
    = Returned resp w' t ->
  status resp = 200%nat ->
  exists l1 s s' l2,
    sessions w = l1 ++ s :: l2 /\ sessions w' = l1 ++ s' :: l2
    /\ _id s = sessionId /\ userId s = user_id user /\ isActive s = true
    /\ componentCode s' =
       {| jsx := default "" new_jsx; css := default "" new_css;
          tsx := default "" new_tsx;
          version := version (componentCode s) + 1; lastModified := now w |}
    /\ chatHistory s' = chatHistory s /\ uiState s' = uiState s
    /\ title s' = title s
    /\ get_field "componentCode" (body resp)
       = Some (obj_of [("jsx", JStr <$> new_jsx); ("css", JStr <$> new_css);
                       ("tsx", Some (JStr (default "" new_tsx)));
                       ("version", Some (JNum (version (componentCode s) + 1)));
                       ("lastModified", Some (JDate (now w)))]).
Proof.
  intros Huniq Hcode Hstatus.
  revert Hcode. unfold_handlers. run_handler; intros Hcode; simplify_eq;
    try discriminate Hstatus.
  match goal with
  | H : List.find _ (sessions w) = Some ?s, Hv : validate_session ?s' = None |- _ =>
      destruct (replace_doc_found _ _ s s' Huniq H eq_refl) as (l1 & l2 & Hl & Hr);
      apply found_matches, matches_owned_active_true in H as (Hid & Hown & Hact);
      exists l1, s, s', l2
  end.
  split; [exact Hl|]. split; [exact Hr|]. do 3 (split; [done|]).
  repeat (split; [reflexivity|]). reflexivity.
Qed.

Lemma X8_witness_version_two :
  let o := sessions_router (Sample.env (Sample.answer "")) (Some Sample.alice)
             (PUT_code "0" (Some "function A() { return 1 }") None None)
             Sample.world in
  exists l1 s s' l2 resp,
    sessions Sample.world = l1 ++ s :: l2
    /\ sessions (outcome_world o) = l1 ++ s' :: l2
    /\ outcome_value o = Some resp
    /\ version (componentCode s') = version (componentCode s) + 1
    /\ css (componentCode s') = ""
    /\ (get_field "componentCode" (body resp) ≫= get_field "css") = None
    /\ (get_field "componentCode" (body resp) ≫= get_field "jsx")
       = Some (JStr "function A() { return 1 }").
Proof.
  cbv zeta.
  destruct (X8_code_update_bumps_the_version (Sample.env (Sample.answer ""))
              Sample.alice "0" (Some "function A() { return 1 }") None None
              Sample.world _ _ _ Sample_unique_ids eq_refl eq_refl)
    as (l1 & s & s' & l2 & Hw & Hw' & _ & _ & _ & Hcode & _ & _ & _ & Hbody).
  exists l1, s, s'. eexists l2, _. split; [exact Hw|]. split; [exact Hw'|].
  split; [reflexivity|]. rewrite Hcode.
  split; [reflexivity|]. split; [reflexivity|]. rewrite Hbody.
  split; reflexivity.
Defined.

(** X9.  A metadata update changes the metadata only.  When
    [PUT /sessions/:sessionId] answers 200, the title, description and
    tags the request carries are stored trimmed, those it does not carry
    keep their value, [lastAccessed] and [updatedAt] are the time of the
    request, and the chat history, the code, the UI state, the owner and
    [isActive] are untouched; one command is sent to the store and Redis
    is neither read nor written. *)
Theorem X9_metadata_update_changes_metadata_only
    (env : Env) (user : User) (sessionId : string)
    (new_title new_description : option string) (new_tags : option (list string))
    (w w' : World) (resp : Response) (t : list Event) :
  sessions_router env (Some user)
    (PUT_session sessionId new_title new_description new_tags) w
    = Returned resp w' t ->
  status resp = 200%nat ->
  exists l1 s s' l2,
    sessions w = l1 ++ s :: l2 /\ sessions w' = l1 ++ s' :: l2
    /\ _id s = sessionId /\ userId s = user_id user /\ isActive s = true
    /\ title s' = default (title s) (trim <$> new_title)
    /\ description s' = default (description s) (trim <$> new_description)
    /\ tags s' = default (tags s) (map trim <$> new_tags)
    /\ lastAccessed s' = now w /\ updatedAt s' = now w
    /\ chatHistory s' = chatHistory s /\ componentCode s' = componentCode s
    /\ uiState s' = uiState s /\ userId s' = userId s /\ isActive s' = isActive s
    /\ t = [EvFindOneAndUpdate (owned_active user sessionId)]
    /\ redisClient w' = redisClient w
    /\ get_field "session" (body resp) = Some (Session_toJSON s').
Proof.
  intros Hput Hstatus.
  revert Hput. unfold_handlers. run_handler; intros Hput; simplify_eq;
    try discriminate Hstatus.
  match goal with
  | H : update_first _ _ _ = Some _ |- _ =>
      apply update_first_some in H as (l1 & x & l2 & Hl & Hx & -> & ->)
  end.
  apply matches_owned_active_true in Hx as (Hid & Hown & Hact).
  exists l1, x,
    (touch_updatedAt (now w)
       (set_metadata (now w) new_title new_description new_tags x)), l2.
  split; [exact Hl|]. split; [reflexivity|].
  do 3 (split; [done|]). repeat (split; [reflexivity|]). reflexivity.
Qed.

Lemma X9_witness_rename :
  exists l1 s s' l2,
    sessions Sample.world = l1 ++ s :: l2
    /\ sessions
         (outcome_world
            (sessions_router (Sample.env (Sample.answer "")) (Some Sample.bob)
               (PUT_session "1" (Some "  Top bar ") None None) Sample.world))
       = l1 ++ s' :: l2
    /\ title s' = "Top bar" /\ description s' = description s.
Proof.
  destruct (X9_metadata_update_changes_metadata_only
              (Sample.env (Sample.answer "")) Sample.bob "1"
              (Some "  Top bar ") None None Sample.world _ _ _ eq_refl eq_refl)
    as (l1 & s & s' & l2 & Hw & Hw' & _ & _ & _ & Ht & Hd & _).
  exists l1, s, s', l2. split; [exact Hw|]. split; [exact Hw'|].
  split; [exact Ht|exact Hd].
Defined.

Lemma count_roles (h : list ChatMessage) :
  (forall m, In m h -> validate_role (role m) = None) ->
  (count_role "user" h + count_role "assistant" h = length h)%nat.
Proof.
  unfold count_role. induction h as [|m h IH]; intros H; [reflexivity|].
  cbn [List.filter length].
  pose proof (H m (or_introl eq_refl)) as Hm. unfold validate_role in Hm.
  specialize (IH (fun x Hx => H x (or_intror Hx))).
  destruct (String.eqb (role m) "user") eqn:E1.
  - apply String.eqb_eq in E1. rewrite E1. cbn [String.eqb Ascii.eqb Bool.eqb length].
    cbn. lia.
  - destruct (String.eqb (role m) "assistant") eqn:E2; [|discriminate Hm].
    cbn [length]. lia.
Qed.

(** X10.  The statistics add up.  On a collection whose documents pass
    the schema, when [GET /sessions/:sessionId/stats] answers 200 the
    numbers it reports for the named session of the user are its message
    count, code version and dates, and the counts of [user] and of
    [assistant] messages sum to the message count; the request changes
    nothing and sends one query. *)
Theorem X10_statistics_add_up
    (env : Env) (user : User) (sessionId : string)
    (w w' : World) (resp : Response) (t : list Event) :
  docs_valid w ->
  sessions_router env (Some user) (GET_stats sessionId) w = Returned resp w' t ->
  status resp = 200%nat ->
  exists s (users assistants : nat),
    In s (sessions w) /\ _id s = sessionId /\ userId s = user_id user
    /\ body resp =
       JObj [("stats",
              JObj [("messageCount", JNum (Z.of_nat (length (chatHistory s))));
                    ("codeVersion", JNum (version (componentCode s)));
                    ("lastModified", JDate (lastModified (componentCode s)));
                    ("createdAt", JDate (createdAt s));
                    ("lastAccessed", JDate (lastAccessed s));
                    ("userMessages", JNum (Z.of_nat users));
                    ("assistantMessages", JNum (Z.of_nat assistants))])]
    /\ (users + assistants = length (chatHistory s))%nat
    /\ w' = w /\ t = [EvFindOne (owned_active user sessionId)]
    /\ users = count_role "user" (chatHistory s)
    /\ assistants = count_role "assistant" (chatHistory s).
Proof.
  intros Hvalid Hstats Hstatus.
  revert Hstats. unfold_handlers. run_handler; intros Hstats; simplify_eq;
    try discriminate Hstatus.
  match goal with
  | H : List.find _ (sessions _) = Some ?s |- _ =>
      pose proof (find_some _ _ H) as [Hin Hm];
      apply matches_owned_active_true in Hm as (Hid & Hown & Hact);
      exists s, (count_role "user" (chatHistory s)),
             (count_role "assistant" (chatHistory s))
  end.
  do 3 (split; [done|]). split; [reflexivity|]. split; [|done].
  apply count_roles. intros m Hm.
  pose proof (Hvalid _ Hin) as Hv. rewrite validate_session_split in Hv.
  repeat case_match; try discriminate Hv.
  apply (first_error_none _ Hv). apply in_or_app. left.
  by apply (in_map (fun m => validate_role (role m))).
Qed.

Lemma Sample_talked_world_valid : docs_valid Sample.talked_world.
Proof. intros s [<-|[<-|[]]]; reflexivity. Qed.

(** X10 at work, after a conversation of two user messages and one
    answer. *)
Lemma X10_witness_two_and_one :
  exists s users assistants,
    In s (sessions Sample.talked_world) /\ _id s = "0"
    /\ users = 2%nat /\ assistants = 1%nat
    /\ (users + assistants = length (chatHistory s))%nat.
Proof.
  destruct (X10_statistics_add_up (Sample.env (Sample.answer "")) Sample.alice "0"
              Sample.talked_world _ _ _ Sample_talked_world_valid eq_refl eq_refl)
    as (s & u & a & Hin & Hid & _ & Hbody & Hsum & _).
  exists s, u, a. split; [exact Hin|]. split; [exact Hid|].
  lazymatch type of Hbody with
  | ?reported = _ =>
      let v := eval vm_compute in reported in change reported with v in Hbody
  end.
  injection Hbody. intros.
  split; [lia|]. split; [lia|exact Hsum].
Defined.

(** ** The list route *)

Lemma in_insert_by_lastAccessed (s x : Session) (l : list Session) :
  In x (insert_by_lastAccessed s l) <-> x = s \/ In x l.
Proof.
  induction l as [|y l IH]; cbn [insert_by_lastAccessed].
  - cbn. intuition.
  - destruct (lastAccessed y <? lastAccessed s)%nat; cbn [In]; [intuition|].
    rewrite IH. intuition.
Qed.

Lemma in_sort_lastAccessed_desc (x : Session) (l : list Session) :
  In x (sort_lastAccessed_desc l) <-> In x l.
Proof.
  unfold sort_lastAccessed_desc. induction l as [|y l IH]; cbn [fold_right]; [done|].
  rewrite in_insert_by_lastAccessed, IH. cbn. intuition.
Qed.

Lemma descending_insert (s : Session) (l : list Session) :
  descending l -> descending (insert_by_lastAccessed s l).
Proof.
  induction l as [|y l IH]; cbn [insert_by_lastAccessed]; intros Hl.
  - cbn. split; [intros ? []|exact I].
  - destruct Hl as [Hy Hl].
    destruct (Nat.ltb_spec (lastAccessed y) (lastAccessed s)).
    + split; [|split; assumption].
      intros z [<-|Hz]; [lia|]. specialize (Hy z Hz). lia.
    + split; [|auto].
      intros z Hz. apply in_insert_by_lastAccessed in Hz as [->|Hz]; auto.
Qed.

Lemma descending_sort (l : list Session) : descending (sort_lastAccessed_desc l).
Proof.
  unfold sort_lastAccessed_desc.
  induction l as [|y l IH]; cbn [fold_right]; [exact I|].
  by apply descending_insert.
Qed.

Lemma in_drop_In {A} (n : nat) (l : list A) (x : A) : In x (drop n l) -> In x l.
Proof.
  revert l. induction n as [|n IH]; intros [|y l]; cbn [drop In]; auto.
Qed.

Lemma in_take_In {A} (n : nat) (l : list A) (x : A) : In x (take n l) -> In x l.
Proof.
  revert l. induction n as [|n IH]; intros [|y l]; cbn [take In]; try tauto.
  intros [->|H]; auto.
Qed.

Lemma descending_drop (n : nat) (l : list Session) :
  descending l -> descending (drop n l).
Proof.
  revert l. induction n as [|n IH]; intros [|y l]; cbn [drop]; auto.
  intros [_ Hl]. auto.
Qed.

Lemma descending_take (n : nat) (l : list Session) :
  descending l -> descending (take n l).
Proof.
  revert l. induction n as [|n IH]; intros [|y l]; cbn [take]; auto.
  - intros _. exact I.
  - intros [Hy Hl]. split; [|auto]. intros z Hz. apply Hy.
    by eapply in_take_In.
Qed.

Lemma matches_list_query (env : Env) (user : User) (search : option string)
    (s : Session) :
  matches env (list_query user search) s = true ->
  userId s = user_id user /\ isActive s = true.
Proof.
  unfold matches, list_query, opt_test. cbn [q_id q_userId q_isActive q_search].
  rewrite !andb_true_iff, String.eqb_eq. intros [[[_ Hu] Ha] _].
  split; [done|]. by destruct (isActive s).
Qed.

Lemma insert_by_lastAccessed_perm (s : Session) (l : list Session) :
  insert_by_lastAccessed s l ≡ₚ s :: l.
Proof.
  induction l as [|x l IH]; cbn [insert_by_lastAccessed]; [done|].
  destruct (lastAccessed x <? lastAccessed s)%nat; [done|].
  rewrite IH. apply Permutation_swap.
Qed.

Lemma sort_lastAccessed_desc_perm (l : list Session) :
  sort_lastAccessed_desc l ≡ₚ l.
Proof.
  unfold sort_lastAccessed_desc.
  induction l as [|x l IH]; cbn [fold_right]; [done|].
  by rewrite insert_by_lastAccessed_perm, IH.
Qed.

Lemma filter_sublist {A} (f : A -> bool) (l : list A) :
  List.filter f l `sublist_of` l.
Proof.
  induction l as [|x l IH]; cbn [List.filter]; [done|].
  destruct (f x); by constructor.
Qed.

Lemma map_sublist {A B} (f : A -> B) (l1 l2 : list A) :
  l1 `sublist_of` l2 -> map f l1 `sublist_of` map f l2.
Proof. induction 1; cbn [map]; by constructor. Qed.

Lemma listed_ids_distinct (f : Session -> bool) (skip limit : nat)
    (l : list Session) :
  NoDup (map _id l) ->
  NoDup (map _id (take limit (drop skip (sort_lastAccessed_desc (List.filter f l))))).
Proof.
  intros Hl.
  apply (sublist_NoDup _ (map _id (sort_lastAccessed_desc (List.filter f l)))).
  - apply (NoDup_Permutation_proper _ _ (Permutation_map _id (sort_lastAccessed_desc_perm _))).
    eapply sublist_NoDup; [exact Hl|]. apply map_sublist, filter_sublist.
  - apply map_sublist. etransitivity; [apply sublist_take|apply sublist_drop].
Qed.

(** X11.  The list shows the sessions of the user.  When [GET /sessions]
    answers 200, every session it returns is an active session of the
    requesting user that matches the search; the sessions come in
    descending order of [lastAccessed], none comes twice, and they are at
    most as many as [parseInt] reads in [limit]; [total] is the number of
    all the active sessions of the user that match; two queries are sent,
    both with the filter of the user, and nothing is changed. *)
Theorem X11_list_shows_the_sessions_of_the_user
    (env : Env) (user : User) (page limit : option QueryNumber)
    (search : option string) (w w' : World) (resp : Response) (t : list Event) :
  unique_ids w ->
  sessions_router env (Some user) (GET_sessions page limit search) w
    = Returned resp w' t ->
  status resp = 200%nat ->
  let q := list_query user search in
  exists items,
    get_field "sessions" (body resp)
    = Some (JArr (map (fun s => ensureSessionDefaults (now w) (select_summary s))
                    items))
    /\ (forall s, In s items ->
          In s (sessions w) /\ userId s = user_id user /\ isActive s = true
          /\ matches env q s = true)
    /\ descending items
    /\ NoDup (map _id items)
    /\ (get_field "pagination" (body resp) ≫= get_field "total")
       = Some (JNum (Z.of_nat (length (List.filter (matches env q) (sessions w)))))
    /\ (length items <= length (List.filter (matches env q) (sessions w)))%nat
    /\ (length items <= Pos.to_nat (as_parseInt (default (numeral 10) limit)))%nat
    /\ w' = w /\ t = [EvFind q; EvCountDocuments q].
Proof.
  intros Huniq Hlist Hstatus q.
  exists (take (Pos.to_nat (as_parseInt (default (numeral 10) limit)))
            (drop ((Pos.to_nat (as_number (default (numeral 1) page)) - 1)
                   * Pos.to_nat (as_number (default (numeral 10) limit)))
               (sort_lastAccessed_desc (List.filter (matches env q) (sessions w))))).
  assert (forall n k s,
            In s (take n (drop k (sort_lastAccessed_desc
                                    (List.filter (matches env q) (sessions w))))) ->
            In s (sessions w) /\ userId s = user_id user /\ isActive s = true
            /\ matches env q s = true) as Hitems.
  { intros n k s Hs. apply in_take_In, in_drop_In in Hs.
    rewrite in_sort_lastAccessed_desc in Hs.
    apply filter_In in Hs as [Hin Hm]. split; [done|].
    destruct (matches_list_query env user search s Hm) as [Hu Ha]. done. }
  assert (forall n k,
            (length (take n (drop k (sort_lastAccessed_desc
                                       (List.filter (matches env q) (sessions w)))))
             <= length (List.filter (matches env q) (sessions w)))%nat) as Hlen.
  { intros n k. rewrite length_take, length_drop.
    rewrite (Permutation_length (sort_lastAccessed_desc_perm _)). lia. }
  revert Hlist. unfold_handlers. run_handler; intros Hlist; simplify_eq;
    try discriminate Hstatus.
  all: unfold q, list_query in *.
  all: repeat match goal with
         | H : str_nonempty _ = _ |- _ => rewrite H in *; clear H
         end.
  all: split; [reflexivity|]. all: split; [apply Hitems|].
  all: split; [apply descending_take, descending_drop, descending_sort|].
  all: split; [by apply listed_ids_distinct|].
  all: split; [reflexivity|]. all: split; [apply Hlen|].
  all: split; [rewrite length_take; lia|]. all: split; reflexivity.
Qed.

(** X11 at work: Alice has three active sessions, a deleted one, and Bob
    one; she asks for the first page with the limit [1e1], which the
    query reads as 1 and the page count as 10. *)
Lemma X11_witness_limit_1e1 :
  let limit := {| as_number := 10; as_parseInt := 1 |} in
  let o := sessions_router (Sample.env (Sample.answer "")) (Some Sample.alice)
             (GET_sessions None (Some limit) None) Sample.busy_world in
  exists items resp,
    outcome_value o = Some resp
    /\ length items = 1%nat
    /\ (forall s, In s items -> userId s = "alice" /\ isActive s = true)
    /\ (get_field "pagination" (body resp) ≫= get_field "total")
       = Some (JNum 3)
    /\ (get_field "pagination" (body resp) ≫= get_field "pages")
       = Some (JNum 1).
Proof.
  cbv zeta.
  assert (unique_ids Sample.busy_world) as Huniq.
  { unfold unique_ids. apply NoDup_ListNoDup.
    repeat (apply List.NoDup_cons;
            [cbn; intros Hin; repeat destruct Hin as [Hin|Hin]; done|]).
    apply List.NoDup_nil. }
  destruct (X11_list_shows_the_sessions_of_the_user
              (Sample.env (Sample.answer "")) Sample.alice
              None (Some {| as_number := 10; as_parseInt := 1 |}) None
              Sample.busy_world _ _ _ Huniq eq_refl eq_refl)
    as (items & Hsessions & Hitems & _ & _ & Htotal & _).
  exists items. eexists. split; [reflexivity|].
  split; [|split; [|split; [exact Htotal|reflexivity]]].
  - lazymatch type of Hsessions with
    | ?listed = _ =>
        let v := eval vm_compute in listed in change listed with v in Hsessions
    end.
    injection Hsessions as Hmap. apply (f_equal length) in Hmap.
    rewrite length_map in Hmap. cbn [length] in Hmap. by symmetry.
  - intros s Hs. destruct (Hitems s Hs) as (_ & Hu & Ha & _). by split.
Defined.

(** ** The AI routes *)

(** X13.  What an AI request can do.  Every request to the AI router is
    answered (no handler lets an error escape); it never reads or writes
    the session collection and calls the generative endpoint at most
    once.  A request answered 400 has done nothing at all; one not
    answered 200 has written nothing to Redis; and the routes other than
    [/generate] never use Redis. *)
Theorem X13_ai_requests_effects
    (env : Env) (authenticated : option User) (r : AiRequest) (w : World) :
  exists resp w' t,
    ai_router env authenticated r w = Returned resp w' t
    /\ sessions w' = sessions w
    /\ store_calls t = 0%nat
    /\ (length (List.filter is_fetch t) <= 1)%nat
    /\ (status resp = 400%nat -> w' = w /\ t = [])
    /\ (status resp <> 200%nat ->
        redisClient w' = redisClient w /\ List.filter is_redis_write t = [])
    /\ match r with
       | POST_generate _ _ _ _ => True
       | _ => w' = w /\ List.filter is_redis_read t = []
              /\ List.filter is_redis_write t = []
       end.
Proof.
  destruct authenticated as [user|];
    [|destruct r; eexists _, _, _; (split; [reflexivity|]);
      cbn; repeat split; first [done | lia]].
  destruct r; unfold_handlers; run_handler;
    eexists _, _, _; (split; [reflexivity|]);
    cbn; repeat split; first [done | lia | intros; discriminate | congruence].
Qed.

Lemma last5_idem {A} (l : list A) : last5 (last5 l) = last5 l.
Proof.
  unfold last5. rewrite length_drop.
  replace (length l - (length l - 5) - 5)%nat with 0%nat by lia.
  apply drop_0.
Qed.

Lemma last5_nonempty {A} (l : list A) :
  (0 <? length (last5 l))%nat = (0 <? length l)%nat.
Proof.
  unfold last5. rewrite length_drop.
  destruct (Nat.ltb_spec 0 (length l)), (Nat.ltb_spec 0 (length l - (length l - 5)));
    first [reflexivity | lia].
Qed.

Lemma generateComponentPrompt_last5 (userPrompt : string) (existingCode : jsval)
    (chatHistory : list (string * string)) :
  generateComponentPrompt userPrompt existingCode (last5 chatHistory)
  = generateComponentPrompt userPrompt existingCode chatHistory.
Proof.
  unfold generateComponentPrompt.
  by rewrite last5_idem, last5_nonempty.
Qed.

(** X14.  Only the last five messages count.  [/generate] puts the last
    five messages of the chat history it is sent into the prompt, and
    nothing of the earlier ones: a request with a longer history is
    served exactly as the request with its last five messages, with the
    same answer, the same upstream call and the same cache entry. *)
Theorem X14_generate_uses_the_last_five_messages
    (env : Env) (authenticated : option User) (prompt sessionId : option string)
    (existingCode : jsval) (chatHistory : list (string * string)) (w : World) :
  ai_router env authenticated
    (POST_generate prompt sessionId existingCode (Some chatHistory)) w
  = ai_router env authenticated
      (POST_generate prompt sessionId existingCode (Some (last5 chatHistory))) w.
Proof.
  unfold ai_router, auth, ai_handler, ai_generate, ai_generate_body.
  destruct authenticated as [user|]; [|reflexivity].
  destruct prompt as [prompt|]; [|reflexivity].
  simpl_default.
  by rewrite generateComponentPrompt_last5.
Qed.

(** ** The preview *)

Lemma take_span_forall (p : ascii -> bool) (s : string) :
  forallb p (list_ascii_of_string (Preview.take_str (Preview.span_len p s) s))
  = true.
Proof.
  induction s as [|c s IH]; [reflexivity|].
  cbn [Preview.span_len]. destruct (p c) eqn:Hc; [|reflexivity].
  cbn [Preview.take_str list_ascii_of_string forallb]. by rewrite Hc, IH.
Qed.

Lemma take_span_nonempty (p : ascii -> bool) (s : string) :
  (0 <? Preview.span_len p s)%nat = true ->
  Preview.take_str (Preview.span_len p s) s <> "".
Proof.
  destruct s as [|c s]; [discriminate|].
  cbn [Preview.span_len]. by destruct (p c).
Qed.

Lemma component_at_word (s name : string) :
  Preview.component_at s = Some name ->
  name <> "" /\ forallb Preview.is_word (list_ascii_of_string name) = true.
Proof.
  unfold Preview.component_at.
  destruct (Preview.starts_with "function" s);
    [|destruct (Preview.starts_with "const" s); [|discriminate]].
  all: match goal with
       | |- (if ?a && ?b then _ else _) = _ -> _ =>
           destruct a; [|discriminate]; destruct b eqn:Hn; [|discriminate]
       end.
  all: cbn [andb]; intros [= <-].
  all: split; [by apply take_span_nonempty|apply take_span_forall].
Qed.

Lemma component_match_word (s name : string) :
  Preview.component_match s = Some name ->
  name <> "" /\ forallb Preview.is_word (list_ascii_of_string name) = true.
Proof.
  induction s as [|c s IH]; cbn [Preview.component_match].
  - destruct (Preview.component_at "") eqn:E; [|discriminate].
    intros [= <-]. by eapply component_at_word.
  - destruct (Preview.component_at (String c s)) eqn:E; [|exact IH].
    intros [= <-]. by eapply component_at_word.
Qed.

(** X15.  The component name is an identifier.  Whatever the JSX, the
    name the preview mounts (and writes into the script of the frame) is
    not empty and consists of word characters only (letters, digits and
    the underscore): it is the capture of the component pattern, or
    [App]. *)
Theorem X15_component_name_is_a_word (jsxCode : string) :
  Preview.componentName jsxCode <> ""
  /\ forallb Preview.is_word (list_ascii_of_string (Preview.componentName jsxCode))
     = true
  /\ (Preview.component_match jsxCode = None ->
      Preview.componentName jsxCode = "App").
Proof.
  unfold Preview.componentName.
  destruct (Preview.component_match jsxCode) as [name|] eqn:E.
  - destruct (component_match_word _ _ E) as [Hne Hword].
    split; [exact Hne|]. split; [exact Hword|discriminate].
  - split; [discriminate|]. split; reflexivity.
Qed.

Lemma remove_all_none (match_len : string -> option nat) (needle s : string) :
  (forall x, Preview.starts_with needle x = false -> match_len x = None) ->
  Preview.includes needle s = false ->
  Preview.remove_all match_len 0 s = s.
Proof.
  intros Hlen. induction s as [|c s IH]; [reflexivity|].
  rewrite includes_unfold. intros [Hhead Hrest]%orb_false_iff.
  cbn [Preview.remove_all]. rewrite (Hlen _ Hhead). f_equal. auto.
Qed.

Lemma cleaned_without_keywords (text : string) :
  Preview.includes "import" (trim text) = false ->
  Preview.includes "export" (trim text) = false ->
  Preview.cleaned text = trim text.
Proof.
  intros Himport Hexport. unfold Preview.cleaned, Preview.strip_imports,
    Preview.strip_exports.
  rewrite (remove_all_none Preview.import_len "import") by
    (try exact Himport; intros x Hx; unfold Preview.import_len; by rewrite Hx).
  apply (remove_all_none Preview.export_len "export"); [|exact Hexport].
  intros x Hx. unfold Preview.export_len. by rewrite Hx.
Qed.

(** X16.  Code without imports and exports is previewed as written.  The
    two replacements of [renderPreview] leave a JSX text in which neither
    [import] nor [export] occurs as it is; so, for such a text that is not
    empty and contains [return], the document of the frame is assembled
    from the CSS, the trimmed text and the name of its component (and,
    without [return], from the placeholder in place of the text). *)
Theorem X16_clean_code_is_kept (componentCode : ComponentCode) :
  jsx componentCode <> "" ->
  Preview.includes "import" (trim (jsx componentCode)) = false ->
  Preview.includes "export" (trim (jsx componentCode)) = false ->
  Preview.cleaned (jsx componentCode) = trim (jsx componentCode)
  /\ exists frame,
       Preview.renderPreview componentCode = Preview.PreviewFrame frame
       /\ Preview.srcDoc frame =
          Preview.htmlContent (css componentCode)
            (if Preview.includes "return" (trim (jsx componentCode))
             then trim (jsx componentCode)
             else Preview.placeholder
                    (Preview.componentName (trim (jsx componentCode))))
            (Preview.componentName (trim (jsx componentCode))).
Proof.
  intros Hjsx Himport Hexport.
  pose proof (cleaned_without_keywords _ Himport Hexport) as Hclean.
  split; [exact Hclean|]. unfold Preview.renderPreview.
  destruct (jsx componentCode) as [|c rest] eqn:E; [done|].
  cbn [str_nonempty negb]. rewrite Hclean.
  eexists. split; [reflexivity|]. cbn [Preview.srcDoc].
  by destruct (Preview.includes "return" (trim (String c rest))).
Qed.

Lemma X16_witness_arrow_component :
  let code := {| jsx := "  const App = () => { return <div/>; }  ";
                 css := "div { margin: 0 }"; tsx := ""; version := 1;
                 lastModified := 0 |} in
  Preview.cleaned (jsx code) = "const App = () => { return <div/>; }"
  /\ exists frame,
       Preview.renderPreview code = Preview.PreviewFrame frame
       /\ Preview.srcDoc frame =
          Preview.htmlContent "div { margin: 0 }"
            "const App = () => { return <div/>; }" "App".
Proof.
  cbv zeta.
  exact (X16_clean_code_is_kept
           {| jsx := "  const App = () => { return <div/>; }  ";
              css := "div { margin: 0 }"; tsx := ""; version := 1;
              lastModified := 0 |}
           ltac:(discriminate) eq_refl eq_refl).
Defined.

(** ** Failures *)

(** X17.  A request that fails changes nothing.  With a Redis client
    that is connected and serves its commands, a request to the sessions
    router that is answered with a status other than 200 and 201 (400,
    401, 404 or 500) leaves the session collection and Redis as they
    were: nothing is saved and nothing is cached. *)
Theorem X17_failed_request_changes_nothing
    (env : Env) (authenticated : option User) (r : SessionsRequest)
    (w w' : World) (client : gmap string RedisEntry) (resp : Response)
    (t : list Event) :
  redisClient w = Some client ->
  sessions_router env authenticated r w = Returned resp w' t ->
  status resp <> 200%nat -> status resp <> 201%nat ->
  sessions w' = sessions w /\ redisClient w' = redisClient w
  /\ List.filter is_redis_write t = []
  /\ (forall id, ~ In (EvSave id) t)
  /\ In (status resp) [400; 401; 404; 500]%nat.
Proof.
  intros Hredis Hr Hok Hcreated.
  destruct authenticated as [user|];
    [|destruct r; injection Hr as <- <- <-; cbn;
      repeat split; first [done | intros ? [] | tauto]].
  revert Hr. destruct r; unfold_handlers; run_handler; intros Hr; simplify_eq;
    try (by destruct Hok); try (by destruct Hcreated).
  all: cbn; repeat split; first [done | congruence | tauto | intros ? [] | idtac].
  all: repeat match goal with H : _ \/ _ |- _ => destruct H end;
    first [discriminate | contradiction].
Qed.

Lemma X17_witness_foreign_session :
  exists resp w' t,
    sessions_router (Sample.env (Sample.answer "")) (Some Sample.alice)
      (PUT_code "1" (Some "function B() { return 2 }") None None) Sample.world
    = Returned resp w' t
    /\ status resp = 404%nat
    /\ sessions w' = sessions Sample.world
    /\ redisClient w' = redisClient Sample.world.
Proof.
  eexists _, _, _. split; [vm_compute; reflexivity|]. split; [reflexivity|].
  pose proof (X17_failed_request_changes_nothing
                (Sample.env (Sample.answer "")) (Some Sample.alice)
                (PUT_code "1" (Some "function B() { return 2 }") None None)
                Sample.world _ ∅ _ _ eq_refl eq_refl
                ltac:(discriminate) ltac:(discriminate))
    as (Hs & Hr & _).
  split; [exact Hs|exact Hr].
Defined.

(** X18.  A write is kept when caching fails.  The routes that mirror the
    session into Redis save the document first and do not undo the save:
    if the request would be answered 200 with Redis connected, then
    without a Redis client it is answered 500, and the session collection
    ends up exactly as in the successful run. *)
Theorem X18_write_is_kept_when_caching_fails
    (env : Env) (user : User) (r : SessionsRequest) (sessionId : string)
    (w w1 : World) (client : gmap string RedisEntry) (resp : Response)
    (t1 : list Event) :
  redisClient w = None ->
  mirrored r = Some sessionId ->
  sessions_router env (Some user) r (set_redis client w) = Returned resp w1 t1 ->
  status resp = 200%nat ->
  exists resp' w' t',
    sessions_router env (Some user) r w = Returned resp' w' t'
    /\ status resp' = 500%nat
    /\ sessions w' = sessions w1
    /\ redisClient w' = None
    /\ List.filter is_store_call t' = List.filter is_store_call t1.
Proof.
  intros Hredis Hmirrored Hr Hstatus.
  destruct r; try discriminate Hmirrored.
  all: revert Hr; unfold_handlers; run_handler; intros Hr; simplify_eq;
    try discriminate Hstatus.
  all: cbn [redisClient sessions set_redis set_sessions] in *; simplify_eq.
  all: eexists _, _, _; (split; [reflexivity|]); cbn; repeat split; done.
Qed.

Lemma X18_witness_code_without_redis :
  exists resp' w' t',
    sessions_router (Sample.env (Sample.answer "")) (Some Sample.alice)
      (PUT_code "0" (Some "function A() { return 1 }") None None)
      Sample.world_without_redis
    = Returned resp' w' t'
    /\ status resp' = 500%nat
    /\ sessions w' =
       sessions
         (outcome_world
            (sessions_router (Sample.env (Sample.answer "")) (Some Sample.alice)
               (PUT_code "0" (Some "function A() { return 1 }") None None)
               Sample.world)).
Proof.
  destruct (X18_write_is_kept_when_caching_fails
              (Sample.env (Sample.answer "")) Sample.alice
              (PUT_code "0" (Some "function A() { return 1 }") None None) "0"
              Sample.world_without_redis _ ∅ _ _ eq_refl eq_refl eq_refl eq_refl)
    as (resp' & w' & t' & Hr & Hstatus & Hs & _).
  exists resp', w', t'. split; [exact Hr|]. split; [exact Hstatus|exact Hs].
Defined.

(** ** The UI state *)




(** ** Upstream failures *)

Lemma call_gemini_not_ok (env : Env) (p : string) (w : World) (st : nat)
    (result : json) :
  fetch_gemini env (now w) p = FetchResponse false st (Some result) ->
  result <> JNull ->
  exists message,
    call_gemini env p w = Thrown message w [EvFetch p]
    /\ (forall e m, get_field "error" result = Some e ->
                    get_field "message" e = Some (JStr m) -> m <> "" ->
                    message = m)
    /\ (get_field "error" result = None ->
        message = "HTTP error! status: " +:+ pretty st).
Proof.
  intros Hfetch Hnull. unfold call_gemini. unfold_M. rewrite Hfetch.
  cbn [negb]. destruct result; try done.
  all: unfold_M; cbn [get_field]; eexists; (split; [reflexivity|]).
  all: split; [intros e m He Hm Hne|intros He]; try discriminate He.
  all: try reflexivity.
  - rewrite He. destruct e; try discriminate Hm.
    rewrite Hm. unfold js_or. cbn [truthy_val truthy].
    destruct m; [done|reflexivity].
  - by rewrite He.
Qed.

Ltac keep_gemini :=
  repeat match goal with
  | H : call_gemini ?env ?p ?w = ?o |- _ =>
      lazymatch o with
      | Returned _ _ ?t => is_var t
      | Thrown _ _ ?t => is_var t
      end;
      let E := fresh in
      pose proof (call_gemini_effect env p w) as E;
      rewrite H in E; cbn [outcome_world outcome_trace] in E;
      destruct E; subst
  end.

(** X20.  An upstream error is reported, not hidden.  When the
    generative endpoint answers a call of an AI route with a status that
    is not ok and a JSON body, the route answers 500 and passes on, as
    [details], the [error.message] of that body if it has a non-empty
    one, and [HTTP error! status: N] with the upstream status if the
    body has no [error]. *)
Theorem X20_upstream_error_is_reported
    (env : Env) (authenticated : option User) (r : AiRequest) (w w' : World)
    (resp : Response) (t : list Event) (p : string) (st : nat) (result : json) :
  ai_router env authenticated r w = Returned resp w' t ->
  In (EvFetch p) t ->
  fetch_gemini env (now w) p = FetchResponse false st (Some result) ->
  result <> JNull ->
  status resp = 500%nat
  /\ (forall e m, get_field "error" result = Some e ->
                  get_field "message" e = Some (JStr m) -> m <> "" ->
                  get_field "details" (body resp) = Some (JStr m))
  /\ (get_field "error" result = None ->
      get_field "details" (body resp)
      = Some (JStr ("HTTP error! status: " +:+ pretty st))).
Proof.
  intros Hr Hin Hfetch Hnull.
  destruct (call_gemini_not_ok env p w st result Hfetch Hnull)
    as (message & Hcall & Hmessage & Hstatus).
  destruct authenticated as [user|];
    [|destruct r; injection Hr as <- <- <-; destruct Hin].
  revert Hr. destruct r; unfold_handlers; unfold_M;
    repeat (case_next; keep_gemini; unfold_M); intros Hr; simplify_eq.
  all: cbn [In app] in Hin;
    repeat match goal with H : _ \/ _ |- _ => destruct H end;
    try contradiction; simplify_eq.
  all: match goal with
       | H : call_gemini _ _ _ = _ |- _ => rewrite Hcall in H; simplify_eq
       end.
  all: cbn [status body get_field assoc_get String.eqb Ascii.eqb Bool.eqb].
  all: split; [reflexivity|]; split.
  all: first [intros e m He Hm Hne; by rewrite (Hmessage e m He Hm Hne)
             | intros He; by rewrite (Hstatus He)].
Qed.

Lemma X20_witness_quota_exceeded :
  let reply :=
    FetchResponse false 429
      (Some (JObj [("error", JObj [("message", JStr "quota exceeded")])])) in
  exists resp w' t,
    ai_router (Sample.env reply) (Some Sample.alice)
      (POST_analyze (Some (JStr "function A() { return 1 }"))) Sample.world
    = Returned resp w' t
    /\ status resp = 500%nat
    /\ get_field "details" (body resp) = Some (JStr "quota exceeded").
Proof.
  cbv zeta. eexists _, _, _. split; [vm_compute; reflexivity|].
  destruct (X20_upstream_error_is_reported
              (Sample.env
                 (FetchResponse false 429
                    (Some (JObj [("error",
                                  JObj [("message", JStr "quota exceeded")])]))))
              (Some Sample.alice)
              (POST_analyze (Some (JStr "function A() { return 1 }")))
              Sample.world _ _ _
              (analyzePrompt (JStr "function A() { return 1 }")) 429%nat _
              eq_refl (or_introl eq_refl) eq_refl ltac:(discriminate))
    as (Hstatus & Hmessage & _).
  split; [exact Hstatus|].
  exact (Hmessage _ _ eq_refl eq_refl ltac:(discriminate)).
Defined.
